(** * Trading-bot edge functions: alert processing and webhook issuing

    A shallow embedding of the two Netlify edge functions
    [netlify/edge-functions/processAlert.edge.js] and
    [netlify/edge-functions/generateWebhook.edge.js], and the properties
    their specification states about them.

    Layout:
    - [JSNumber]: ECMAScript Number values (IEEE-754 binary64) with the
      operations the handlers use, rounding written out over [Q];
    - [JSString]: the string operations the handlers use;
    - [JSValue]: JSON / JavaScript values, truthiness, property access;
    - [JSDate]: ECMAScript time values and the calendar functions behind
      [getDate], [setDate] and [toISOString];
    - [Eff]: the effect monad (state, early [return], exceptions);
    - [Http], [Database]: requests, responses and the four tables;
    - [ProcessAlert], [GenerateWebhook]: the two handlers;
    - [Binary64], [QuantityNotions], [AlertNotions], [WebhookNotions]:
      the vocabulary of the properties;
    - [Samples]: concrete worlds, rows and requests;
    - [NumberFacts], [Binary64Check], [CalendarFacts]: the arithmetic of
      the model, and its agreement with hardware floats;
    - [QuantityFacts], [ValueFacts], [AlertFacts], [WebhookFacts]: the
      properties of the two handlers;
    - [TradeHistory]: the computations of the trade history page
      [src/pages/TradeHistory.tsx]; [RunNotions], [IssueNotions],
      [MoreSamples], [HistorySamples]: the vocabulary and the
      deployments of the properties below (they stand with the
      definitions, before the first lemma);
    - [IntegerFacts], [OrderFacts], [QuantityOrderFacts]: the order of
      numbers, and the normalisation as a monotone function;
    - [AlertRunFacts], [StatusFacts]: whole runs of the alert processor;
    - [IssueFacts], [TextFacts], [IssueTextFacts]: whole runs of the
      webhook issuer; [RoundTripFacts]: the issuer and the processor
      together;
    - [HistoryFacts]: the filters of the trade history page. *)

From Stdlib Require Import ZArith QArith Qround Qabs Qpower Lia Lqa.
From Stdlib Require Import List String Ascii Bool.
From Stdlib Require Import DecimalString DecimalN DecimalFacts.
From Stdlib Require Import Floats.
Import ListNotations.

Set Implicit Arguments.

(* ================================================================== *)
(** * ECMAScript numbers *)
(* ================================================================== *)

Module JSNumber.

Local Open Scope Q_scope.

(** A Number is NaN, an infinity, or a finite binary64 value, held as the
    rational it denotes.  Negative zero is identified with zero: no
    operation used by the handlers tells them apart except division by
    zero, which takes the zero to be positive. *)
Inductive number : Type :=
| NaN
| PosInf
| NegInf
| Fin (q : Q).

(** Nearest integer, ties to even: the rounding of every IEEE operation. *)
Definition rne (q : Q) : Z :=
  let f := Qfloor q in
  match Qcompare (q - inject_Z f) (1 # 2) with
  | Lt => f
  | Gt => (f + 1)%Z
  | Eq => if Z.even f then f else (f + 1)%Z
  end.

(** Nearest integer, ties to the larger one: the rounding of [toFixed]
    ("if there are two such n, pick the larger n"). *)
Definition rhu (q : Q) : Z := Qfloor (q + (1 # 2)).

(** [ilog2 q] is the integer [l] with [2^l <= q < 2^(l+1)], for [0 < q]. *)
Definition ilog2 (q : Q) : Z :=
  let l := (Z.log2 (Qnum q) - Z.log2 (Zpos (Qden q)))%Z in
  if Qle_bool (2 ^ l) q then l else (l - 1)%Z.

(** Exponent of the unit in the last place of the binary64 values around
    [q]: 53 significant bits, subnormals below [2^-1022]. *)
Definition binade (q : Q) : Z := Z.max (ilog2 q - 52) (-1074).

(** Round a positive rational to 53 bits, exponent unbounded above. *)
Definition round_pos (q : Q) : Q :=
  inject_Z (rne (q / 2 ^ binade q)) * 2 ^ binade q.

(** The binary64 value of a real number: round to nearest, ties to even,
    overflow to an infinity. *)
Definition to_double (q : Q) : number :=
  match Qcompare q 0 with
  | Eq => Fin 0
  | Gt => let r := round_pos q in
          if Qle_bool (2 ^ 1024) r then PosInf else Fin (Qred r)
  | Lt => let r := round_pos (- q) in
          if Qle_bool (2 ^ 1024) r then NegInf else Fin (Qred (- r))
  end.

(** [x < y] *)
Definition lt (x y : number) : bool :=
  match x, y with
  | NaN, _ | _, NaN => false
  | PosInf, _ => false
  | _, NegInf => false
  | NegInf, _ => true
  | _, PosInf => true
  | Fin a, Fin b => negb (Qle_bool b a)
  end.

(** [x <= y] *)
Definition le (x y : number) : bool :=
  match x, y with
  | NaN, _ | _, NaN => false
  | _, _ => negb (lt y x)
  end.

(** [x === y] on numbers *)
Definition eqb (x y : number) : bool :=
  match x, y with
  | PosInf, PosInf | NegInf, NegInf => true
  | Fin a, Fin b => Qeq_bool a b
  | _, _ => false
  end.

Definition is_neg (q : Q) : bool := negb (Qle_bool 0 q).

Definition inf_of_sign (neg : bool) : number := if neg then NegInf else PosInf.

Definition opp (x : number) : number :=
  match x with
  | NaN => NaN
  | PosInf => NegInf
  | NegInf => PosInf
  | Fin q => Fin (Qred (- q))
  end.

(** [x / y] *)
Definition div (x y : number) : number :=
  match x, y with
  | NaN, _ | _, NaN => NaN
  | (PosInf | NegInf), (PosInf | NegInf) => NaN
  | PosInf, Fin b => inf_of_sign (is_neg b)
  | NegInf, Fin b => inf_of_sign (negb (is_neg b))
  | Fin _, (PosInf | NegInf) => Fin 0
  | Fin a, Fin b =>
      if Qeq_bool b 0
      then (if Qeq_bool a 0 then NaN else inf_of_sign (is_neg a))
      else to_double (a / b)
  end.

(** [x * y] *)
Definition mul (x y : number) : number :=
  match x, y with
  | NaN, _ | _, NaN => NaN
  | PosInf, PosInf | NegInf, NegInf => PosInf
  | PosInf, NegInf | NegInf, PosInf => NegInf
  | PosInf, Fin b | Fin b, PosInf =>
      if Qeq_bool b 0 then NaN else inf_of_sign (is_neg b)
  | NegInf, Fin b | Fin b, NegInf =>
      if Qeq_bool b 0 then NaN else inf_of_sign (negb (is_neg b))
  | Fin a, Fin b => to_double (a * b)
  end.

(** [x + y] *)
Definition add (x y : number) : number :=
  match x, y with
  | NaN, _ | _, NaN => NaN
  | PosInf, NegInf | NegInf, PosInf => NaN
  | PosInf, _ | _, PosInf => PosInf
  | NegInf, _ | _, NegInf => NegInf
  | Fin a, Fin b => to_double (a + b)
  end.

(** [Math.floor(x)]: the floor of a binary64 value is a binary64 value. *)
Definition floor (x : number) : number :=
  match x with
  | Fin q => Fin (inject_Z (Qfloor q))
  | _ => x
  end.

Definition of_Z (z : Z) : number := to_double (inject_Z z).

(** Truthiness of a number: [0] and [NaN] are falsy. *)
Definition truthy (x : number) : bool :=
  match x with
  | NaN => false
  | Fin q => negb (Qeq_bool q 0)
  | _ => true
  end.

(** ** [toFixed] and the text it produces

    [Number.prototype.toFixed(f)] yields a text.  The handler only ever
    parses that text back with [parseFloat], so the text is kept in
    structured form. *)
Inductive fixedText : Type :=
| TxtNaN                                   (* "NaN" *)
| TxtInf (neg : bool)                      (* "Infinity", "-Infinity" *)
| TxtToString (q : Q)                      (* ToString(x), for |x| >= 10^21 *)
| TxtDec (neg : bool) (n : Z) (f : Z).     (* the digits of n, f of them after the point *)

(** [x.toFixed(f)]; [None] is the RangeError for [f] outside 0..100. *)
Definition toFixed (x : number) (f : Z) : option fixedText :=
  if ((f <? 0) || (100 <? f))%Z then None
  else Some
    match x with
    | NaN => TxtNaN
    | PosInf => TxtInf false
    | NegInf => TxtInf true
    | Fin q =>
        let a := Qabs q in
        if Qle_bool (inject_Z (10 ^ 21)) a then TxtToString q
        else TxtDec (is_neg q) (rhu (a * inject_Z (10 ^ f))) f
    end.

(** [parseFloat] of a text produced by [toFixed].  [ToString] of a finite
    number parses back to that number. *)
Definition parseFloat_fixed (t : fixedText) : number :=
  match t with
  | TxtNaN => NaN
  | TxtInf neg => inf_of_sign neg
  | TxtToString q => Fin q
  | TxtDec neg n f =>
      let v := inject_Z n / inject_Z (10 ^ f) in
      to_double (if neg then - v else v)
  end.

End JSNumber.

(* ================================================================== *)
(** * Strings *)
(* ================================================================== *)

(** Strings are taken to be ASCII: one [ascii] per UTF-16 code unit. *)
Module JSString.

Import JSNumber.
Local Open Scope string_scope.

Definition is_digit (c : ascii) : bool :=
  let n := N_of_ascii c in ((48 <=? n) && (n <=? 57))%N.

Definition digit_val (c : ascii) : Z := Z.of_N (N_of_ascii c) - 48.

(** White space and line terminators, as [TrimString] strips them. *)
Definition is_space (c : ascii) : bool :=
  let n := N_of_ascii c in
  ((n =? 32) || ((9 <=? n) && (n <=? 13)))%N.

Fixpoint trim_start (s : string) : string :=
  match s with
  | String c r => if is_space c then trim_start r else s
  | EmptyString => s
  end.

(** Read a run of decimal digits: the number read so far, how many digits
    were read, and the rest of the text. *)
Fixpoint scan_digits (s : string) (acc cnt : Z) : Z * Z * string :=
  match s with
  | String c r =>
      if is_digit c then scan_digits r (10 * acc + digit_val c) (cnt + 1)
      else (acc, cnt, s)
  | EmptyString => (acc, cnt, s)
  end.

(** An [ExponentPart] at the head of [s]: its value and the text after
    it; [e] not followed by a signed integer is not part of the number. *)
Definition scan_exponent (s : string) : Z * string :=
  match s with
  | String c r =>
      if (Ascii.eqb c "e" || Ascii.eqb c "E")%bool then
        let '(neg, r') :=
          match r with
          | String "-" t => (true, t)
          | String "+" t => (false, t)
          | _ => (false, r)
          end in
        let '(e, n, rest) := scan_digits r' 0 0 in
        if (n =? 0)%Z then (0%Z, s) else (if neg then (- e)%Z else e, rest)
      else (0%Z, s)
  | EmptyString => (0%Z, s)
  end.

Fixpoint drop (n : nat) (s : string) : string :=
  match n, s with
  | S n', String _ r => drop n' r
  | _, _ => s
  end.

(** The longest [StrDecimalLiteral] at the head of [s], rounded to
    binary64, and the text after it; [NaN] when there is none. *)
Definition scan_float (s : string) : number * string :=
  let '(neg, s1) :=
    match s with
    | String "-" r => (true, r)
    | String "+" r => (false, r)
    | _ => (false, s)
    end in
  if prefix "Infinity" s1 then (inf_of_sign neg, drop 8 s1)
  else
    let '(i, ni, s2) := scan_digits s1 0 0 in
    let '(m, nf, s3) :=
      match s2 with
      | String "." r => scan_digits r i 0
      | _ => (i, 0%Z, s2)
      end in
    if (ni + nf =? 0)%Z then (NaN, s)
    else
      let '(e, s4) := scan_exponent s3 in
      let v := (inject_Z m * Qpower 10 (e - nf))%Q in
      (to_double (if neg then Qopp v else v), s4).

(** [parseFloat(s)] *)
Definition parseFloat (s : string) : number := fst (scan_float (trim_start s)).

(** ToNumber of a text that does not start like a hexadecimal, octal or
    binary literal: the whole trimmed text must be one decimal literal;
    the empty text is 0. *)
Definition toNumber_text (s : string) : number :=
  let t := trim_start s in
  match t with
  | EmptyString => Fin 0
  | _ => let '(v, rest) := scan_float t in
         match trim_start rest with
         | EmptyString => v
         | _ => NaN
         end
  end.

(** [s.split('.')]: the first piece, and the text after the first dot. *)
Fixpoint upto_dot (s : string) : string :=
  match s with
  | String c r => if Ascii.eqb c "." then "" else String c (upto_dot r)
  | EmptyString => ""
  end.

Fixpoint after_dot (s : string) : option string :=
  match s with
  | String c r => if Ascii.eqb c "." then Some r else after_dot r
  | EmptyString => None
  end.

(** [s.includes('.') ? s.split('.')[1].length : 0] *)
Definition decimals (s : string) : Z :=
  match after_dot s with
  | Some r => Z.of_nat (String.length (upto_dot r))
  | None => 0%Z
  end.

(** [s.toUpperCase()], on the letters a to z; every other character is
    kept. *)
Definition upper_char (c : ascii) : ascii :=
  let n := N_of_ascii c in
  if ((97 <=? n) && (n <=? 122))%N then ascii_of_N (n - 32) else c.

Fixpoint toUpperCase (s : string) : string :=
  match s with
  | String c r => String (upper_char c) (toUpperCase r)
  | EmptyString => ""
  end.

(** [parts = s.split('/'); parts[parts.length - 1]]: the text after the
    last slash, the whole text when there is none. *)
Fixpoint last_segment_from (cur s : string) : string :=
  match s with
  | String c r =>
      if Ascii.eqb c "/" then last_segment_from r r
      else last_segment_from cur r
  | EmptyString => cur
  end.

Definition last_segment (s : string) : string := last_segment_from s s.

(** Decimal digits of a natural number, as [ToString] and template
    literals print an integer. *)
Definition digits (n : N) : string := NilZero.string_of_uint (N.to_uint n).

End JSString.

(* ================================================================== *)
(** * JavaScript values *)
(* ================================================================== *)

Module JSValue.

Import JSNumber JSString.
Local Open Scope string_scope.

(** The values that reach the handlers: what [JSON.parse] produces, and
    [undefined] for an absent property. *)
#[warnings="-register-all"]
Inductive value : Type :=
| VUndef
| VNull
| VBool (b : bool)
| VNum (x : number)
| VStr (s : string)
| VArr (items : list value)
| VObj (fields : list (string * value)).

(** What a [throw] carries. *)
Inductive exn : Type :=
| TypeError                                (* property of undefined/null, not a function, no primitive value *)
| SyntaxError                              (* request.json() on a body that is not JSON *)
| RangeError                               (* toFixed digits, invalid time value *)
| InstrumentsInfoError (retMsg : value)    (* new Error(`InstrumentsInfo error: ${retMsg}`) *)
| DatabaseError                            (* the error object of a failed insert, rethrown *)
| External (what : string).                (* thrown by a collaborator: fetch, the order helper *)

(** ToBoolean *)
Definition truthy (v : value) : bool :=
  match v with
  | VUndef | VNull => false
  | VBool b => b
  | VNum x => JSNumber.truthy x
  | VStr s => negb (String.eqb s "")
  | VArr _ | VObj _ => true
  end.

(** [a || b] *)
Definition or (a b : value) : value := if truthy a then a else b.

(** [a ?? b] *)
Definition nullish (a b : value) : value :=
  match a with
  | VUndef | VNull => b
  | _ => a
  end.

Fixpoint lookup (k : string) (fields : list (string * value)) : value :=
  match fields with
  | [] => VUndef
  | (k', v) :: rest => if String.eqb k k' then v else lookup k rest
  end.

(** [v.k] for a data property [k]: a TypeError on [undefined] and [null],
    [undefined] on primitives and arrays (none of the names the handlers
    read is a built-in property). *)
Definition get (v : value) (k : string) : exn + value :=
  match v with
  | VUndef | VNull => inl TypeError
  | VObj fields => inr (lookup k fields)
  | _ => inr VUndef
  end.

(** [v.k] once an earlier read of [v] has shown it is neither
    [undefined] nor [null]. *)
Definition lookup_of (v : value) (k : string) : value :=
  match v with
  | VObj fields => lookup k fields
  | _ => VUndef
  end.

(** A value whose properties can be read: neither [undefined] nor
    [null]. *)
Definition readable (v : value) : Prop := v <> VUndef /\ v <> VNull.

(** [v[0]] *)
Definition index0 (v : value) : exn + value :=
  match v with
  | VUndef | VNull => inl TypeError
  | VArr (x :: _) => inr x
  | VStr (String c _) => inr (VStr (String c ""))
  | VObj fields => inr (lookup "0" fields)
  | _ => inr VUndef
  end.

(** Whether ToString of [v] yields a text.  ToString of an object
    calls its [toString], then its [valueOf].  An object built by
    [JSON.parse] inherits both from [Object.prototype] unless it has an
    own property of that name; an own property holds a JSON value, which
    cannot be called, and the inherited [valueOf] yields the object
    itself, which is no primitive.  So an object prints (as
    ["[object Object]"]) unless it has an own property [toString], in
    which case ToString throws a TypeError; an array prints its elements,
    and throws when one of them does. *)
Fixpoint prints (v : value) : bool :=
  match v with
  | VArr items => forallb prints items
  | VObj fields => negb (existsb (fun kv => String.eqb (fst kv) "toString") fields)
  | _ => true
  end.

(** [parseFloat] of the text a value prints to.  A number prints to a
    text that parses back to it; an array prints its elements separated
    by commas, so only the first one is read, and [null] or [undefined]
    elements print as the empty text. *)
Fixpoint parseFloat_text (v : value) : number :=
  match v with
  | VNum x => x
  | VStr s => parseFloat s
  | VArr (x :: _) =>
      match x with
      | VUndef | VNull => NaN
      | _ => parseFloat_text x
      end
  | _ => NaN
  end.

(** [parseFloat(v)]: [parseFloat] applies ToString first, which can
    throw. *)
Definition parseFloat_value (v : value) : exn + number :=
  if prints v then inr (parseFloat_text v) else inl TypeError.

(** ToString of a value: the text of a value that prints, and the
    TypeError of one that does not.  [number_text] is
    [Number::toString], the shortest decimal text that reads back as the
    number; it is left to the runtime. *)
Section ToString.
Variable number_text : number -> string.

Fixpoint to_text (v : value) : string :=
  match v with
  | VUndef => "undefined"
  | VNull => "null"
  | VBool true => "true"
  | VBool false => "false"
  | VNum x => number_text x
  | VStr s => s
  | VArr items =>
      (fix join (l : list value) : string :=
         match l with
         | [] => ""
         | x :: r =>
             let e := match x with VUndef | VNull => "" | _ => to_text x end in
             match r with
             | [] => e
             | _ => e ++ "," ++ join r
             end
         end) items
  | VObj _ => "[object Object]"
  end.

Definition to_string (v : value) : exn + string :=
  if prints v then inr (to_text v) else inl TypeError.
End ToString.

(** [v === w] for the comparisons the handlers make (against a number). *)
Definition strict_eq_num (v : value) (n : number) : bool :=
  match v with
  | VNum x => JSNumber.eqb x n
  | _ => false
  end.

End JSValue.

(* ================================================================== *)
(** * Time values and the calendar *)
(* ================================================================== *)

Module JSDate.

Import JSString.
Local Open Scope Z_scope.

Definition msPerDay : Z := 86400000.

(** [Day(t)] and [TimeWithinDay(t)] *)
Definition Day (t : Z) : Z := t / msPerDay.
Definition TimeWithinDay (t : Z) : Z := t mod msPerDay.

(** [DayFromYear(y)]: day number of the first day of year [y]. *)
Definition DayFromYear (y : Z) : Z :=
  365 * (y - 1970) + (y - 1969) / 4 - (y - 1901) / 100 + (y - 1601) / 400.

Definition InLeapYear (y : Z) : bool :=
  ((y mod 4 =? 0) && negb (y mod 100 =? 0)) || (y mod 400 =? 0).

(** [YearFromTime]: the largest year [y] with [DayFromYear y <= d].  A
    year has 365.2425 days on average, which places the year within one
    of the estimate. *)
Definition year_of_day (d : Z) : Z :=
  let y := 1970 + (400 * d) / 146097 in
  if d <? DayFromYear y then y - 1
  else if DayFromYear (y + 1) <=? d then y + 1
  else y.

Definition YearFromTime (t : Z) : Z := year_of_day (Day t).

Definition DayWithinYear (t : Z) : Z := Day t - DayFromYear (YearFromTime t).

(** Day within the year on which month [m] (0..11) starts. *)
Definition month_start (m : Z) (leap : bool) : Z :=
  let l := if leap then 1 else 0 in
  match m with
  | 0 => 0
  | 1 => 31
  | 2 => 59 + l
  | 3 => 90 + l
  | 4 => 120 + l
  | 5 => 151 + l
  | 6 => 181 + l
  | 7 => 212 + l
  | 8 => 243 + l
  | 9 => 273 + l
  | 10 => 304 + l
  | _ => 334 + l
  end.

(** [MonthFromTime(t)], by the table of the standard. *)
Definition MonthFromTime (t : Z) : Z :=
  let d := DayWithinYear t in
  let l := if InLeapYear (YearFromTime t) then 1 else 0 in
  if d <? 31 then 0
  else if d <? 59 + l then 1
  else if d <? 90 + l then 2
  else if d <? 120 + l then 3
  else if d <? 151 + l then 4
  else if d <? 181 + l then 5
  else if d <? 212 + l then 6
  else if d <? 243 + l then 7
  else if d <? 273 + l then 8
  else if d <? 304 + l then 9
  else if d <? 334 + l then 10
  else 11.

(** [DateFromTime(t)]: day of the month, from 1. *)
Definition DateFromTime (t : Z) : Z :=
  DayWithinYear t
  - month_start (MonthFromTime t) (InLeapYear (YearFromTime t)) + 1.

(** [MakeDay(year, month, date)] for integral arguments: the day number
    of the first of the month, plus [date - 1]. *)
Definition MakeDay (year month date : Z) : Z :=
  let ym := year + month / 12 in
  let mn := month mod 12 in
  DayFromYear ym + month_start mn (InLeapYear ym) + date - 1.

Definition MakeDate (day time : Z) : Z := day * msPerDay + time.

(** [TimeClip]: a time value beyond 8.64e15 ms is invalid. *)
Definition TimeClip (t : Z) : option Z :=
  if Z.abs t <=? 8640000000000000 then Some t else None.

(** The zone of the runtime: its offset from UTC in ms, read at a UTC
    instant ([LocalTZA(t, true)]) and at a local one ([LocalTZA(t, false)]). *)
Record timezone : Type := {
  tza_utc : Z -> Z;
  tza_local : Z -> Z
}.

Definition utc_zone : timezone := {| tza_utc := fun _ => 0; tza_local := fun _ => 0 |}.

Definition LocalTime (tz : timezone) (t : Z) : Z := t + tza_utc tz t.
Definition UTC (tz : timezone) (t : Z) : Z := t - tza_local tz t.

(** [d.getDate()] *)
Definition getDate (tz : timezone) (t : Z) : Z := DateFromTime (LocalTime tz t).

(** [d.setDate(dt)] for an integral [dt]: the new time value of [d]. *)
Definition setDate (tz : timezone) (t : Z) (dt : Z) : option Z :=
  let l := LocalTime tz t in
  let newDate := MakeDate (MakeDay (YearFromTime l) (MonthFromTime l) dt) (TimeWithinDay l) in
  TimeClip (UTC tz newDate).

(** Decimal digits of [n], padded with zeros on the left to [w] places. *)
Fixpoint zeros (k : nat) : string :=
  match k with
  | O => ""
  | S k' => String "0" (zeros k')
  end.

Definition pad (w : nat) (n : Z) : string :=
  let s := digits (Z.to_N n) in
  (zeros (w - String.length s) ++ s)%string.

(** [d.toISOString()] of a valid time value: [YYYY-MM-DDTHH:mm:ss.sssZ]
    in UTC, the year with sign and six digits outside 0..9999. *)
Definition toISOString (t : Z) : string :=
  let y := YearFromTime t in
  let ms := TimeWithinDay t in
  let year :=
    if (Z.leb 0 y && Z.leb y 9999)%bool then pad 4 y
    else ((if Z.ltb y 0 then "-" else "+") ++ pad 6 (Z.abs y))%string in
  (year ++ "-" ++ pad 2 (MonthFromTime t + 1) ++ "-" ++ pad 2 (DateFromTime t)
   ++ "T" ++ pad 2 (ms / 3600000) ++ ":" ++ pad 2 (ms / 60000 mod 60)
   ++ ":" ++ pad 2 (ms / 1000 mod 60) ++ "." ++ pad 3 (ms mod 1000) ++ "Z")%string.

End JSDate.

(* ================================================================== *)
(** * Effects *)
(* ================================================================== *)

(** A handler body threads a state through its calls, may leave early
    with [return], and may [throw].  *)
Module Eff.

Section Monad.
Variables St R E : Type.

Inductive outcome (A : Type) : Type :=
| Val (a : A)
| Return (r : R)
| Throw (e : E).

Arguments Val {A} a.
Arguments Return {A} r.
Arguments Throw {A} e.

Definition M (A : Type) : Type := St -> outcome A * St.

Definition ret {A} (a : A) : M A := fun s => (Val a, s).

Definition bind {A B} (m : M A) (k : A -> M B) : M B :=
  fun s =>
    match m s with
    | (Val a, s') => k a s'
    | (Return r, s') => (Return r, s')
    | (Throw e, s') => (Throw e, s')
    end.

Definition return_ {A} (r : R) : M A := fun s => (Return r, s).
Definition throw {A} (e : E) : M A := fun s => (Throw e, s).

(** A pure step that may throw. *)
Definition lift {A} (x : E + A) : M A :=
  match x with
  | inl e => throw e
  | inr a => ret a
  end.

Definition get_state : M St := fun s => (Val s, s).
Definition put_state (s : St) : M unit := fun _ => (Val tt, s).

(** [try { body } catch (error) { return handler(error) }], where the
    body ends in a [return] on all its paths. *)
Definition try_catch (body : M R) (handler : E -> R) : St -> R * St :=
  fun s =>
    match body s with
    | (Val r, s') => (r, s')
    | (Return r, s') => (r, s')
    | (Throw e, s') => (handler e, s')
    end.
End Monad.

Arguments Val {R E A} a.
Arguments Return {R E A} r.
Arguments Throw {R E A} e.
Arguments ret {St R E A} a.
Arguments return_ {St R E A} r.
Arguments throw {St R E A} e.
Arguments lift {St R E A} x.
Arguments get_state {St R E}.
Arguments put_state {St R E} s.

Declare Scope eff_scope.
Delimit Scope eff_scope with eff.

Notation "'let*' x ':=' m 'in' k" := (bind m (fun x => k))
  (at level 10, x pattern, m at level 100, k at level 200) : eff_scope.
Notation "m ';;' k" := (bind m (fun _ => k))
  (at level 100, k at level 200, right associativity) : eff_scope.

End Eff.

(* ================================================================== *)
(** * HTTP and the database *)
(* ================================================================== *)

Module Http.

Import JSValue.

(** The parts of a [Request] the handlers read.  [json] is what
    [await request.json()] yields, [None] when it rejects (the body is
    not parseable JSON). *)
Record request : Type := {
  method : string;
  origin : string;          (* `${url.protocol}//${url.host}` *)
  pathname : string;        (* url.pathname *)
  json : option value
}.

(** Response bodies, before [JSON.stringify]. *)
Inductive body : Type :=
| NoBody                                            (* null *)
| ErrorBody (msg : string)                          (* { error: msg } *)
| ThrownBody (e : exn)                              (* { error: error.message } *)
| OrderBody (orderId status testMode : value)       (* { success: true, orderId, status, testMode } *)
| WebhookBody (webhookUrl expiresAt : string).      (* { webhookUrl, expiresAt } *)

(** Every response carries the CORS headers; only status and body vary. *)
Record response : Type := {
  status : Z;
  content : body
}.

End Http.

Module Database.

Import JSNumber JSValue.

(** Rows of the four tables.  Identifiers are texts; [expires_at] and
    the other timestamps are instants in ms since the epoch; columns
    that flow into an order unchanged are kept as JavaScript values. *)
Record webhook_row : Type := {
  webhook_token : string;
  user_id : string;
  bot_id : string;
  expires_at : Z;
  created_at : Z
}.

Record bot_row : Type := {
  id : string;
  symbol : value;
  default_side : value;
  default_order_type : value;
  default_quantity : value;
  default_stop_loss : value;
  default_take_profit : value;
  test_mode : value;
  trade_count : option number;      (* integer column, null allowed *)
  last_trade_at : option Z
}.

Record api_key_row : Type := {
  key_user_id : string;
  exchange : string;
  api_key : value;
  api_secret : value
}.

Record trade_row : Type := {
  trade_user_id : string;
  trade_bot_id : string;
  trade_symbol : value;
  trade_side : value;
  trade_order_type : value;
  trade_quantity : value;
  trade_price : value;
  trade_order_id : value;
  trade_status : value;
  trade_created_at : Z
}.

Record database : Type := {
  webhooks : list webhook_row;
  bots : list bot_row;
  api_keys : list api_key_row;
  trades : list trade_row
}.

(** The statements the handlers issue; a statement can fail on the
    service's side whatever the tables hold. *)
Inductive statement : Type :=
| SelectWebhook
| SelectApiKey
| InsertTrade
| UpdateBot
| InsertWebhook.

(** [.single()]: the row when exactly one matches, an error otherwise. *)
Definition single {A} (rows : list A) : option A :=
  match rows with
  | [r] => Some r
  | _ => None
  end.

(** The [bots] relation embedded in a webhook row: the bot its [bot_id] refers to,
    [null] when there is none. *)
Definition embedded_bot (d : database) (w : webhook_row) : option bot_row :=
  find (fun b => String.eqb (id b) (bot_id w)) (bots d).

(** [from('webhooks')], all columns with the bot embedded,
    [.eq('webhook_token', token).gt('expires_at', now).single()] *)
Definition select_webhook (d : database) (token : string) (now : Z)
  : option (webhook_row * option bot_row) :=
  match single (filter (fun w => String.eqb (webhook_token w) token
                                 && (now <? expires_at w)%Z) (webhooks d)) with
  | Some w => Some (w, embedded_bot d w)
  | None => None
  end.

(** [from('api_keys')], all columns,
    [.eq('user_id', uid).eq('exchange', 'bybit').single()] *)
Definition select_api_key (d : database) (uid : string) : option api_key_row :=
  single (filter (fun k => String.eqb (key_user_id k) uid
                           && String.eqb (exchange k) "bybit") (api_keys d)).

Definition insert_trade (d : database) (t : trade_row) : database :=
  {| webhooks := webhooks d; bots := bots d; api_keys := api_keys d;
     trades := trades d ++ [t] |}.

Definition insert_webhook (d : database) (w : webhook_row) : database :=
  {| webhooks := webhooks d ++ [w]; bots := bots d; api_keys := api_keys d;
     trades := trades d |}.

(** [.from('bots').update({ last_trade_at, trade_count }).eq('id', bid)] *)
Definition update_bot (d : database) (bid : string) (at_ : Z) (count : number)
  : database :=
  {| webhooks := webhooks d;
     bots := map (fun b =>
               if String.eqb (id b) bid
               then {| id := id b; symbol := symbol b;
                       default_side := default_side b;
                       default_order_type := default_order_type b;
                       default_quantity := default_quantity b;
                       default_stop_loss := default_stop_loss b;
                       default_take_profit := default_take_profit b;
                       test_mode := test_mode b;
                       trade_count := Some count;
                       last_trade_at := Some at_ |}
               else b) (bots d);
     api_keys := api_keys d;
     trades := trades d |}.

End Database.

(* ================================================================== *)
(** * The alert processor: [processAlert.edge.js] *)
(* ================================================================== *)

Module ProcessAlert.

Import JSNumber JSString JSValue JSDate Http Database.
Import Eff.
Local Open Scope string_scope.

(** ** Quantity normalisation (MIN QTY FETCH & ROUND) *)

(** [stepStr.includes('.') ? stepStr.split('.')[1].length : 0].  On a
    text this counts the characters after the first dot.  An array has
    [includes] but no [split]; every other value has no [includes]. *)
Definition decimals_of (stepStr : value) : exn + Z :=
  match stepStr with
  | VStr s => inr (decimals s)
  | VArr items =>
      if existsb (fun v => match v with VStr "." => true | _ => false end) items
      then inl TypeError
      else inr 0%Z
  | _ => inl TypeError
  end.

(** From [minQtyStr], [stepStr] and [rawQty] to [adjustedQty]:
<<
    const minQty = parseFloat(minQtyStr);
    const step = parseFloat(stepStr);
    const decimals = stepStr.includes('.') ? stepStr.split('.')[1].length : 0;
    let qty = rawQty < minQty ? minQty : Math.floor(rawQty / step) * step;
    if (qty < minQty) qty = minQty;
    const adjustedQty = parseFloat(qty.toFixed(decimals));
>>
    [rawQty] is the number read on the line before the clamp,
    [parseFloat(alertData.quantity ?? bot.default_quantity ?? 0)]. *)
Definition normalizeQty (minQtyStr stepStr : value) (rawQty : number)
  : exn + number :=
  match parseFloat_value minQtyStr with
  | inl e => inl e
  | inr minQty =>
  match parseFloat_value stepStr with
  | inl e => inl e
  | inr step =>
  match decimals_of stepStr with
  | inl e => inl e
  | inr decimals =>
      let qty :=
        if lt rawQty minQty then minQty
        else mul (floor (div rawQty step)) step in
      let qty := if lt qty minQty then minQty else qty in
      match toFixed qty decimals with
      | None => inl RangeError
      | Some text => inr (parseFloat_fixed text)
      end
  end end end.

(** ** The world around the handler *)

Record orderParams : Type := {
  apiKey : value;
  apiSecret : value;
  op_symbol : string;
  side : value;
  orderType : value;
  quantity : number;
  price : value;
  stopLoss : value;
  takeProfit : value;
  testnet : value
}.

(** What the handler asks of its collaborators, in the order it asks. *)
Inductive event : Type :=
| WebhookSelected (token : string) (now : Z)
| ApiKeySelected (uid : string)
| InstrumentsFetched (url : string)
| OrderSubmitted (p : orderParams)              (* executeBybitOrder(orderParams) *)
| TradeInsertIssued (t : trade_row)
| BotUpdateIssued (bid : string) (at_ : Z) (count : number).

(** Everything the handler does not decide.  [executeBybitOrder] and the
    two host constants come from [utils/bybit.edge.mjs]; the order helper
    is an opaque collaborator that returns an order result or throws. *)
Record world : Type := {
  SUPABASE_URL : value;
  SUPABASE_SERVICE_KEY : value;
  clock : nat -> Z;                             (* successive readings of the clock, in ms *)
  db_fault : statement -> bool;                 (* the statement comes back with an error *)
  instruments_info : string -> exn + value;     (* fetch(url), then .json() *)
  executeBybitOrder : orderParams -> exn + value;
  MAINNET_URL : string;
  TESTNET_URL : string
}.

Record state : Type := {
  db : database;
  ticks : nat;                                  (* clock readings taken so far *)
  trace : list event
}.

Definition act : Type -> Type := M state response exn.

Section Handler.
Variable w : world.

Local Open Scope eff_scope.

Definition emit (e : event) : act unit :=
  fun s => (Val tt, {| db := db s; ticks := ticks s; trace := trace s ++ [e] |}).

(** [new Date()] / [Date.now()] *)
Definition date_now : act Z :=
  fun s => (Val (clock w (ticks s)),
            {| db := db s; ticks := S (ticks s); trace := trace s |}).

Definition write (f : database -> database) : act unit :=
  fun s => (Val tt, {| db := f (db s); ticks := ticks s; trace := trace s |}).

(** The select of the webhook: [None] stands for [webhookError || !webhook]. *)
Definition query_webhook (token : string) (t : Z)
  : act (option (webhook_row * option bot_row)) :=
  emit (WebhookSelected token t);;
  let* s := get_state in
  ret (if db_fault w SelectWebhook then None else select_webhook (db s) token t).

(** The select of the API key: [None] stands for [apiKeyError || !apiKey]. *)
Definition query_api_key (uid : string) : act (option api_key_row) :=
  emit (ApiKeySelected uid);;
  let* s := get_state in
  ret (if db_fault w SelectApiKey then None else select_api_key (db s) uid).

(** The insert of the trade; the result is [tradeError] being set. *)
Definition issue_trade_insert (t : trade_row) : act bool :=
  emit (TradeInsertIssued t);;
  if db_fault w InsertTrade then ret true
  else (write (fun d => insert_trade d t);; ret false).

(** The update of the bot; the result is [botUpdateError] being set. *)
Definition issue_bot_update (bid : string) (t : Z) (count : number) : act bool :=
  emit (BotUpdateIssued bid t count);;
  if db_fault w UpdateBot then ret true
  else (write (fun d => update_bot d bid t count);; ret false).

Definition fetch_instruments (url : string) : act value :=
  emit (InstrumentsFetched url);;
  lift (instruments_info w url).

Definition submit_order (p : orderParams) : act value :=
  emit (OrderSubmitted p);;
  lift (executeBybitOrder w p).

Definition respond (code : Z) (b : body) : response :=
  {| status := code; content := b |}.

(** [(v).toUpperCase()]: only a text has the method. *)
Definition upper (v : value) : exn + string :=
  match v with
  | VStr s => inr (toUpperCase s)
  | _ => inl TypeError
  end.

(** [bot.x] where [bot = webhook.bots] may be [null]. *)
Definition the_bot (b : option bot_row) : exn + bot_row :=
  match b with
  | Some r => inr r
  | None => inl TypeError
  end.

(** [o.a ?? o.b] *)
Definition get_nullish (o : value) (a b : string) : exn + value :=
  match get o a with
  | inl e => inl e
  | inr va => match get o b with
              | inl e => inl e
              | inr vb => inr (nullish va vb)
              end
  end.

(** Decimal text of an integer, as a template literal prints it. *)
Definition int_text (z : Z) : string :=
  if (z <? 0)%Z then "-" ++ digits (Z.to_N (- z)) else digits (Z.to_N z).

(** [bot.trade_count ? bot.trade_count + 1 : 1] *)
Definition next_trade_count (c : option number) : number :=
  match c with
  | Some n => if JSNumber.truthy n then add n (of_Z 1) else of_Z 1
  | None => of_Z 1
  end.

(** The order as the handler builds it (BUILD ORDER PARAMS). *)
Definition build_order (alertData : value) (bot : bot_row) (key : api_key_row)
    (symbol : string) (adjustedQty : number) : orderParams :=
  {| apiKey := api_key key;
     apiSecret := api_secret key;
     op_symbol := symbol;
     side := or (or (lookup_of alertData "side") (default_side bot)) (VStr "Buy");
     orderType := or (or (lookup_of alertData "orderType") (default_order_type bot))
                     (VStr "Market");
     quantity := adjustedQty;
     price := lookup_of alertData "price";
     stopLoss := or (lookup_of alertData "stopLoss") (default_stop_loss bot);
     takeProfit := or (lookup_of alertData "takeProfit") (default_take_profit bot);
     testnet := test_mode bot |}.

(** [new Error(`InstrumentsInfo error: ${infoJson.retMsg}`)]: the
    template literal prints [retMsg] before the error is made. *)
Definition instruments_error (retMsg : value) : exn :=
  if prints retMsg then InstrumentsInfoError retMsg else TypeError.

(** The simulated result of test mode. *)
Definition test_order (p : orderParams) (t : Z) : value :=
  VObj [ ("orderId", VStr ("test-" ++ int_text t));
         ("symbol", VStr (op_symbol p));
         ("side", side p);
         ("orderType", orderType p);
         ("qty", VNum (quantity p));
         ("price", or (price p) (VNum (Fin 0)));
         ("status", VStr "TEST_ORDER") ].

(** MIN QTY FETCH & ROUND, then BUILD ORDER PARAMS: from the alert
    and the bot to the order.  The raw quantity is read before
    [normalizeQty] is entered: between the first [parseFloat] of the block
    and the clamp nothing is done to the world and every throw is a
    TypeError, so the order of these reads does not show. *)
Definition prepare (alertData : value) (bots : option bot_row) (key : api_key_row)
  : act (bot_row * orderParams) :=
  let* a_symbol := lift (get alertData "symbol") in
  let* bot := lift (the_bot bots) in
  let* symbol := lift (upper (or (or a_symbol (Database.symbol bot)) (VStr ""))) in
  let baseUrl := if truthy (test_mode bot) then TESTNET_URL w else MAINNET_URL w in
  let* infoJson := fetch_instruments
    (baseUrl ++ "/v5/market/instruments-info?symbol=" ++ symbol ++ "&category=linear") in
  let* retCode := lift (get infoJson "retCode") in
  if negb (strict_eq_num retCode (Fin 0)) then
    throw (instruments_error (lookup_of infoJson "retMsg"))
  else
  let* result := lift (get infoJson "result") in
  let* list := lift (get result "list") in
  let* inst := lift (index0 list) in
  let* lotFilter := lift (get inst "lotSizeFilter") in
  let* minQtyStr := lift (get_nullish lotFilter "minOrderQty" "minTrdAmt") in
  let* stepStr := lift (get_nullish lotFilter "qtyStep" "stepSize") in
  let* rawQty := lift (parseFloat_value
    (nullish (nullish (lookup_of alertData "quantity") (default_quantity bot))
             (VNum (Fin 0)))) in
  let* adjustedQty := lift (normalizeQty minQtyStr stepStr rawQty) in
  ret (bot, build_order alertData bot key symbol adjustedQty).

(** The order goes out, or is simulated in test mode. *)
Definition dispatch (bot : bot_row) (orderParams : orderParams) : act value :=
  if truthy (test_mode bot)
  then (let* t := date_now in ret (test_order orderParams t))
  else submit_order orderParams.

(** The trade is logged, the bot's counter is updated, and the caller
    is answered; what the two statements report is only logged. *)
Definition audit (webhook : webhook_row) (bot : bot_row) (orderResult : value)
  : act response :=
  let* r_symbol := lift (get orderResult "symbol") in
  let* t1 := date_now in
  let* tradeError := issue_trade_insert
    {| trade_user_id := user_id webhook;
       trade_bot_id := bot_id webhook;
       trade_symbol := r_symbol;
       trade_side := lookup_of orderResult "side";
       trade_order_type := lookup_of orderResult "orderType";
       trade_quantity := lookup_of orderResult "qty";
       trade_price := lookup_of orderResult "price";
       trade_order_id := lookup_of orderResult "orderId";
       trade_status := lookup_of orderResult "status";
       trade_created_at := t1 |} in
  let* t2 := date_now in
  let* botUpdateError := issue_bot_update (bot_id webhook) t2
                           (next_trade_count (trade_count bot)) in
  ret (respond 200 (OrderBody (lookup_of orderResult "orderId")
                              (lookup_of orderResult "status")
                              (test_mode bot))).

(** [let alertData = {}; try { alertData = await request.json(); } catch (e) { }] *)
Definition alert_payload (rq : request) : value :=
  match json rq with
  | Some v => v
  | None => VObj []
  end.

(** The body of the [try] block. *)
Definition process (rq : request) : act response :=
  let webhookToken := last_segment (pathname rq) in
  let* t0 := date_now in
  let* found := query_webhook webhookToken t0 in
  match found with
  | None => return_ (respond 404 (ErrorBody "Invalid or expired webhook"))
  | Some (webhook, bots) =>
      let alertData := alert_payload rq in
      let* found_key := query_api_key (user_id webhook) in
      match found_key with
      | None => return_ (respond 400 (ErrorBody "API credentials not found"))
      | Some key =>
          let* (bot, orderParams) := prepare alertData bots key in
          let* orderResult := dispatch bot orderParams in
          audit webhook bot orderResult
      end
  end.

(** [export default async function handler(request, context)] *)
Definition handler (rq : request) : state -> response * state :=
  if String.eqb (method rq) "OPTIONS" then
    fun s => (respond 204 NoBody, s)
  else if negb (String.eqb (method rq) "POST") then
    fun s => (respond 405 (ErrorBody "Method not allowed"), s)
  else if negb (truthy (SUPABASE_URL w)) || negb (truthy (SUPABASE_SERVICE_KEY w)) then
    fun s => (respond 500 (ErrorBody "Server configuration error"), s)
  else
    try_catch (process rq) (fun error => respond 500 (ThrownBody error)).

End Handler.

End ProcessAlert.

(* ================================================================== *)
(** * The webhook issuer: [generateWebhook.edge.js] *)
(* ================================================================== *)

Module GenerateWebhook.

Import JSNumber JSString JSValue JSDate Http Database.
Import Eff.
Local Open Scope string_scope.

(** ** [nanoid]

    Modelled from the documentation of the [nanoid] package (3.3.4), which
    is not part of the repository: [nanoid(size)] draws [size] bytes from
    the cryptographic random source and maps each, masked to six bits, to
    a character of its URL-safe alphabet. *)
Definition urlAlphabet : string :=
  "useandom-26T198340PX75pxJACKVERYMINDBUSHWOLF_GQZbfghjklqvwyzrict".

Definition alphabet_char (b : N) : ascii :=
  match String.get (N.to_nat (N.land b 63)) urlAlphabet with
  | Some c => c
  | None => "_"%char
  end.

Fixpoint nanoid_from (entropy : nat -> N) (i size : nat) : string :=
  match size with
  | O => ""
  | S k => String (alphabet_char (entropy i)) (nanoid_from entropy (S i) k)
  end.

Definition nanoid (entropy : nat -> N) (size : nat) : string :=
  nanoid_from entropy 0 size.

(** ** The world around the handler *)

Inductive event : Type :=
| WebhookInsertIssued (userId botId : value) (token : string) (expires created : Z).

Record world : Type := {
  SUPABASE_URL : value;
  SUPABASE_SERVICE_KEY : value;
  clock : nat -> Z;                     (* successive readings of the clock, in ms *)
  zone : timezone;                      (* the local zone of the runtime *)
  entropy : nat -> N;                   (* the random bytes [nanoid] draws *)
  number_text : number -> string;       (* Number::toString *)
  db_fault : statement -> bool
}.

Record state : Type := {
  db : database;
  ticks : nat;
  trace : list event
}.

Definition act : Type -> Type := M state response exn.

Section Handler.
Variable w : world.

Local Open Scope eff_scope.

Definition emit (e : event) : act unit :=
  fun s => (Val tt, {| db := db s; ticks := ticks s; trace := trace s ++ [e] |}).

Definition date_now : act Z :=
  fun s => (Val (clock w (ticks s)),
            {| db := db s; ticks := S (ticks s); trace := trace s |}).

Definition write (f : database -> database) : act unit :=
  fun s => (Val tt, {| db := f (db s); ticks := ticks s; trace := trace s |}).

Definition respond (code : Z) (b : body) : response :=
  {| status := code; content := b |}.

(** [const { userId, botId, expirationDays = 30 } = body]: a TypeError
    on [undefined] and [null]; the default applies to [undefined] only. *)
Definition destructure (body : value) : exn + (value * value * value) :=
  match get body "userId" with
  | inl e => inl e
  | inr userId =>
      let expirationDays :=
        match lookup_of body "expirationDays" with
        | VUndef => VNum (of_Z 30)
        | v => v
        end in
      inr (userId, lookup_of body "botId", expirationDays)
  end.

(** The template literal of the first [console.log] of the [try] block,
    [`Request received - userId: ${userId}, botId: ${botId},
    expirationDays: ${expirationDays}`]: the three values are printed, in
    this order, and a value that does not print throws. *)
Definition request_line (userId botId expirationDays : value) : exn + string :=
  match to_string (number_text w) userId with
  | inl e => inl e
  | inr u =>
      match to_string (number_text w) botId with
      | inl e => inl e
      | inr b =>
          match to_string (number_text w) expirationDays with
          | inl e => inl e
          | inr d => inr ("Request received - userId: " ++ u ++ ", botId: " ++ b
                          ++ ", expirationDays: " ++ d)
          end
      end
  end.

(** [expirationDate.getDate() + expirationDays], then ToNumber as
    [setDate] applies it.  With a number, [null] or a boolean on the
    right the sum is numeric; with a text, an array or an object it is
    the concatenation of the two texts, read back as a number.  The
    value has been printed by [request_line] when the sum is reached, so
    it prints here too. *)
Definition date_plus (date : Z) (expirationDays : value) : number :=
  match expirationDays with
  | VNum x => add (of_Z date) x
  | VNull => add (of_Z date) (of_Z 0)
  | VBool b => add (of_Z date) (of_Z (if b then 1 else 0))
  | VUndef => NaN
  | v => toNumber_text (digits (Z.to_N date) ++ to_text (number_text w) v)
  end.

(** ToIntegerOrInfinity of a finite number: truncation towards zero. *)
Definition truncate (q : Q) : Z :=
  if Qle_bool 0 q then Qfloor q else (- Qfloor (Qopp q))%Z.

(** [expirationDate.setDate(expirationDate.getDate() + expirationDays)]:
    the new time value, [None] when it is invalid. *)
Definition expiration (t : Z) (expirationDays : value) : option Z :=
  match date_plus (getDate (zone w) t) expirationDays with
  | Fin q => setDate (zone w) t (truncate q)
  | _ => None
  end.

(** [d.toISOString()]: a RangeError on an invalid date. *)
Definition iso (d : option Z) : exn + string :=
  match d with
  | Some t => inr (toISOString t)
  | None => inl RangeError
  end.

(** The insert of the webhook; the result is [error] being set.  The
    identifier columns hold texts (UUIDs): the service refuses any other
    value. *)
Definition issue_webhook_insert (userId botId : value) (token : string)
    (expires created : Z) : act bool :=
  emit (WebhookInsertIssued userId botId token expires created);;
  if db_fault w InsertWebhook then ret true
  else
    match userId, botId with
    | VStr uid, VStr bid =>
        write (fun d => insert_webhook d
                 {| webhook_token := token; user_id := uid; bot_id := bid;
                    expires_at := expires; created_at := created |});;
        ret false
    | _, _ => ret true
    end.

(** The body of the [try] block. *)
Definition generate (rq : request) : act response :=
  let* body := lift (match json rq with
                     | Some v => inr v
                     | None => inl SyntaxError
                     end) in
  let* (userId, botId, expirationDays) := lift (destructure body) in
  let* _ := lift (request_line userId botId expirationDays) in
  if negb (truthy userId) || negb (truthy botId) then
    return_ (respond 400 (ErrorBody "Missing required fields"))
  else
  let webhookToken := nanoid (entropy w) 32 in
  let* t0 := date_now in
  let expirationDate := expiration t0 expirationDays in
  let* expiresAt := lift (iso expirationDate) in
  let* t1 := date_now in
  let* error := issue_webhook_insert userId botId webhookToken
                  (match expirationDate with Some t => t | None => 0%Z end) t1 in
  if error then throw DatabaseError
  else
  let webhookUrl := origin rq ++ "/.netlify/functions/processAlert/" ++ webhookToken in
  ret (respond 200 (WebhookBody webhookUrl expiresAt)).

(** [export default async function handler(request, context)] *)
Definition handler (rq : request) : state -> response * state :=
  if String.eqb (method rq) "OPTIONS" then
    fun s => (respond 204 NoBody, s)
  else if negb (String.eqb (method rq) "POST") then
    fun s => (respond 405 (ErrorBody "Method not allowed"), s)
  else if negb (truthy (SUPABASE_URL w)) || negb (truthy (SUPABASE_SERVICE_KEY w)) then
    fun s => (respond 500 (ErrorBody "Server configuration error"), s)
  else
    try_catch (generate rq) (fun error => respond 500 (ThrownBody error)).

End Handler.

End GenerateWebhook.

(* ================================================================== *)
(** * The vocabulary of the properties *)
(* ================================================================== *)

(** The number a primitive binary64 float of the kernel denotes, to set
    the rounding written out in [JSNumber] against the kernel's. *)
Module Binary64.

Import JSNumber.

(** The number a primitive float denotes. *)
Definition of_float (x : float) : number :=
  match Prim2SF x with
  | S754_zero _ => Fin 0
  | S754_infinity s => inf_of_sign s
  | S754_nan => NaN
  | S754_finite s m e =>
      Fin (Qred ((if s then -1 else 1) * inject_Z (Zpos m) * Qpower 2 e))
  end.

End Binary64.

Module QuantityNotions.

Import JSNumber JSString JSValue ProcessAlert.
Local Open Scope Q_scope.

(** [m] is the largest multiple of [step] not exceeding [rawQty]. *)
Definition largest_multiple (step rawQty m : Q) : Prop :=
  (exists k : Z, m == inject_Z k * step) /\ m <= rawQty /\ rawQty < m + step.

(** [x] rounded to [d] decimal places, a tie going up. *)
Definition rounded (d : Z) (x : Q) : Q :=
  inject_Z (rhu (x * inject_Z (10 ^ d))) / inject_Z (10 ^ d).

(** C1 as the specification states it, for a lot filter given by its
    two texts and for the decimals [minQty], [step] and [rawQty] that the
    texts and the quantity denote: for [rawQty >= 0], [step > 0] and
    [minQty >= 0] the normalisation returns a value that is at least
    [minQty]; it is [minQty] when [rawQty < minQty]; and when
    [rawQty >= minQty] it is the largest multiple of [step] not exceeding
    [rawQty], replaced by [minQty] if below it, rounded to the number of
    decimal places of the step's text. *)
Definition as_specified (minQtyStr stepStr : string) (minQty step rawQty : Q) : Prop :=
  parseFloat minQtyStr = to_double minQty ->
  parseFloat stepStr = to_double step ->
  0 <= rawQty -> 0 < step -> 0 <= minQty ->
  exists adjustedQty,
    normalizeQty (VStr minQtyStr) (VStr stepStr) (to_double rawQty) = inr adjustedQty
    /\ le (to_double minQty) adjustedQty = true
    /\ (rawQty < minQty -> adjustedQty = to_double minQty)
    /\ (minQty <= rawQty ->
        forall m, largest_multiple step rawQty m ->
          adjustedQty
          = to_double (rounded (decimals stepStr)
                               (if Qle_bool minQty m then m else minQty))).

(** C2 as the specification states it, at one quantity: normalising
    the normalised quantity returns it unchanged. *)
Definition idempotent_at (minQtyStr stepStr : value) (rawQty : number) : Prop :=
  forall v, normalizeQty minQtyStr stepStr rawQty = inr v ->
            normalizeQty minQtyStr stepStr v = inr v.

End QuantityNotions.

Module AlertNotions.

Import JSNumber JSString JSValue JSDate Http Database Eff ProcessAlert.
Local Open Scope string_scope.
Local Open Scope list_scope.

(** Both environment variables are set. *)
Definition configured (w : world) : Prop :=
  truthy (SUPABASE_URL w) = true /\ truthy (SUPABASE_SERVICE_KEY w) = true.

(** The token names a stored webhook that has not expired at [now]. *)
Definition resolves (d : database) (token : string) (now : Z) : Prop :=
  exists row, In row (webhooks d)
              /\ webhook_token row = token /\ (now < expires_at row)%Z.



(** What the select of the webhook yields in state [s]: [None] for
    [webhookError || !webhook]. *)
Definition webhook_lookup (w : world) (rq : request) (s : state)
  : option (webhook_row * option bot_row) :=
  if db_fault w SelectWebhook then None
  else select_webhook (db s) (last_segment (pathname rq)) (clock w (ticks s)).

(** What the select of the API key yields: [None] for
    [apiKeyError || !apiKey]. *)
Definition key_lookup (w : world) (s : state) (uid : string) : option api_key_row :=
  if db_fault w SelectApiKey then None else select_api_key (db s) uid.

(** The state after the two selects. *)
Definition after_selects (w : world) (rq : request) (s : state) (uid : string) : state :=
  {| db := db s; ticks := S (ticks s);
     trace := trace s ++ [WebhookSelected (last_segment (pathname rq)) (clock w (ticks s));
                          ApiKeySelected uid] |}.

(** The trade row the handler writes for an order result. *)
Definition trade_of (webhook : webhook_row) (orderResult : value) (at_ : Z) : trade_row :=
  {| trade_user_id := user_id webhook;
     trade_bot_id := bot_id webhook;
     trade_symbol := lookup_of orderResult "symbol";
     trade_side := lookup_of orderResult "side";
     trade_order_type := lookup_of orderResult "orderType";
     trade_quantity := lookup_of orderResult "qty";
     trade_price := lookup_of orderResult "price";
     trade_order_id := lookup_of orderResult "orderId";
     trade_status := lookup_of orderResult "status";
     trade_created_at := at_ |}.


(** The identifier of a simulated order. *)
Definition test_order_id (t : Z) : string := ("test-" ++ int_text t)%string.

(** The same request with another body. *)
Definition with_body (rq : request) (payload : option value) : request :=
  {| method := method rq; origin := origin rq; pathname := pathname rq;
     json := payload |}.

(** [chosen] is [payload || botDefault || hard] seen from a falsy
    payload: the bot's default if truthy, the hard-coded value
    otherwise. *)
Definition falls_back (payload botDefault hard chosen : value) : Prop :=
  truthy payload = false ->
  chosen = or botDefault hard
  /\ (truthy botDefault = false -> chosen = hard).

End AlertNotions.

Module WebhookNotions.

Import JSNumber JSString JSValue JSDate Http Database Eff GenerateWebhook.
Local Open Scope string_scope.

(** Both environment variables are set. *)
Definition configured (w : world) : Prop :=
  truthy (SUPABASE_URL w) = true /\ truthy (SUPABASE_SERVICE_KEY w) = true.

Fixpoint has_slash (s : string) : bool :=
  match s with
  | String c r => Ascii.eqb c "/" || has_slash r
  | EmptyString => false
  end.

(** [expirationDays] is 30: absent from the body, so defaulted, or the
    number 30. *)
Definition thirty_days (body : value) : Prop :=
  lookup_of body "expirationDays" = VUndef
  \/ lookup_of body "expirationDays" = VNum (of_Z 30).

(** The body has no usable [k]: the field is absent, or falsy. *)
Definition lacks (body : value) (k : string) : Prop :=
  truthy (lookup_of body k) = false.

(** The request can be written to the log: its [userId], [botId] and
    [expirationDays] print. *)
Definition loggable (body : value) : Prop :=
  prints (lookup_of body "userId") = true
  /\ prints (lookup_of body "botId") = true
  /\ prints (lookup_of body "expirationDays") = true.

End WebhookNotions.

(* ================================================================== *)
(** * Concrete worlds *)
(* ================================================================== *)

(** A small deployment on which the handlers can be run: one user, one
    bot in test mode and one trading for real, a webhook for each. *)
Module Samples.

Import JSNumber JSString JSValue JSDate Http Database.
Local Open Scope string_scope.

Definition sim_bot : bot_row :=
  {| id := "bot-sim"; symbol := VStr "solusdt";
     default_side := VNull; default_order_type := VStr "";
     default_quantity := VNum (to_double (35 # 100));
     default_stop_loss := VNull; default_take_profit := VNull;
     test_mode := VBool true; trade_count := None; last_trade_at := None |}.

Definition live_bot : bot_row :=
  {| id := "bot-live"; symbol := VStr "BTCUSDT";
     default_side := VStr "Sell"; default_order_type := VStr "Limit";
     default_quantity := VNum (to_double (5 # 1000));
     default_stop_loss := VNull; default_take_profit := VNull;
     test_mode := VBool false; trade_count := Some (of_Z 7);
     last_trade_at := Some 1699999000000%Z |}.

Definition store : database :=
  {| webhooks :=
       [ {| webhook_token := "tok-sim"; user_id := "user-1"; bot_id := "bot-sim";
            expires_at := 1702592000000; created_at := 1700000000000 |};
         {| webhook_token := "tok-live"; user_id := "user-1"; bot_id := "bot-live";
            expires_at := 1702592000000; created_at := 1700000000000 |};
         {| webhook_token := "tok-old"; user_id := "user-1"; bot_id := "bot-sim";
            expires_at := 1600000000000; created_at := 1597408000000 |} ];
     bots := [ sim_bot; live_bot ];
     api_keys := [ {| key_user_id := "user-1"; exchange := "bybit";
                      api_key := VStr "key"; api_secret := VStr "secret" |} ];
     trades := [] |}.

(** The exchange's answer for an instrument with the given lot filter. *)
Definition instrument (minOrderQty qtyStep : string) : value :=
  VObj [ ("retCode", VNum (Fin 0)); ("retMsg", VStr "OK");
         ("result", VObj [ ("list", VArr [ VObj [ ("lotSizeFilter",
             VObj [ ("minOrderQty", VStr minOrderQty); ("qtyStep", VStr qtyStep) ]) ] ]) ]) ].

Definition filled (p : ProcessAlert.orderParams) : value :=
  VObj [ ("orderId", VStr "order-42"); ("symbol", VStr (ProcessAlert.op_symbol p));
         ("side", ProcessAlert.side p); ("orderType", ProcessAlert.orderType p);
         ("qty", VNum (ProcessAlert.quantity p)); ("price", VNum (of_Z 100));
         ("status", VStr "Filled") ].

Definition alert_world (faulty : statement -> bool) (tick : nat -> Z) : ProcessAlert.world :=
  {| ProcessAlert.SUPABASE_URL := VStr "https://db.example";
     ProcessAlert.SUPABASE_SERVICE_KEY := VStr "service-key";
     ProcessAlert.clock := tick;
     ProcessAlert.db_fault := faulty;
     ProcessAlert.instruments_info := fun _ => inr (instrument "0.1" "0.1");
     ProcessAlert.executeBybitOrder := fun p => inr (filled p);
     ProcessAlert.MAINNET_URL := "https://api.bybit.com";
     ProcessAlert.TESTNET_URL := "https://api-testnet.bybit.com" |}.


Definition no_fault : statement -> bool := fun _ => false.
Definition audit_fault : statement -> bool :=
  fun st => match st with InsertTrade | UpdateBot => true | _ => false end.

(** A clock that advances one millisecond per reading, and one that
    stands still within the millisecond. *)
Definition ticking : nat -> Z := fun n => (1700000000000 + Z.of_nat n)%Z.
Definition frozen : nat -> Z := fun _ => 1700000000000%Z.

Definition alert_start : ProcessAlert.state :=
  {| ProcessAlert.db := store; ProcessAlert.ticks := 0; ProcessAlert.trace := [] |}.

Definition post (path : string) (payload : option value) : request :=
  {| method := "POST"; origin := "https://bot.example"; pathname := path;
     json := payload |}.

(** A live alert for 0.0127 BTC, the order the handler makes of it, and
    the course of its run up to dispatch. *)
Definition live_alert : request :=
  post "/.netlify/functions/processAlert/tok-live"
       (Some (VObj [("quantity", VStr "0.0127")])).

Definition live_key : api_key_row :=
  {| key_user_id := "user-1"; exchange := "bybit";
     api_key := VStr "key"; api_secret := VStr "secret" |}.

Definition live_order : ProcessAlert.orderParams :=
  {| ProcessAlert.apiKey := VStr "key";
     ProcessAlert.apiSecret := VStr "secret";
     ProcessAlert.op_symbol := "BTCUSDT";
     ProcessAlert.side := VStr "Sell";
     ProcessAlert.orderType := VStr "Limit";
     ProcessAlert.quantity := to_double (1 # 10);
     ProcessAlert.price := VUndef;
     ProcessAlert.stopLoss := VNull;
     ProcessAlert.takeProfit := VNull;
     ProcessAlert.testnet := VBool false |}.

Definition live_prepared : ProcessAlert.state :=
  {| ProcessAlert.db := store; ProcessAlert.ticks := 1;
     ProcessAlert.trace :=
       [ ProcessAlert.WebhookSelected "tok-live" 1700000000000;
         ProcessAlert.ApiKeySelected "user-1";
         ProcessAlert.InstrumentsFetched
           "https://api.bybit.com/v5/market/instruments-info?symbol=BTCUSDT&category=linear" ] |}.

Definition live_dispatched : ProcessAlert.state :=
  {| ProcessAlert.db := store; ProcessAlert.ticks := 1;
     ProcessAlert.trace := ProcessAlert.trace live_prepared
                           ++ [ ProcessAlert.OrderSubmitted live_order ] |}.

(** The order the handler makes of an alert without a body for the
    simulated bot, and the course of that run up to dispatch. *)
Definition sim_order : ProcessAlert.orderParams :=
  {| ProcessAlert.apiKey := VStr "key";
     ProcessAlert.apiSecret := VStr "secret";
     ProcessAlert.op_symbol := "SOLUSDT";
     ProcessAlert.side := VStr "Buy";
     ProcessAlert.orderType := VStr "Market";
     ProcessAlert.quantity := to_double (3 # 10);
     ProcessAlert.price := VUndef;
     ProcessAlert.stopLoss := VNull;
     ProcessAlert.takeProfit := VNull;
     ProcessAlert.testnet := VBool true |}.

Definition sim_prepared : ProcessAlert.state :=
  {| ProcessAlert.db := store; ProcessAlert.ticks := 1;
     ProcessAlert.trace :=
       [ ProcessAlert.WebhookSelected "tok-sim" 1700000000000;
         ProcessAlert.ApiKeySelected "user-1";
         ProcessAlert.InstrumentsFetched
           "https://api-testnet.bybit.com/v5/market/instruments-info?symbol=SOLUSDT&category=linear" ] |}.

(** A lot filter with minimum 0.01 and step 0.001, and a quantity. *)
Definition lot_min : value := VStr "0.01".
Definition lot_step : value := VStr "0.001".
Definition lot_step_value : Q :=
  Eval vm_compute in match parseFloat "0.001" with Fin q => q | _ => 0%Q end.
Definition lot_raw : number := parseFloat "0.0127".

(** The issuer in the same deployment: a clock at 2023-11-14 22:13:20
    UTC, the runtime in UTC. *)
Definition issuer_world : GenerateWebhook.world :=
  {| GenerateWebhook.SUPABASE_URL := VStr "https://db.example";
     GenerateWebhook.SUPABASE_SERVICE_KEY := VStr "service-key";
     GenerateWebhook.clock := fun n => (1700000000000 + Z.of_nat n)%Z;
     GenerateWebhook.zone := utc_zone;
     GenerateWebhook.entropy := fun n => (N.of_nat n * 37 + 11)%N;
     GenerateWebhook.number_text := fun _ => "";
     GenerateWebhook.db_fault := fun _ => false |}.

Definition issuer_start : GenerateWebhook.state :=
  {| GenerateWebhook.db := store; GenerateWebhook.ticks := 0;
     GenerateWebhook.trace := [] |}.

Definition issue_request : request :=
  post "/.netlify/functions/generateWebhook"
       (Some (VObj [("userId", VStr "user-1"); ("botId", VStr "bot-sim")])).

Definition incomplete_request : request :=
  post "/.netlify/functions/generateWebhook" (Some (VObj [("userId", VStr "user-1")])).

(** The body [{"botId": {"toString": null}}]: no [userId], and a
    [botId] that does not print. *)
Definition unprintable_body : value :=
  VObj [("botId", VObj [("toString", VNull)])].

Definition sim_hook : string := "/.netlify/functions/processAlert/tok-sim".
Definition live_hook : string := "/.netlify/functions/processAlert/tok-live".

Definition sim_webhook : webhook_row :=
  {| webhook_token := "tok-sim"; user_id := "user-1"; bot_id := "bot-sim";
     expires_at := 1702592000000; created_at := 1700000000000 |}.

End Samples.

(* ================================================================== *)
(** * The trade history page: [src/pages/TradeHistory.tsx] *)
(* ================================================================== *)

(** The page keeps the fetched trades and three filters in its state;
    what it shows is computed from them on every render.  These are the
    computations, as functions of that state. *)
Module TradeHistory.

Import JSNumber JSString.
Local Open Scope string_scope.

(** [type Trade] *)
Record Trade : Type := {
  id : string;
  bot_id : string;
  bot_name : string;
  symbol : string;
  side : string;
  order_type : string;
  quantity : number;
  price : number;
  status : string;
  order_id : string;
  created_at : string
}.

(** [s.toLowerCase()], on the letters A to Z; every other character is
    kept. *)
Definition lower_char (c : ascii) : ascii :=
  let n := N_of_ascii c in
  if ((65 <=? n) && (n <=? 90))%N then ascii_of_N (n + 32) else c.

Fixpoint toLowerCase (s : string) : string :=
  match s with
  | String c r => String (lower_char c) (toLowerCase r)
  | EmptyString => ""
  end.

(** [s.includes(t)]: [t] occurs in [s]. *)
Fixpoint includes (s t : string) : bool :=
  prefix t s
  || match s with
     | String _ r => includes r t
     | EmptyString => false
     end.

(** A row as the query returns it: the columns of the trade, and the
    name of the bot embedded under [bots], [None] when the relation or
    the name is [null]. *)
Record fetched : Type := {
  columns : Trade;
  bots : option string
}.

(** [{ ...trade, bot_name: trade.bots?.name || 'Unknown' }] *)
Definition with_bot_name (row : fetched) : Trade :=
  let t := columns row in
  {| id := id t; bot_id := bot_id t;
     bot_name := match bots row with
                 | Some name => if String.eqb name "" then "Unknown" else name
                 | None => "Unknown"
                 end;
     symbol := symbol t; side := side t; order_type := order_type t;
     quantity := quantity t; price := price t; status := status t;
     order_id := order_id t; created_at := created_at t |}.

(** [data?.map(...) || []] *)
Definition tradesWithBotNames (data : option (list fetched)) : list Trade :=
  match data with
  | Some rows => map with_bot_name rows
  | None => []
  end.

(** [[...new Set(trades.map(trade => trade.symbol))]]: the symbols in the
    order of their first occurrence. *)
Definition add_symbol (acc : list string) (trade : Trade) : list string :=
  if existsb (String.eqb (symbol trade)) acc then acc
  else (acc ++ [symbol trade])%list.

Definition uniqueSymbols (trades : list Trade) : list string :=
  fold_left add_symbol trades [].

(** An entry of the bot filter: [{ id, name }]. *)
Record bot_option : Type := {
  option_id : string;
  option_name : string
}.

(** The callback of the [reduce] that collects the bots of the trades:
    [if (trade.bot_id && !acc.some(bot => bot.id === trade.bot_id)) acc.push(...)]. *)
Definition add_bot (acc : list bot_option) (trade : Trade) : list bot_option :=
  if negb (String.eqb (bot_id trade) "")
     && negb (existsb (fun bot => String.eqb (option_id bot) (bot_id trade)) acc)
  then (acc ++ [{| option_id := bot_id trade; option_name := bot_name trade |}])%list
  else acc.

Definition uniqueBots (trades : list Trade) : list bot_option :=
  fold_left add_bot trades [].

(** The predicate of [trades.filter(...)]. *)
Definition shown (searchTerm symbolFilter botFilter : string) (trade : Trade) : bool :=
  let matchesSearch :=
    String.eqb searchTerm ""
    || includes (toLowerCase (symbol trade)) (toLowerCase searchTerm)
    || includes (toLowerCase (bot_name trade)) (toLowerCase searchTerm)
    || includes (toLowerCase (side trade)) (toLowerCase searchTerm)
    || includes (toLowerCase (order_id trade)) (toLowerCase searchTerm) in
  let matchesSymbol := String.eqb symbolFilter "" || String.eqb (symbol trade) symbolFilter in
  let matchesBot := String.eqb botFilter "" || String.eqb (bot_id trade) botFilter in
  matchesSearch && matchesSymbol && matchesBot.

Definition filteredTrades (searchTerm symbolFilter botFilter : string)
    (trades : list Trade) : list Trade :=
  filter (shown searchTerm symbolFilter botFilter) trades.

End TradeHistory.

(* ================================================================== *)
(** * The vocabulary of whole runs *)
(* ================================================================== *)

Module RunNotions.

Import JSNumber JSString JSValue JSDate Http Database Eff ProcessAlert AlertNotions.
Local Open Scope string_scope.
Local Open Scope list_scope.

(** The collaborator an event addresses. *)
Inductive kind : Type := KWebhook | KKey | KFetch | KOrder | KTrade | KBot.

Definition kind_of (e : event) : kind :=
  match e with
  | WebhookSelected _ _ => KWebhook
  | ApiKeySelected _ => KKey
  | InstrumentsFetched _ => KFetch
  | OrderSubmitted _ => KOrder
  | TradeInsertIssued _ => KTrade
  | BotUpdateIssued _ _ _ => KBot
  end.

(** The requests of a run that stops before the audit, in order. *)
Definition refusals : list (list kind) :=
  [ []; [KWebhook]; [KWebhook; KKey]; [KWebhook; KKey; KFetch];
    [KWebhook; KKey; KFetch; KOrder] ].

(** The requests of a run that reaches the audit: simulated, or sent to
    the exchange. *)
Definition services : list (list kind) :=
  [ [KWebhook; KKey; KFetch; KTrade; KBot];
    [KWebhook; KKey; KFetch; KOrder; KTrade; KBot] ].

(** The tables after the audit of an order result: the trade appended
    and the bot updated, each unless its statement fails. *)
Definition logged (w : world) (webhook : webhook_row) (bot : bot_row)
    (orderResult : value) (t1 t2 : Z) (d : database) : database :=
  let d1 := if db_fault w InsertTrade then d
            else insert_trade d (trade_of webhook orderResult t1) in
  if db_fault w UpdateBot then d1
  else update_bot d1 (bot_id webhook) t2 (next_trade_count (trade_count bot)).

(** The columns of a bot that configure it. *)
Definition settings (b : bot_row)
  : string * value * value * value * value * value * value * value :=
  (id b, symbol b, default_side b, default_order_type b, default_quantity b,
   default_stop_loss b, default_take_profit b, test_mode b).

(** The two ways a run ends: refused, the tables untouched; or served,
    with the order result audited. *)
Inductive run (w : world) (rq : request) (s : state) (r : response) (s' : state) : Prop :=
| refused events :
    status r <> 200%Z -> db s' = db s ->
    trace s' = trace s ++ events ->
    In (map kind_of events) refusals ->
    run w rq s r s'
| served webhook bot key order orderResult url :
    configured w -> method rq = "POST" ->
    webhook_lookup w rq s = Some (webhook, Some bot) ->
    key_lookup w s (user_id webhook) = Some key ->
    readable orderResult ->
    (exists symbol qty, order = build_order (alert_payload rq) bot key symbol qty) ->
    (exists mid, prepare w (alert_payload rq) (Some bot) key
                   (after_selects w rq s (user_id webhook)) = (Val (bot, order), mid)) ->
    let sim := truthy (test_mode bot) in
    let n := if sim then S (ticks s) else ticks s in
    (if sim then orderResult = test_order order (clock w (S (ticks s)))
     else executeBybitOrder w order = inr orderResult) ->
    r = respond 200 (OrderBody (lookup_of orderResult "orderId")
                               (lookup_of orderResult "status") (test_mode bot)) ->
    db s' = logged w webhook bot orderResult (clock w (S n)) (clock w (S (S n))) (db s) ->
    ticks s' = S (S (S n)) ->
    trace s' = trace s
               ++ [WebhookSelected (last_segment (pathname rq)) (clock w (ticks s));
                   ApiKeySelected (user_id webhook); InstrumentsFetched url]
               ++ (if sim then [] else [OrderSubmitted order])
               ++ [TradeInsertIssued (trade_of webhook orderResult (clock w (S n)));
                   BotUpdateIssued (bot_id webhook) (clock w (S (S n)))
                                   (next_trade_count (trade_count bot))] ->
    run w rq s r s'.

(** A JSON body that is neither an object nor [null]: a number, a text,
    a boolean or an array. *)
Definition plain (v : value) : bool :=
  match v with
  | VBool _ | VNum _ | VStr _ | VArr _ => true
  | VUndef | VNull | VObj _ => false
  end.

(** What the update of the bot makes of a row. *)
Definition counted (bid : string) (at_ : Z) (count : number) (b : bot_row) : bot_row :=
  if String.eqb (id b) bid
  then {| id := id b; symbol := symbol b;
          default_side := default_side b;
          default_order_type := default_order_type b;
          default_quantity := default_quantity b;
          default_stop_loss := default_stop_loss b;
          default_take_profit := default_take_profit b;
          test_mode := test_mode b;
          trade_count := Some count;
          last_trade_at := Some at_ |}
  else b.

(** The orders among the events of a run. *)
Fixpoint orders_of (events : list event) : list orderParams :=
  match events with
  | OrderSubmitted p :: rest => p :: orders_of rest
  | _ :: rest => orders_of rest
  | [] => []
  end.

(** The host a bot's metadata query goes to. *)
Definition host_of (w : world) (bot : bot_row) : string :=
  if truthy (test_mode bot) then TESTNET_URL w else MAINNET_URL w.

(** The lot filter the handler reads from an answer of the exchange:
    [infoJson.result.list[0].lotSizeFilter]. *)
Definition lot_filter (infoJson : value) : exn + value :=
  match get infoJson "result" with
  | inl e => inl e
  | inr result =>
      match get result "list" with
      | inl e => inl e
      | inr list =>
          match index0 list with
          | inl e => inl e
          | inr inst => get inst "lotSizeFilter"
          end
      end
  end.

(** [parseFloat(alertData.quantity ?? bot.default_quantity ?? 0)] *)
Definition raw_quantity (alertData : value) (bot : bot_row) : exn + number :=
  parseFloat_value
    (nullish (nullish (lookup_of alertData "quantity") (default_quantity bot))
             (VNum (Fin 0))).

(** The address of the metadata query. *)
Definition instruments_url (host symbol : string) : string :=
  host ++ "/v5/market/instruments-info?symbol=" ++ symbol ++ "&category=linear".

(** The exchange lists [symbol] on the host of the bot: the metadata
    query is answered with [retCode] 0 and a lot filter whose minimum is
    [minQtyStr] and whose step is [stepStr]. *)
Definition listed (w : world) (bot : bot_row) (symbol : string)
    (minQtyStr stepStr : value) : Prop :=
  exists infoJson lot,
    instruments_info w (instruments_url (host_of w bot) symbol) = inr infoJson
    /\ strict_eq_num (lookup_of infoJson "retCode") (Fin 0) = true
    /\ lot_filter infoJson = inr lot
    /\ get_nullish lot "minOrderQty" "minTrdAmt" = inr minQtyStr
    /\ get_nullish lot "qtyStep" "stepSize" = inr stepStr.

(** The requests of a run up to the metadata query. *)
Definition reads (w : world) (rq : request) (s : state) (webhook : webhook_row)
    (url : string) : list event :=
  [WebhookSelected (last_segment (pathname rq)) (clock w (ticks s));
   ApiKeySelected (user_id webhook); InstrumentsFetched url].

(** The answer and the state of a run that audits the order result
    [orderResult]: [sent] is what went to the exchange, [n] the number of
    clock readings taken before the audit. *)
Definition audited (w : world) (rq : request) (s : state) (webhook : webhook_row)
    (bot : bot_row) (url : string) (sent : list event) (n : nat) (orderResult : value)
  : response * state :=
  (respond 200 (OrderBody (lookup_of orderResult "orderId")
                          (lookup_of orderResult "status") (test_mode bot)),
   {| db := logged w webhook bot orderResult (clock w n) (clock w (S n)) (db s);
      ticks := S (S n);
      trace := trace s ++ reads w rq s webhook url ++ sent
               ++ [TradeInsertIssued (trade_of webhook orderResult (clock w n));
                   BotUpdateIssued (bot_id webhook) (clock w (S n))
                                   (next_trade_count (trade_count bot))] |}).

(** The answer and the state of a run whose order, once submitted,
    comes to nothing: [e] is thrown. *)
Definition failed (w : world) (rq : request) (s : state) (webhook : webhook_row)
    (url : string) (order : orderParams) (e : exn) : response * state :=
  (respond 500 (ThrownBody e),
   {| db := db s; ticks := S (ticks s);
      trace := trace s ++ reads w rq s webhook url ++ [OrderSubmitted order] |}).

End RunNotions.

Module IssueNotions.

Import JSNumber JSString JSValue JSDate Http Database Eff GenerateWebhook.
Local Open Scope string_scope.

(** The callback URL of a token. *)
Definition callback (rq : request) (token : string) : string :=
  origin rq ++ "/.netlify/functions/processAlert/" ++ token.

(** The row the issuer stores. *)
Definition issued (w : world) (s : state) (uid bid : string) (expiry : Z) : webhook_row :=
  {| webhook_token := nanoid (entropy w) 32; user_id := uid; bot_id := bid;
     expires_at := expiry; created_at := clock w (S (ticks s)) |}.

(** The number of days a body asks for, where [expirationDays] is
    absent, a number, or a value that [+] takes for a number. *)
Definition days_given (body : value) (n : Z) : Prop :=
  match lookup_of body "expirationDays" with
  | VUndef => n = 30%Z
  | VNull => n = 0%Z
  | VBool b => n = if b then 1%Z else 0%Z
  | VNum x => x = of_Z n
  | _ => False
  end.

(** [expirationDays] as the destructuring leaves it: 30 when absent. *)
Definition days_of (body : value) : value :=
  match lookup_of body "expirationDays" with
  | VUndef => VNum (of_Z 30)
  | v => v
  end.

Fixpoint all_digits (s : string) : bool :=
  match s with
  | String c r => is_digit c && all_digits r
  | EmptyString => true
  end.

(** The number read from the digits of [s] after those of [acc]. *)
Fixpoint decimal_value (acc : Z) (s : string) : Z :=
  match s with
  | String c r => decimal_value (10 * acc + digit_val c) r
  | EmptyString => acc
  end.

End IssueNotions.

(* ================================================================== *)
(** * Further deployments *)
(* ================================================================== *)

Module MoreSamples.

Import JSNumber JSString JSValue JSDate Http Database.
Local Open Scope string_scope.

(** The deployment when the exchange refuses every order. *)
Definition refusing_exchange : ProcessAlert.world :=
  {| ProcessAlert.SUPABASE_URL := VStr "https://db.example";
     ProcessAlert.SUPABASE_SERVICE_KEY := VStr "service-key";
     ProcessAlert.clock := Samples.ticking;
     ProcessAlert.db_fault := Samples.no_fault;
     ProcessAlert.instruments_info := fun _ => inr (Samples.instrument "0.1" "0.1");
     ProcessAlert.executeBybitOrder := fun _ => inl (External "insufficient balance");
     ProcessAlert.MAINNET_URL := "https://api.bybit.com";
     ProcessAlert.TESTNET_URL := "https://api-testnet.bybit.com" |}.

Definition live_webhook : webhook_row :=
  {| webhook_token := "tok-live"; user_id := "user-1"; bot_id := "bot-live";
     expires_at := 1702592000000; created_at := 1700000000000 |}.

(** The deployment after the bot of the simulated webhook was deleted. *)
Definition orphaned : ProcessAlert.state :=
  {| ProcessAlert.db :=
       {| webhooks := webhooks Samples.store; bots := [Samples.live_bot];
          api_keys := api_keys Samples.store; trades := [] |};
     ProcessAlert.ticks := 0; ProcessAlert.trace := [] |}.

(** The requests of the live alert's run on the sample deployment. *)
Definition live_events : list ProcessAlert.event :=
  Eval vm_compute in
    ProcessAlert.trace
      (snd (ProcessAlert.handler (Samples.alert_world Samples.no_fault Samples.ticking)
              Samples.live_alert Samples.alert_start)).

(** A deployment with one bot that trades for real and sets neither a
    side nor an order type, an alert whose side is the empty text and
    whose order type is [null], the order the handler makes of it, and
    the course of its run up to dispatch. *)
Definition bare_bot : bot_row :=
  {| id := "bot-bare"; symbol := VStr "ETHUSDT";
     default_side := VStr ""; default_order_type := VNull;
     default_quantity := VNum (of_Z 1);
     default_stop_loss := VNull; default_take_profit := VNull;
     test_mode := VBool false; trade_count := None; last_trade_at := None |}.

Definition bare_webhook : webhook_row :=
  {| webhook_token := "tok-bare"; user_id := "user-1"; bot_id := "bot-bare";
     expires_at := 1702592000000; created_at := 1700000000000 |}.

Definition bare_start : ProcessAlert.state :=
  {| ProcessAlert.db :=
       {| webhooks := [bare_webhook]; bots := [bare_bot];
          api_keys := api_keys Samples.store; trades := [] |};
     ProcessAlert.ticks := 0; ProcessAlert.trace := [] |}.

Definition bare_alert : request :=
  Samples.post "/.netlify/functions/processAlert/tok-bare"
    (Some (VObj [("side", VStr ""); ("orderType", VNull)])).

Definition bare_order : ProcessAlert.orderParams :=
  {| ProcessAlert.apiKey := VStr "key";
     ProcessAlert.apiSecret := VStr "secret";
     ProcessAlert.op_symbol := "ETHUSDT";
     ProcessAlert.side := VStr "Buy";
     ProcessAlert.orderType := VStr "Market";
     ProcessAlert.quantity := of_Z 1;
     ProcessAlert.price := VUndef;
     ProcessAlert.stopLoss := VNull;
     ProcessAlert.takeProfit := VNull;
     ProcessAlert.testnet := VBool false |}.

Definition bare_prepared : ProcessAlert.state :=
  {| ProcessAlert.db := ProcessAlert.db bare_start; ProcessAlert.ticks := 1;
     ProcessAlert.trace :=
       [ ProcessAlert.WebhookSelected "tok-bare" 1700000000000;
         ProcessAlert.ApiKeySelected "user-1";
         ProcessAlert.InstrumentsFetched
           "https://api.bybit.com/v5/market/instruments-info?symbol=ETHUSDT&category=linear" ] |}.

(** An object with its own [toString], which does not print. *)
Definition unprintable : value := VObj [("toString", VNull)].

(** The minimum 0.01 of the sample lot filter, as a binary64 value. *)
Definition lot_min_value : Q :=
  Eval vm_compute in match parseFloat "0.01" with Fin q => q | _ => 0%Q end.

(** Requests for a webhook that lapsed yesterday, for one of 200 million
    days (a date out of range), and for one of 30 days with the days
    given as a text. *)
Definition issue_for (days : value) : request :=
  Samples.post "/.netlify/functions/generateWebhook"
    (Some (VObj [("userId", VStr "user-1"); ("botId", VStr "bot-sim");
                 ("expirationDays", days)])).

Definition lapsed_request : request := issue_for (VNum (of_Z (-1))).
Definition endless_request : request := issue_for (VNum (of_Z 200000000)).
Definition text_request : request := issue_for (VStr "30").

(** The deployment once the issuer has served [issue_request], and an
    alert posted to the URL it returned. *)
Definition issued_start : ProcessAlert.state :=
  {| ProcessAlert.db :=
       GenerateWebhook.db
         (snd (GenerateWebhook.handler Samples.issuer_world Samples.issue_request
                 Samples.issuer_start));
     ProcessAlert.ticks := 0; ProcessAlert.trace := [] |}.

Definition issued_alert : request :=
  Samples.post "/.netlify/functions/processAlert/Tb5yYnO8hJiNm_0lKuU6Z7wRaW9gxrIo" None.

End MoreSamples.

Module HistorySamples.

Import JSNumber JSString TradeHistory.
Local Open Scope string_scope.

Definition a_trade (i bot name sym sd oid : string) : Trade :=
  {| id := i; bot_id := bot; bot_name := name; symbol := sym; side := sd;
     order_type := "Market"; quantity := of_Z 1; price := of_Z 100;
     status := "Filled"; order_id := oid; created_at := "2023-11-14T22:13:20.000Z" |}.

(** Four trades of two bots, newest first. *)
Definition history : list Trade :=
  [ a_trade "t4" "bot-live" "Breakout" "BTCUSDT" "Sell" "order-42";
    a_trade "t3" "bot-sim" "Scalper" "SOLUSDT" "Buy" "test-1700000000001";
    a_trade "t2" "bot-live" "Breakout" "BTCUSDT" "Buy" "order-41";
    a_trade "t1" "" "Unknown" "ETHUSDT" "Buy" "order-40" ].

(** Rows as the query returns them: a bot with a name, a bot whose name
    is empty, and a trade whose bot is gone. *)
Definition rows : list fetched :=
  [ {| columns := a_trade "t3" "bot-sim" "" "SOLUSDT" "Buy" "test-1700000000001";
       bots := Some "Scalper" |};
    {| columns := a_trade "t2" "bot-live" "" "BTCUSDT" "Buy" "order-41";
       bots := Some "" |};
    {| columns := a_trade "t1" "bot-old" "" "ETHUSDT" "Buy" "order-40";
       bots := None |} ].

End HistorySamples.

(* ================================================================== *)
(** * Properties of binary64 rounding *)
(* ================================================================== *)

Module NumberFacts.

Import JSNumber.
Local Open Scope Q_scope.

(** ** Rounding to an integer *)

Lemma rne_Z (n : Z) : rne (inject_Z n) = n.
Proof.
  unfold rne. rewrite Qfloor_Z.
  assert (H : inject_Z n - inject_Z n == 0) by ring.
  destruct (Qcompare_spec (inject_Z n - inject_Z n) (1#2)) as [E|E|E]; try reflexivity.
  - rewrite H in E. discriminate.
  - rewrite H in E. discriminate.
Qed.

Lemma rne_eq (a b : Q) : a == b -> rne a = rne b.
Proof.
  intros H. unfold rne. rewrite (Qfloor_comp _ _ H).
  assert (E : a - inject_Z (Qfloor b) == b - inject_Z (Qfloor b)) by (rewrite H; reflexivity).
  rewrite (Qcompare_comp _ _ E (1 # 2) (1 # 2) (Qeq_refl _)). reflexivity.
Qed.

Lemma rne_bounds (q : Q) :
  inject_Z (rne q) - (1#2) <= q /\ q <= inject_Z (rne q) + (1#2).
Proof.
  unfold rne.
  pose proof (Qfloor_le q) as Hl. pose proof (Qlt_floor q) as Hu.
  rewrite inject_Z_plus in Hu. change (inject_Z 1) with 1 in Hu.
  destruct (Qcompare_spec (q - inject_Z (Qfloor q)) (1#2)) as [E|E|E].
  - destruct (Z.even (Qfloor q));
      [|rewrite inject_Z_plus; change (inject_Z 1) with 1]; lra.
  - lra.
  - rewrite inject_Z_plus. change (inject_Z 1) with 1. lra.
Qed.

Lemma rne_floor_cases (q : Q) : rne q = Qfloor q \/ rne q = (Qfloor q + 1)%Z.
Proof.
  unfold rne. destruct (Qcompare _ _); [destruct (Z.even _)|..]; auto.
Qed.

Lemma rne_mono (a b : Q) : a <= b -> (rne a <= rne b)%Z.
Proof.
  intros Hab.
  pose proof (Qfloor_resp_le _ _ Hab) as Hf.
  destruct (Z.eq_dec (Qfloor a) (Qfloor b)) as [E|N].
  - unfold rne. rewrite E.
    destruct (Qcompare_spec (a - inject_Z (Qfloor b)) (1#2)) as [Ea|Ea|Ea];
    destruct (Qcompare_spec (b - inject_Z (Qfloor b)) (1#2)) as [Eb|Eb|Eb];
      try destruct (Z.even (Qfloor b)); try lia; exfalso; lra.
  - destruct (rne_floor_cases a) as [-> | ->], (rne_floor_cases b) as [-> | ->]; lia.
Qed.

Lemma two_pos (e : Z) : 0 < 2 ^ e.
Proof. apply Qpower_0_lt. reflexivity. Qed.

Lemma two_succ (e : Z) : 2 ^ (e + 1) == 2 * 2 ^ e.
Proof. rewrite Qpower_plus by discriminate. change (2 ^ 1) with 2. ring. Qed.

Lemma two_pred (e : Z) : 2 ^ (e - 1) == 2 ^ e / 2.
Proof. rewrite Qpower_minus by discriminate. reflexivity. Qed.

Lemma two_le (a b : Z) : (a <= b)%Z -> 2 ^ a <= 2 ^ b.
Proof. intros H. apply Qpower_le_compat_l; [exact H|discriminate]. Qed.

Lemma two_lt_inv (a b : Z) : 2 ^ a < 2 ^ b -> (a < b)%Z.
Proof. intros H. apply (Qpower_lt_compat_l_inv 2); [exact H|reflexivity]. Qed.

Lemma Z_log2_Q (n : Z) :
  (0 < n)%Z -> 2 ^ Z.log2 n <= inject_Z n /\ inject_Z n < 2 ^ (Z.log2 n + 1).
Proof.
  intros Hn. destruct (Z.log2_spec n Hn) as [Hl Hu].
  pose proof (Z.log2_nonneg n) as H0.
  split.
  - change 2 with (inject_Z 2). rewrite <- Zpower_Qpower by exact H0.
    rewrite <- Zle_Qle. exact Hl.
  - change 2 with (inject_Z 2). rewrite <- Zpower_Qpower by lia.
    rewrite <- Zlt_Qlt. replace (Z.log2 n + 1)%Z with (Z.succ (Z.log2 n)) by lia. exact Hu.
Qed.

Lemma ilog2_spec (q : Q) : 0 < q -> 2 ^ ilog2 q <= q /\ q < 2 ^ (ilog2 q + 1).
Proof.
  intros Hq. unfold ilog2.
  destruct q as [n d]. cbn [Qnum Qden].
  assert (Hn : (0 < n)%Z) by (unfold Qlt in Hq; simpl in Hq; lia).
  destruct (Z_log2_Q Hn) as [Hnl Hnu].
  destruct (@Z_log2_Q (Zpos d) eq_refl) as [Hdl Hdu].
  set (a := Z.log2 n) in *. set (b := Z.log2 (Zpos d)) in *.
  assert (Eq : n # d == inject_Z n / inject_Z (Zpos d)) by apply Qmake_Qdiv.
  assert (Hd : 0 < inject_Z (Zpos d)) by reflexivity.
  pose proof (two_pos a) as Pa. pose proof (two_pos b) as Pb.
  assert (Hlow : 2 ^ (a - b - 1) < n # d).
  { rewrite Eq. apply Qlt_shift_div_l; [exact Hd|].
    replace (a - b - 1)%Z with (a - (b + 1))%Z by lia.
    rewrite Qpower_minus by discriminate.
    unfold Qdiv. rewrite <- Qmult_assoc.
    assert (H: / 2 ^ (b + 1) * inject_Z (Z.pos d) < 1).
    { rewrite Qmult_comm. apply Qlt_shift_div_r; [apply two_pos|]. lra. }
    nra. }
  assert (Hup : n # d < 2 ^ (a - b + 1)).
  { rewrite Eq. apply Qlt_shift_div_r; [exact Hd|].
    replace (a - b + 1)%Z with (a + 1 - b)%Z by lia.
    rewrite Qpower_minus by discriminate.
    pose proof (two_pos (a + 1)) as Pa1.
    assert (H : 1 <= inject_Z (Z.pos d) / 2 ^ b).
    { apply Qle_shift_div_l; [exact Pb|]. lra. }
    unfold Qdiv in *. nra. }
  destruct (Qle_bool (2 ^ (a - b)) (n # d)) eqn:E.
  - apply Qle_bool_iff in E. split; assumption.
  - assert (E' : ~ 2 ^ (a - b) <= n # d) by (rewrite <- Qle_bool_iff; congruence).
    apply Qnot_le_lt in E'. split.
    + apply Qlt_le_weak. exact Hlow.
    + replace (a - b - 1 + 1)%Z with (a - b)%Z by lia. exact E'.
Qed.

Lemma ilog2_mono (a b : Q) : 0 < a -> a <= b -> (ilog2 a <= ilog2 b)%Z.
Proof.
  intros Ha Hab.
  destruct (ilog2_spec Ha) as [H1 _].
  assert (Hb : 0 < b) by lra.
  destruct (ilog2_spec Hb) as [_ H2].
  assert (H : 2 ^ ilog2 a < 2 ^ (ilog2 b + 1)) by lra.
  apply two_lt_inv in H. lia.
Qed.

Lemma binade_mono (a b : Q) : 0 < a -> a <= b -> (binade a <= binade b)%Z.
Proof. intros Ha Hab. unfold binade. pose proof (ilog2_mono Ha Hab). lia. Qed.

Lemma two_split (e k : Z) : 2 ^ (e + k) == 2 ^ k * 2 ^ e.
Proof. rewrite Qpower_plus by discriminate. ring. Qed.

Lemma scaled_lt (q : Q) : 0 < q -> q / 2 ^ binade q < 2 ^ 53.
Proof.
  intros Hq. destruct (ilog2_spec Hq) as [_ Hu].
  apply Qlt_shift_div_r; [apply two_pos|].
  rewrite <- two_split.
  eapply Qlt_le_trans; [exact Hu|]. apply two_le. unfold binade. lia.
Qed.

Lemma scaled_ge (q : Q) :
  0 < q -> (-1074 <= ilog2 q - 52)%Z -> 2 ^ 52 <= q / 2 ^ binade q.
Proof.
  intros Hq Hn. destruct (ilog2_spec Hq) as [Hl _].
  apply Qle_shift_div_l; [apply two_pos|].
  rewrite <- two_split.
  eapply Qle_trans; [|exact Hl]. apply two_le. unfold binade. lia.
Qed.

Lemma two_Z (k : Z) : (0 <= k)%Z -> 2 ^ k == inject_Z (2 ^ k).
Proof. intros H. rewrite Zpower_Qpower by exact H. reflexivity. Qed.

Lemma round_pos_le_top (q : Q) : 0 < q -> round_pos q <= 2 ^ (binade q + 53).
Proof.
  intros Hq. unfold round_pos. rewrite two_split.
  apply Qmult_le_compat_r; [|apply Qlt_le_weak, two_pos].
  rewrite (@two_Z 53) by lia. rewrite <- Zle_Qle.
  rewrite <- (rne_Z (2 ^ 53)). apply rne_mono.
  rewrite <- two_Z by lia. apply Qlt_le_weak, scaled_lt, Hq.
Qed.

Lemma round_pos_ge_bottom (q : Q) :
  0 < q -> (-1074 <= ilog2 q - 52)%Z -> 2 ^ (binade q + 52) <= round_pos q.
Proof.
  intros Hq Hn. unfold round_pos. rewrite two_split.
  apply Qmult_le_compat_r; [|apply Qlt_le_weak, two_pos].
  rewrite (@two_Z 52) by lia. rewrite <- Zle_Qle.
  rewrite <- (rne_Z (2 ^ 52)). apply rne_mono.
  rewrite <- two_Z by lia. apply scaled_ge; assumption.
Qed.

Lemma round_pos_mono (a b : Q) : 0 < a -> a <= b -> round_pos a <= round_pos b.
Proof.
  intros Ha Hab. assert (Hb : 0 < b) by lra.
  pose proof (binade_mono Ha Hab) as He.
  destruct (Z.eq_dec (binade a) (binade b)) as [E|N].
  - unfold round_pos. rewrite E.
    apply Qmult_le_compat_r; [|apply Qlt_le_weak, two_pos].
    rewrite <- Zle_Qle. apply rne_mono.
    apply Qmult_le_compat_r; [exact Hab|].
    apply Qlt_le_weak, Qinv_lt_0_compat, two_pos.
  - eapply Qle_trans; [apply round_pos_le_top, Ha|].
    eapply Qle_trans; [|apply round_pos_ge_bottom; [exact Hb|unfold binade in *; lia]].
    apply two_le. lia.
Qed.

Lemma round_pos_nonneg (q : Q) : 0 < q -> 0 <= round_pos q.
Proof.
  intros Hq. unfold round_pos.
  apply Qmult_le_0_compat; [|apply Qlt_le_weak, two_pos].
  change 0 with (inject_Z 0). rewrite <- Zle_Qle.
  rewrite <- (rne_Z 0). apply rne_mono.
  apply Qlt_le_weak. apply Qlt_shift_div_l; [apply two_pos|].
  rewrite Qmult_0_l. exact Hq.
Qed.

(** The rounding error is at most half a unit in the last place. *)
Lemma round_pos_error (q : Q) :
  0 < q ->
  q - 2 ^ binade q / 2 <= round_pos q /\ round_pos q <= q + 2 ^ binade q / 2.
Proof.
  intros Hq. unfold round_pos.
  pose proof (two_pos (binade q)) as P.
  set (p := 2 ^ binade q) in *. clearbody p.
  destruct (rne_bounds (q / p)) as [Hl Hu].
  set (r := inject_Z (rne (q / p))) in *. clearbody r.
  assert (E : q == q / p * p) by (field; lra).
  set (x := q / p) in *. clearbody x.
  assert (H1 : 0 <= (r + (1 # 2) - x) * p) by (apply Qmult_le_0_compat; lra).
  assert (H2 : 0 <= (x - (r - (1 # 2))) * p) by (apply Qmult_le_0_compat; lra).
  rewrite E. split.
  - setoid_replace (x * p - p / 2) with (r * p - (r + (1 # 2) - x) * p) by field. lra.
  - setoid_replace (x * p + p / 2) with (r * p + (x - (r - (1 # 2))) * p) by field. lra.
Qed.

(** In the normal range the error is relative: at most [q / 2^53]. *)
Lemma round_pos_relative (q : Q) :
  2 ^ (-1022) <= q ->
  q - q / 2 ^ 53 <= round_pos q /\ round_pos q <= q + q / 2 ^ 53.
Proof.
  intros Hn.
  assert (Hq : 0 < q) by (pose proof (two_pos (-1022)); lra).
  destruct (ilog2_spec Hq) as [Hl Hu].
  assert (Hi : (-1022 <= ilog2 q)%Z).
  { assert (H : 2 ^ (-1022) < 2 ^ (ilog2 q + 1)) by lra. apply two_lt_inv in H. lia. }
  assert (Hb : binade q = (ilog2 q - 52)%Z) by (unfold binade; lia).
  assert (Hulp : 2 ^ binade q / 2 <= q / 2 ^ 53).
  { rewrite Hb. replace (ilog2 q - 52)%Z with (ilog2 q + -52)%Z by lia.
    rewrite two_split.
    assert (E : 2 ^ (-52) / 2 == / 2 ^ 53) by reflexivity.
    unfold Qdiv in *. rewrite (Qmult_comm (2 ^ (-52))), <- Qmult_assoc, E.
    apply Qmult_le_compat_r; [exact Hl|]. apply Qlt_le_weak, Qinv_lt_0_compat, two_pos. }
  destruct (round_pos_error Hq) as [H1 H2]. split; lra.
Qed.

(** Integers below [2^53] are binary64 values. *)
Lemma round_pos_int (n : Z) : (0 < n < 2 ^ 53)%Z -> round_pos (inject_Z n) == inject_Z n.
Proof.
  intros [Hn Hu].
  assert (Hq : 0 < inject_Z n) by (change 0 with (inject_Z 0); rewrite <- Zlt_Qlt; exact Hn).
  destruct (ilog2_spec Hq) as [Hl _].
  assert (Hi : (ilog2 (inject_Z n) < 53)%Z).
  { apply two_lt_inv. eapply Qle_lt_trans; [exact Hl|].
    rewrite (@two_Z 53) by lia. rewrite <- Zlt_Qlt. exact Hu. }
  unfold round_pos. set (e := binade (inject_Z n)).
  assert (He : (e <= 0)%Z) by (unfold e, binade; lia).
  assert (E : inject_Z n / 2 ^ e == inject_Z (n * 2 ^ (- e))).
  { rewrite inject_Z_mult, <- two_Z by lia. rewrite Qpower_opp. reflexivity. }
  rewrite (rne_eq E), rne_Z, inject_Z_mult, <- two_Z by lia. rewrite Qpower_opp.
  pose proof (two_pos e) as P. set (p := 2 ^ e) in *. clearbody p.
  field. lra.
Qed.

(** ** Numbers *)

Lemma to_double_pos (q : Q) :
  0 < q ->
  to_double q = if Qle_bool (2 ^ 1024) (round_pos q) then PosInf
                else Fin (Qred (round_pos q)).
Proof.
  intros Hq. unfold to_double.
  destruct (Qcompare_spec q 0) as [E|E|E]; [lra|lra|reflexivity].
Qed.

Lemma to_double_zero (q : Q) : q == 0 -> to_double q = Fin 0.
Proof.
  intros Hq. unfold to_double.
  destruct (Qcompare_spec q 0) as [E|E|E]; [reflexivity|lra|lra].
Qed.

Lemma Qle_bool_true (a b : Q) : a <= b -> Qle_bool a b = true.
Proof. intros H. now apply Qle_bool_iff. Qed.

Lemma Qle_bool_false (a b : Q) : b < a -> Qle_bool a b = false.
Proof.
  intros H. destruct (Qle_bool a b) eqn:E; [|reflexivity].
  apply Qle_bool_iff in E. lra.
Qed.

(** Rounding to binary64 is monotone (on the non-negative reals). *)
Lemma to_double_mono (a b : Q) :
  0 <= a -> a <= b -> le (to_double a) (to_double b) = true.
Proof.
  intros Ha Hab.
  destruct (Qlt_le_dec 0 a) as [Pa|Za].
  - assert (Pb : 0 < b) by lra.
    rewrite (to_double_pos Pa), (to_double_pos Pb).
    pose proof (round_pos_mono Pa Hab) as Hm.
    destruct (Qle_bool (2 ^ 1024) (round_pos a)) eqn:Oa.
    + apply Qle_bool_iff in Oa.
      rewrite (@Qle_bool_true (2 ^ 1024) (round_pos b)) by (eapply Qle_trans; eassumption).
      reflexivity.
    + destruct (Qle_bool (2 ^ 1024) (round_pos b)); [reflexivity|].
      cbv [le lt]. rewrite negb_involutive. apply Qle_bool_true.
      rewrite !Qred_correct. exact Hm.
  - assert (E : a == 0) by lra. rewrite (to_double_zero E).
    destruct (Qlt_le_dec 0 b) as [Pb|Zb].
    + rewrite (to_double_pos Pb).
      destruct (Qle_bool (2 ^ 1024) (round_pos b)); [reflexivity|].
      cbv [le lt]. rewrite negb_involutive. apply Qle_bool_true.
      rewrite Qred_correct. apply round_pos_nonneg, Pb.
    + assert (E' : b == 0) by lra. rewrite (to_double_zero E'). reflexivity.
Qed.

Lemma rhu_unique (x : Q) (n : Z) :
  inject_Z n - (1 # 2) <= x -> x < inject_Z n + (1 # 2) -> rhu x = n.
Proof.
  intros Hl Hu. unfold rhu.
  pose proof (Qfloor_le (x + (1 # 2))) as Fl.
  pose proof (Qlt_floor (x + (1 # 2))) as Fu.
  set (f := Qfloor (x + (1 # 2))) in *.
  assert (H1 : inject_Z f < inject_Z (n + 1)).
  { rewrite inject_Z_plus. change (inject_Z 1) with 1. lra. }
  assert (H2 : inject_Z n < inject_Z (f + 1)) by lra.
  rewrite <- Zlt_Qlt in H1, H2. lia.
Qed.

Lemma rhu_mono (a b : Q) : a <= b -> (rhu a <= rhu b)%Z.
Proof. intros H. unfold rhu. apply Qfloor_resp_le. lra. Qed.

Lemma ten_pos (d : Z) : (0 <= d)%Z -> 0 < inject_Z (10 ^ d).
Proof.
  intros H. change 0 with (inject_Z 0). rewrite <- Zlt_Qlt.
  apply Z.pow_pos_nonneg; lia.
Qed.

Lemma ten_le (d : Z) : (0 <= d <= 100)%Z -> inject_Z (10 ^ d) <= inject_Z (10 ^ 100).
Proof. intros H. rewrite <- Zle_Qle. apply Z.pow_le_mono_r; lia. Qed.

Lemma Qinv_le (a b : Q) : 0 < a -> a <= b -> / b <= / a.
Proof.
  intros Pa Hab. assert (Pb : 0 < b) by lra.
  apply Qle_shift_inv_l; [exact Pa|].
  rewrite Qmult_comm. apply Qle_shift_div_r; [exact Pb|]. lra.
Qed.

Lemma tiny : 2 ^ (-1022) <= / inject_Z (10 ^ 100).
Proof.
  assert (HZ : (10 ^ 100 <= 2 ^ 1022)%Z) by (vm_compute; discriminate).
  assert (PZ : (0 < 10 ^ 100)%Z) by (vm_compute; reflexivity).
  change (-1022)%Z with (- (1022))%Z. rewrite Qpower_opp.
  rewrite (@two_Z 1022) by lia.
  apply Qinv_le.
  - change 0 with (inject_Z 0). rewrite <- Zlt_Qlt. exact PZ.
  - rewrite <- Zle_Qle. exact HZ.
Qed.

(** A decimal with at most [d] places and mantissa below [2^52]
    survives the trip through binary64 and [toFixed(d)]: the text is the
    decimal itself. *)
Lemma toFixed_of_decimal (M d : Z) :
  (0 <= M < 2 ^ 52)%Z -> (0 <= d <= 100)%Z ->
  toFixed (to_double (inject_Z M / inject_Z (10 ^ d))) d = Some (TxtDec false M d).
Proof.
  intros [HM0 HM] Hd.
  pose proof (ten_pos (proj1 Hd)) as PT. pose proof (ten_le Hd) as LT.
  set (T := inject_Z (10 ^ d)) in *.
  assert (Hrange : ((d <? 0) || (100 <? d))%Z = false).
  { destruct (Z.ltb_spec d 0), (Z.ltb_spec 100 d); try lia; reflexivity. }
  assert (HMq : inject_Z M < inject_Z (2 ^ 52)) by (rewrite <- Zlt_Qlt; exact HM).
  destruct (Z.eq_dec M 0) as [-> | Hnz].
  - rewrite to_double_zero by (unfold Qdiv; ring).
    unfold toFixed. rewrite Hrange. reflexivity.
  - assert (PM : 1 <= inject_Z M) by (change 1 with (inject_Z 1); rewrite <- Zle_Qle; lia).
    set (q := inject_Z M / T).
    assert (Eq : q * T == inject_Z M) by (unfold q; field; lra).
    assert (Pq : 0 < q) by (unfold q; apply Qlt_shift_div_l; lra).
    assert (Hnorm : 2 ^ (-1022) <= q).
    { eapply Qle_trans; [apply tiny|].
      unfold q, Qdiv. 
      assert (H : / inject_Z (10 ^ 100) <= / T).
      { apply Qle_shift_inv_l; [exact PT|].
        rewrite Qmult_comm. apply Qle_shift_div_r; [reflexivity|]. lra. }
      assert (PiT : 0 < / T) by (apply Qinv_lt_0_compat; exact PT).
      nra. }
    destruct (round_pos_relative Hnorm) as [Rl Ru].
    assert (Hq52 : q <= inject_Z M).
    { unfold q. apply Qle_shift_div_r; [exact PT|].
      assert (1 <= T).
      { unfold T. change 1 with (inject_Z 1). rewrite <- Zle_Qle.
        pose proof (Z.pow_pos_nonneg 10 d). lia. }
      nra. }
    set (m := round_pos q) in *.
    assert (H53 : q / 2 ^ 53 <= q * (1 # 2)).
    { unfold Qdiv. apply Qmult_le_l; [exact Pq|].
      apply Qle_bool_iff. reflexivity. }
    assert (Hm0 : 0 <= m) by lra.
    assert (Hmu : m < inject_Z (2 ^ 53)).
    { assert (inject_Z (2 ^ 53) == 2 * inject_Z (2 ^ 52)) by reflexivity. lra. }
    rewrite (to_double_pos Pq). fold m.
    rewrite (@Qle_bool_false (2 ^ 1024) m).
    2:{ eapply Qlt_le_trans; [exact Hmu|]. rewrite (@two_Z 1024) by lia.
        rewrite <- Zle_Qle. vm_compute. discriminate. }
    unfold toFixed. rewrite Hrange.
    assert (Ea : Qabs (Qred m) == m) by (rewrite Qabs_pos; rewrite Qred_correct; lra).
    rewrite (@Qle_bool_false (inject_Z (10 ^ 21)) (Qabs (Qred m))).
    2:{ rewrite Ea. eapply Qlt_le_trans; [exact Hmu|].
        rewrite <- Zle_Qle. vm_compute. discriminate. }
    assert (Hneg : is_neg (Qred m) = false).
    { unfold is_neg. rewrite Qle_bool_true; [reflexivity|]. rewrite Qred_correct. exact Hm0. }
    rewrite Hneg. fold T.
    assert (Hr : rhu (Qabs (Qred m) * T) = M).
    { assert (Herr : q / 2 ^ 53 * T < 1 # 2).
      { assert (E53 : q / 2 ^ 53 * T == inject_Z M / 2 ^ 53) by (rewrite <- Eq; field).
        rewrite E53. apply Qlt_shift_div_r; [reflexivity|].
        assert ((1 # 2) * 2 ^ 53 == inject_Z (2 ^ 52)) by reflexivity. lra. }
      apply rhu_unique; rewrite Ea, <- Eq.
      - assert (0 <= (m - (q - q / 2 ^ 53)) * T) by (apply Qmult_le_0_compat; lra).
        set (u := q / 2 ^ 53) in *. clearbody u. nra.
      - assert (0 <= (q + q / 2 ^ 53 - m) * T) by (apply Qmult_le_0_compat; lra).
        set (u := q / 2 ^ 53) in *. clearbody u. nra. }
    rewrite Hr. reflexivity.
Qed.


(** ** Values that round to themselves *)

Lemma ilog2_unique (q : Q) (l : Z) :
  (0 < q) -> (2 ^ l <= q) -> (q < 2 ^ (l + 1)) -> ilog2 q = l.
Proof.
  intros Hq Hl Hu. destruct (ilog2_spec Hq) as [Sl Su].
  assert (H1 : (2 ^ l < 2 ^ (ilog2 q + 1))) by lra.
  assert (H2 : (2 ^ ilog2 q < 2 ^ (l + 1))) by lra.
  apply two_lt_inv in H1, H2. lia.
Qed.

Lemma ilog2_eq (a b : Q) : (0 < a) -> (a == b) -> ilog2 a = ilog2 b.
Proof.
  intros Ha E. assert (Hb : (0 < b)) by lra.
  destruct (ilog2_spec Hb) as [Sl Su].
  apply ilog2_unique; [exact Ha|lra|lra].
Qed.

Lemma round_pos_eq (a b : Q) : (0 < a) -> (a == b) -> (round_pos a == round_pos b).
Proof.
  intros Ha E. unfold round_pos, binade. rewrite (ilog2_eq Ha E).
  set (e := Z.max (ilog2 b - 52) (-1074)).
  assert (E' : (a / 2 ^ e == b / 2 ^ e)) by (rewrite E; reflexivity).
  rewrite (rne_eq E'). reflexivity.
Qed.

(** [to_double] depends on the value of its argument only. *)
Lemma to_double_eq (a b : Q) : (a == b) -> to_double a = to_double b.
Proof.
  intros E. unfold to_double.
  rewrite (Qcompare_comp a b E 0 0 (Qeq_refl 0)).
  destruct (Qcompare_spec b 0) as [Z|N|P]; [reflexivity| |].
  - assert (Ha : (0 < - a)) by lra.
    assert (E' : (- a == - b)) by (rewrite E; reflexivity).
    pose proof (round_pos_eq Ha E') as R.
    rewrite (Qleb_comp (2 ^ 1024) (2 ^ 1024) (Qeq_refl _) _ _ R).
    destruct (Qle_bool _ _); [reflexivity|].
    f_equal. apply Qred_complete. rewrite R. reflexivity.
  - assert (Ha : (0 < a)) by lra.
    pose proof (round_pos_eq Ha E) as R.
    rewrite (Qleb_comp (2 ^ 1024) (2 ^ 1024) (Qeq_refl _) _ _ R).
    destruct (Qle_bool _ _); [reflexivity|].
    f_equal. apply Qred_complete. exact R.
Qed.

Lemma Qred_inject_Z (n : Z) : Qred (inject_Z n) = inject_Z n.
Proof.
  unfold Qred, inject_Z.
  pose proof (Z.ggcd_gcd n 1) as G. pose proof (Z.ggcd_correct_divisors n 1) as D.
  destruct (Z.ggcd n 1) as [g [aa bb]]. simpl in G, D.
  rewrite Z.gcd_1_r in G. subst g. destruct D as [Da Db].
  assert (Eb : bb = 1%Z) by lia. assert (Ea : aa = n) by lia.
  rewrite Ea, Eb. reflexivity.
Qed.

(** Integers below [2^53] are held exactly. *)
Lemma of_Z_small (n : Z) : (0 <= n < 2 ^ 53)%Z -> of_Z n = Fin (inject_Z n).
Proof.
  intros [H0 Hu]. unfold of_Z.
  destruct (Z.eq_dec n 0) as [->|N]; [reflexivity|].
  assert (Hq : (0 < inject_Z n)).
  { change 0 with (inject_Z 0). rewrite <- Zlt_Qlt. lia. }
  rewrite (to_double_pos Hq).
  pose proof (@round_pos_int n ltac:(lia)) as R.
  rewrite Qle_bool_false.
  - f_equal. rewrite (Qred_complete _ _ R). apply Qred_inject_Z.
  - rewrite R. rewrite (@two_Z 1024) by lia. rewrite <- Zlt_Qlt.
    eapply Z.lt_le_trans; [exact Hu|]. vm_compute. discriminate.
Qed.

Lemma add_small (a b : Z) :
  (0 <= a)%Z -> (0 <= b)%Z -> (a + b < 2 ^ 53)%Z ->
  add (Fin (inject_Z a)) (Fin (inject_Z b)) = Fin (inject_Z (a + b)).
Proof.
  intros Ha Hb Hs. cbv [add].
  rewrite (@to_double_eq (inject_Z a + inject_Z b) (inject_Z (a + b)))
    by (rewrite inject_Z_plus; reflexivity).
  apply of_Z_small. lia.
Qed.

End NumberFacts.

(* ================================================================== *)
(** * The rounding model against the kernel's binary64 *)
(* ================================================================== *)

(** [to_double] and the operations built on it are written out over
    [Q].  Here they are run side by side with the primitive binary64
    floats of the kernel on the values the counterexamples rest on. *)
Module Binary64Check.

Import JSNumber JSString Binary64.
Local Open Scope float_scope.
Set Warnings "-inexact-float".

Example literals_agree :
  map parseFloat ["0.1"; "0.2"; "0.3"; "0.35"; "0.01"; "0.012"; "0.127"; "1e21"; "5e-324"]%string
  = map of_float [0.1; 0.2; 0.3; 0.35; 0.01; 0.012; 0.127; 1e21; 5e-324].
Proof. vm_compute. reflexivity. Qed.

Example quotients_agree :
  [ div (of_float 0.3) (of_float 0.1); div (of_float 0.35) (of_float 0.1);
    div (of_float 0.127) (of_float 0.01); div (of_float 1) (of_float 0.1);
    div (of_float 1) (of_float 0); div (of_float 1e308) (of_float 1e-10) ]
  = map of_float [0.3 / 0.1; 0.35 / 0.1; 0.127 / 0.01; 1 / 0.1; 1 / 0; 1e308 / 1e-10].
Proof. vm_compute. reflexivity. Qed.

Example products_agree :
  [ mul (of_float 3) (of_float 0.1); mul (of_float 2) (of_float 0.1);
    mul (of_float 12) (of_float 0.01); mul (of_float 1e200) (of_float 1e200);
    mul (of_float 1e-200) (of_float 1e-200); mul (of_float 3e-310) (of_float 0.3) ]
  = map of_float [3 * 0.1; 2 * 0.1; 12 * 0.01; 1e200 * 1e200; 1e-200 * 1e-200; 3e-310 * 0.3].
Proof. vm_compute. reflexivity. Qed.

Example sums_agree :
  [ add (of_float 0.1) (of_float 0.2); add (of_float 9007199254740992) (of_float 1);
    add (of_float 31) (of_float 30) ]
  = map of_float [0.1 + 0.2; 9007199254740992 + 1; 31 + 30].
Proof. vm_compute. reflexivity. Qed.

End Binary64Check.

(* ================================================================== *)
(** * Properties of the calendar *)
(* ================================================================== *)

Module CalendarFacts.

Import JSDate.
Local Open Scope Z_scope.

Lemma div_step (x k : Z) :
  0 < k -> (x + 1) / k = x / k + (if (x + 1) mod k =? 0 then 1 else 0).
Proof.
  intros Hk.
  pose proof (Z.div_mod x k ltac:(lia)) as E0.
  pose proof (Z.div_mod (x + 1) k ltac:(lia)) as E1.
  pose proof (Z.mod_pos_bound x k Hk) as B0.
  pose proof (Z.mod_pos_bound (x + 1) k Hk) as B1.
  destruct (Z.eqb_spec ((x + 1) mod k) 0) as [Z0|N0]; nia.
Qed.

Lemma mod_shift (y c k : Z) : (y - c * k) mod k = y mod k.
Proof.
  replace (y - c * k) with (y + (- c) * k) by lia. apply Z_mod_plus_full.
Qed.

Lemma year_length (y : Z) :
  DayFromYear (y + 1) - DayFromYear y = 365 + (if InLeapYear y then 1 else 0).
Proof.
  unfold DayFromYear, InLeapYear.
  replace (y + 1 - 1969) with (y - 1969 + 1) by lia.
  replace (y + 1 - 1901) with (y - 1901 + 1) by lia.
  replace (y + 1 - 1601) with (y - 1601 + 1) by lia.
  rewrite !div_step by lia.
  replace (y - 1969 + 1) with (y - 492 * 4) by lia.
  replace (y - 1901 + 1) with (y - 19 * 100) by lia.
  replace (y - 1601 + 1) with (y - 4 * 400) by lia.
  rewrite !mod_shift.
  assert (H4 : y mod 400 = 0 -> y mod 100 = 0).
  { intros H. pose proof (Z.div_mod y 400 ltac:(lia)) as E.
    rewrite H in E. replace y with (0 + (4 * (y / 400)) * 100) by lia.
    rewrite Z_mod_plus_full. reflexivity. }
  assert (H1 : y mod 100 = 0 -> y mod 4 = 0).
  { intros H. pose proof (Z.div_mod y 100 ltac:(lia)) as E.
    rewrite H in E. replace y with (0 + (25 * (y / 100)) * 4) by lia.
    rewrite Z_mod_plus_full. reflexivity. }
  set (a := (y - 1969) / 4). set (b := (y - 1901) / 100). set (c := (y - 1601) / 400).
  clearbody a b c.
  destruct (Z.eqb_spec (y mod 4) 0), (Z.eqb_spec (y mod 100) 0), (Z.eqb_spec (y mod 400) 0);
    cbn [andb orb negb]; lia.
Qed.

Lemma DayFromYear_estimate (y : Z) :
  -506 <= 400 * DayFromYear y - 146097 * (y - 1970) <= 589.
Proof. unfold DayFromYear. Z.div_mod_to_equations. lia. Qed.

(** [YearFromTime] is the year whose days contain [t]. *)
Lemma year_of_day_spec (d : Z) :
  DayFromYear (year_of_day d) <= d < DayFromYear (year_of_day d + 1).
Proof.
  unfold year_of_day. cbv zeta.
  set (y := 1970 + 400 * d / 146097).
  assert (Hy : 146097 * (y - 1970) <= 400 * d < 146097 * (y - 1969)).
  { unfold y. pose proof (Z.div_mod (400 * d) 146097).
    pose proof (Z.mod_pos_bound (400 * d) 146097). lia. }
  clearbody y.
  pose proof (DayFromYear_estimate y) as E0.
  pose proof (DayFromYear_estimate (y + 1)) as E1.
  pose proof (year_length (y - 1)) as L0.
  pose proof (year_length (y + 1)) as L1.
  replace (y - 1 + 1) with y in * by lia.
  replace (y + 1 + 1) with (y + 2) in * by lia.
  destruct (InLeapYear (y - 1)), (InLeapYear (y + 1));
  destruct (Z.ltb_spec d (DayFromYear y)); [| destruct (Z.leb_spec (DayFromYear (y + 1)) d) ..];
    rewrite ?Z.sub_add; replace (y + 1 + 1) with (y + 2) by lia; lia.
Qed.

Lemma DayWithinYear_bounds (t : Z) :
  0 <= DayWithinYear t < 365 + (if InLeapYear (YearFromTime t) then 1 else 0).
Proof.
  unfold DayWithinYear, YearFromTime.
  pose proof (year_of_day_spec (Day t)). pose proof (year_length (year_of_day (Day t))). lia.
Qed.

Lemma MonthFromTime_bounds (t : Z) : 0 <= MonthFromTime t <= 11.
Proof.
  unfold MonthFromTime. cbv zeta.
  repeat match goal with |- context [if ?c then _ else _] => destruct c end; lia.
Qed.

Lemma DateFromTime_bounds (t : Z) : 1 <= DateFromTime t <= 31.
Proof.
  pose proof (DayWithinYear_bounds t) as H.
  unfold DateFromTime, MonthFromTime. cbv zeta.
  set (d := DayWithinYear t) in *. clearbody d.
  destruct (InLeapYear (YearFromTime t));
  repeat match goal with
         | |- context [if ?a <? ?b then _ else _] => destruct (Z.ltb_spec a b)
         end; simpl; lia.
Qed.

(** Moving the day of the month moves the day number by as much. *)
Lemma MakeDay_shift (t k : Z) :
  MakeDay (YearFromTime t) (MonthFromTime t) (DateFromTime t + k) = Day t + k.
Proof.
  pose proof (MonthFromTime_bounds t) as Hm.
  unfold MakeDay. cbv zeta.
  rewrite Z.div_small, Z.mod_small by lia. rewrite Z.add_0_r.
  unfold DateFromTime, DayWithinYear. lia.
Qed.

Lemma Day_decompose (t : Z) : MakeDate (Day t) (TimeWithinDay t) = t.
Proof.
  unfold MakeDate, Day, TimeWithinDay, msPerDay.
  pose proof (Z.div_mod t 86400000). lia.
Qed.

Lemma setDate_shift (tz : timezone) (t k : Z) :
  setDate tz t (getDate tz t + k)
  = TimeClip (UTC tz (LocalTime tz t + k * msPerDay)).
Proof.
  unfold setDate, getDate. cbv zeta. rewrite MakeDay_shift.
  f_equal. f_equal.
  pose proof (Day_decompose (LocalTime tz t)) as H. unfold MakeDate in *. lia.
Qed.

End CalendarFacts.

(* ================================================================== *)
(** * Properties of the quantity normalisation *)
(* ================================================================== *)

Module QuantityFacts.

Import JSNumber JSString JSValue ProcessAlert QuantityNotions NumberFacts.
Local Open Scope Q_scope.


Lemma to_double_not_nan (q : Q) : to_double q <> NaN.
Proof.
  unfold to_double. destruct (Qcompare q 0); [discriminate| |];
    destruct (Qle_bool _ _); discriminate.
Qed.

Lemma lt_irrefl (x : number) : lt x x = false.
Proof.
  destruct x; try reflexivity. cbv [lt]. rewrite Qle_bool_true; [reflexivity|apply Qle_refl].
Qed.

(** With a positive finite step the floored multiple is a number. *)
Lemma floored_multiple_not_nan (rawQty : number) (step : Q) :
  rawQty <> NaN -> 0 < step ->
  mul (floor (div rawQty (Fin step))) (Fin step) <> NaN.
Proof.
  intros Hr Hs.
  assert (Hz : Qeq_bool step 0 = false).
  { destruct (Qeq_bool step 0) eqn:E; [|reflexivity]. apply Qeq_bool_iff in E. lra. }
  assert (Hn : is_neg step = false) by (unfold is_neg; rewrite Qle_bool_true; [reflexivity|lra]).
  destruct rawQty as [| | |a]; [contradiction|..]; cbv [div]; rewrite ?Hn, ?Hz; cbv [inf_of_sign negb floor].
  - cbv [mul]. rewrite Hz, Hn. discriminate.
  - cbv [mul]. rewrite Hz, Hn. discriminate.
  - pose proof (to_double_not_nan (a / step)) as H.
    destruct (to_double (a / step)); [contradiction|..]; cbv [mul]; rewrite ?Hz, ?Hn;
      try discriminate. apply to_double_not_nan.
Qed.

(** The binary64 value of a decimal with at most [d] places is a fixed
    point of rounding to [d] places. *)
Lemma decimal_is_fixed_point (M d : Z) :
  (0 <= M < 2 ^ 52)%Z -> (0 <= d <= 100)%Z ->
  exists m, to_double (inject_Z M / inject_Z (10 ^ d)) = Fin m
            /\ 0 <= m
            /\ rhu (Qabs m * inject_Z (10 ^ d)) = M
            /\ Qle_bool (inject_Z (10 ^ 21)) (Qabs m) = false.
Proof.
  intros HM Hd. pose proof (toFixed_of_decimal HM Hd) as H.
  assert (Hrange : ((d <? 0) || (100 <? d))%Z = false).
  { destruct (Z.ltb_spec d 0), (Z.ltb_spec 100 d); try lia; reflexivity. }
  unfold toFixed in H. rewrite Hrange in H.
  destruct (to_double _) as [| | |m]; try discriminate.
  exists m. split; [reflexivity|].
  destruct (Qle_bool (inject_Z (10 ^ 21)) (Qabs m)); [discriminate|].
  inversion H as [[Hneg Hr]]. split; [|split; [reflexivity|reflexivity]].
  unfold is_neg in Hneg. destruct (Qle_bool 0 m) eqn:E; [|discriminate].
  now apply Qle_bool_iff.
Qed.

(** Rounding to [d] decimals does not take a number below a [minQty]
    that has at most [d] decimals itself. *)
Lemma fixed_keeps_minimum (M d : Z) (qty : number) :
  (0 <= M < 2 ^ 52)%Z -> (0 <= d <= 100)%Z ->
  let minQty := to_double (inject_Z M / inject_Z (10 ^ d)) in
  qty <> NaN -> lt qty minQty = false ->
  exists text, toFixed qty d = Some text
               /\ le minQty (parseFloat_fixed text) = true.
Proof.
  intros HM Hd minQty Hn Hlt.
  destruct (decimal_is_fixed_point HM Hd) as [m [Em [Hm [Hr Hbig]]]].
  assert (Hrange : ((d <? 0) || (100 <? d))%Z = false).
  { destruct (Z.ltb_spec d 0), (Z.ltb_spec 100 d); try lia; reflexivity. }
  pose proof (ten_pos (proj1 Hd)) as PT.
  unfold toFixed. rewrite Hrange. eexists. split; [reflexivity|].
  unfold minQty in *. 
  destruct qty as [| | |q]; [contradiction| | |].
  - rewrite Em. reflexivity.
  - rewrite Em in Hlt. discriminate.
  - assert (Hmq : m <= q).
    { rewrite Em in Hlt. cbv [lt] in Hlt.
      destruct (Qle_bool m q) eqn:E; [now apply Qle_bool_iff|discriminate]. }
    destruct (Qle_bool (inject_Z (10 ^ 21)) (Qabs q)) eqn:Ebig.
    + rewrite Em. cbv [parseFloat_fixed le lt]. rewrite negb_involutive.
      now apply Qle_bool_true.
    + assert (Hneg : is_neg q = false).
      { unfold is_neg. rewrite Qle_bool_true; [reflexivity|lra]. }
      rewrite Hneg. cbv [parseFloat_fixed].
      apply to_double_mono.
      * apply Qle_shift_div_l; [exact PT|]. rewrite Qmult_0_l.
        change 0 with (inject_Z 0). rewrite <- Zle_Qle. lia.
      * apply Qmult_le_compat_r; [|apply Qlt_le_weak, Qinv_lt_0_compat, PT].
        rewrite <- Zle_Qle. rewrite <- Hr. apply rhu_mono.
        apply Qmult_le_compat_r; [|lra].
        rewrite !Qabs_pos by lra. exact Hmq.
Qed.

Lemma inr_injective {A B : Type} (x y : B) : @inr A B x = inr y -> x = y.
Proof. intros H. now inversion H. Qed.

Lemma decimals_of_nonneg (stepStr : value) (d : Z) :
  decimals_of stepStr = inr d -> (0 <= d)%Z.
Proof.
  destruct stepStr; simpl; try discriminate.
  - intros H. inversion H. unfold JSString.decimals.
    destruct (JSString.after_dot s); lia.
  - destruct (existsb _ _); [discriminate|]. intros H. inversion H. lia.
Qed.

(** What the two clamps do achieve.  Let the step's text have
    [d <= 100] decimals and parse to a positive finite step, let [minQty]
    be the binary64 value of a decimal with at most [d] places (mantissa
    [M < 2^52]), and let [rawQty] be any number but NaN.  Then the
    normalisation yields a quantity that is at least [minQty], and
    [minQty] itself when [rawQty < minQty]. *)
Lemma aligned_minimum_is_kept :
  forall (minQtyStr stepStr : value) (rawQty : number) (step : Q) (M d : Z),
    decimals_of stepStr = inr d -> (d <= 100)%Z ->
    parseFloat_value stepStr = inr (Fin step) -> 0 < step ->
    parseFloat_value minQtyStr = inr (to_double (inject_Z M / inject_Z (10 ^ d))) ->
    (0 <= M < 2 ^ 52)%Z ->
    rawQty <> NaN ->
    let minQty := to_double (inject_Z M / inject_Z (10 ^ d)) in
    exists adjustedQty,
      normalizeQty minQtyStr stepStr rawQty = inr adjustedQty
      /\ le minQty adjustedQty = true
      /\ (lt rawQty minQty = true -> adjustedQty = minQty).
Proof.
  intros minQtyStr stepStr rawQty step M d Hdec Hd100 Hstep Hpos Hmin HM Hraw minQty.
  pose proof (decimals_of_nonneg _ Hdec) as Hd0.
  assert (Hd : (0 <= d <= 100)%Z) by lia.
  unfold normalizeQty. rewrite Hmin, Hstep, Hdec. fold minQty.
  set (floored := mul (floor (div rawQty (Fin step))) (Fin step)).
  set (qty1 := if lt rawQty minQty then minQty else floored).
  set (qty := if lt qty1 minQty then minQty else qty1).
  assert (Hqty : qty <> NaN /\ lt qty minQty = false).
  { unfold qty. destruct (lt qty1 minQty) eqn:E.
    - split; [apply to_double_not_nan|apply lt_irrefl].
    - split; [|exact E]. clear E. unfold qty1.
      destruct (lt rawQty minQty).
      + apply to_double_not_nan.
      + apply floored_multiple_not_nan; assumption. }
  destruct Hqty as [Hnn Hge].
  destruct (fixed_keeps_minimum HM Hd Hnn Hge) as [text [Htext Hle]].
  rewrite Htext. eexists. split; [reflexivity|].
  split; [exact Hle|].
  intros Hl. unfold qty, qty1 in Htext. rewrite Hl, lt_irrefl in Htext.
  unfold minQty in Htext. rewrite (toFixed_of_decimal HM Hd) in Htext.
  inversion Htext. reflexivity.
Qed.

(** The two examples of the specification, as the code computes them:
    0.127 with minimum and step 0.01 gives 0.12, and 0.003 gives 0.01. *)
Example normalize_floors :
  normalizeQty (VStr "0.01") (VStr "0.01") (parseFloat "0.127") = inr (parseFloat "0.12").
Proof. vm_compute. reflexivity. Qed.

Example normalize_clamps :
  normalizeQty (VStr "0.01") (VStr "0.01") (parseFloat "0.003") = inr (parseFloat "0.01").
Proof. vm_compute. reflexivity. Qed.

(** C1 fails on the code, in both its parts.  With minimum and step
    0.1 the quantity 0.3, which is three steps, is normalised to 0.2: in
    binary64 [0.3 / 0.1] is [2.9999999999999996], whose floor is 2, so the
    largest multiple of the step not exceeding the quantity is missed by
    one step (the defect of C2).  And a minimum with more decimals than
    the step is undercut: with minimum 0.012, step 0.01 and quantity 0
    the two clamps give 0.012, and the rounding to the step's two
    decimals, which comes after the last clamp, gives 0.01. *)
Theorem normalization_misses_the_specified_quantity :
  normalizeQty (VStr "0.1") (VStr "0.1") (parseFloat "0.3") = inr (parseFloat "0.2")
  /\ largest_multiple (1 # 10) (3 # 10) (3 # 10)
  /\ ~ as_specified "0.1" "0.1" (1 # 10) (1 # 10) (3 # 10)
  /\ normalizeQty (VStr "0.012") (VStr "0.01") (Fin 0) = inr (parseFloat "0.01")
  /\ lt (parseFloat "0.01") (parseFloat "0.012") = true
  /\ ~ as_specified "0.012" "0.01" (12 # 1000) (1 # 100) 0.
Proof.
  assert (L : largest_multiple (1 # 10) (3 # 10) (3 # 10)).
  { split; [exists 3%Z; reflexivity|]. split; unfold Qle, Qlt; simpl; lia. }
  split; [vm_compute; reflexivity|]. split; [exact L|]. split.
  { intros H. unfold as_specified in H.
    assert (P1 : parseFloat "0.1" = to_double (1 # 10)) by (vm_compute; reflexivity).
    assert (P3 : 0 <= 3 # 10) by (unfold Qle; simpl; lia).
    assert (P4 : 0 < 1 # 10) by reflexivity.
    assert (P5 : 0 <= 1 # 10) by (unfold Qle; simpl; lia).
    destruct (H P1 P1 P3 P4 P5) as [adjustedQty [E [_ [_ Hm]]]].
    assert (E' : normalizeQty (VStr "0.1") (VStr "0.1") (to_double (3 # 10))
                 = inr (parseFloat "0.2")) by (vm_compute; reflexivity).
    rewrite E' in E. apply inr_injective in E.
    assert (P6 : 1 # 10 <= 3 # 10) by (unfold Qle; simpl; lia).
    specialize (Hm P6 _ L). rewrite <- E in Hm.
    match type of Hm with
    | _ = ?x => assert (N : eqb (parseFloat "0.2") x = false) by (vm_compute; reflexivity)
    end.
    assert (T : eqb (parseFloat "0.2") (parseFloat "0.2") = true) by (vm_compute; reflexivity).
    rewrite <- Hm, T in N. exact (Bool.diff_true_false N). }
  split; [vm_compute; reflexivity|]. split; [vm_compute; reflexivity|].
  intros H. unfold as_specified in H.
  assert (P1 : parseFloat "0.012" = to_double (12 # 1000)) by (vm_compute; reflexivity).
  assert (P2 : parseFloat "0.01" = to_double (1 # 100)) by (vm_compute; reflexivity).
  assert (P3 : 0 <= 0) by apply Qle_refl.
  assert (P4 : 0 < 1 # 100) by reflexivity.
  assert (P5 : 0 <= 12 # 1000) by (unfold Qle; simpl; lia).
  destruct (H P1 P2 P3 P4 P5) as [adjustedQty [E [Hle _]]].
  assert (E' : normalizeQty (VStr "0.012") (VStr "0.01") (to_double 0)
               = inr (parseFloat "0.01")) by (vm_compute; reflexivity).
  rewrite E' in E. apply inr_injective in E. rewrite <- E in Hle.
  assert (F : le (to_double (12 # 1000)) (parseFloat "0.01") = false)
    by (vm_compute; reflexivity).
  rewrite F in Hle. exact (Bool.diff_false_true Hle).
Qed.

(** C2 fails on the code.  With minimum and step 0.1, the quantity 0.35
    is normalised to 0.3, and 0.3 is normalised to 0.2: in binary64
    [0.3 / 0.1] is [2.9999999999999996], whose floor is 2.  The value
    0.2 is then stable. *)
Theorem normalization_is_not_idempotent :
  let normalize := normalizeQty (VStr "0.1") (VStr "0.1") in
  normalize (parseFloat "0.35") = inr (parseFloat "0.3")
  /\ normalize (parseFloat "0.3") = inr (parseFloat "0.2")
  /\ normalize (parseFloat "0.2") = inr (parseFloat "0.2")
  /\ eqb (parseFloat "0.3") (parseFloat "0.2") = false
  /\ div (parseFloat "0.3") (parseFloat "0.1") = parseFloat "2.9999999999999996"
  /\ floor (div (parseFloat "0.3") (parseFloat "0.1")) = parseFloat "2"
  /\ ~ idempotent_at (VStr "0.1") (VStr "0.1") (parseFloat "0.35").
Proof.
  assert (E1 : normalizeQty (VStr "0.1") (VStr "0.1") (parseFloat "0.35")
               = inr (parseFloat "0.3")) by (vm_compute; reflexivity).
  assert (E2 : normalizeQty (VStr "0.1") (VStr "0.1") (parseFloat "0.3")
               = inr (parseFloat "0.2")) by (vm_compute; reflexivity).
  assert (N : eqb (parseFloat "0.3") (parseFloat "0.2") = false) by (vm_compute; reflexivity).
  cbv zeta.
  split; [exact E1|]. split; [exact E2|].
  split; [vm_compute; reflexivity|]. split; [exact N|].
  split; [vm_compute; reflexivity|]. split; [vm_compute; reflexivity|].
  intros H. specialize (H _ E1). rewrite E2 in H.
  apply inr_injective in H.
  assert (T : eqb (parseFloat "0.3") (parseFloat "0.3") = true) by (vm_compute; reflexivity).
  rewrite H, T in N. exact (Bool.diff_true_false N).
Qed.

End QuantityFacts.

(* ================================================================== *)
(** * Properties of JavaScript values *)
(* ================================================================== *)

Module ValueFacts.

Import JSValue.

Lemma get_readable (v : value) (k : string) : readable v -> get v k = inr (lookup_of v k).
Proof. intros [H1 H2]. destruct v; try reflexivity; contradiction. Qed.

Lemma get_unreadable (v : value) (k : string) : ~ readable v -> get v k = inl TypeError.
Proof.
  intros H. destruct v; try reflexivity; exfalso; apply H; split; discriminate.
Qed.

Lemma get_value (v : value) (k : string) (x : value) :
  get v k = inr x -> x = lookup_of v k.
Proof. destruct v; simpl; intros H; inversion H; reflexivity. Qed.

Lemma readable_value (v : value) : {readable v} + {~ readable v}.
Proof.
  destruct v; try (left; split; discriminate);
    right; intros [H1 H2]; congruence.
Qed.

End ValueFacts.

(* ================================================================== *)
(** * Properties of the alert processor *)
(* ================================================================== *)

Module AlertFacts.

Import JSNumber JSString JSValue JSDate Http Database Eff ProcessAlert.
Import AlertNotions RunNotions ValueFacts.
Local Open Scope string_scope.
Local Open Scope list_scope.

Lemma alert_handler_post (w : world) (rq : request) :
  configured w -> method rq = "POST" ->
  handler w rq
  = try_catch (process w rq) (fun error => respond 500 (ThrownBody error)).
Proof.
  intros [Hu Hk] Hm. unfold handler. rewrite Hm, Hu, Hk. reflexivity.
Qed.

Lemma filter_none {A} (p : A -> bool) (l : list A) :
  (forall x, In x l -> p x = false) -> filter p l = [].
Proof.
  induction l as [|a l IH]; intros H; simpl; [reflexivity|].
  rewrite (H a (or_introl eq_refl)). apply IH. intros x Hx. apply H. now right.
Qed.

Lemma select_webhook_unresolved (d : database) (token : string) (now : Z) :
  ~ resolves d token now -> select_webhook d token now = None.
Proof.
  intros H. unfold select_webhook. rewrite filter_none; [reflexivity|].
  intros row Hin.
  destruct (String.eqb (webhook_token row) token) eqn:Et; [|reflexivity].
  destruct (now <? expires_at row)%Z eqn:El; [|reflexivity].
  exfalso. apply H. exists row. repeat split; [assumption| |].
  - now apply String.eqb_eq.
  - now apply Z.ltb_lt.
Qed.

(** What the handler does when the lookup of the webhook comes back
    empty or with an error. *)
Lemma process_not_found (w : world) (rq : request) (s : state) :
  (if db_fault w SelectWebhook then None
   else select_webhook (db s) (last_segment (pathname rq)) (clock w (ticks s))) = None ->
  process w rq s
  = (Return (respond 404 (ErrorBody "Invalid or expired webhook")),
     {| db := db s; ticks := S (ticks s);
        trace := trace s ++ [WebhookSelected (last_segment (pathname rq))
                                             (clock w (ticks s))] |}).
Proof.
  intros H. unfold process, bind, date_now, query_webhook, emit, get_state, ret, return_.
  simpl. rewrite H. reflexivity.
Qed.

(** C3.  A POST whose token does not name a stored webhook with
    [expires_at] after the current time is answered 404, whatever the
    body (parseable or not), and nothing is dispatched or written: the
    tables are unchanged and the only request made is the lookup. *)
Theorem unresolved_token_is_404 :
  forall (w : world) (s : state) (host path : string) (payload : option value),
    configured w ->
    ~ resolves (db s) (last_segment path) (clock w (ticks s)) ->
    let rq := {| method := "POST"; origin := host; pathname := path; json := payload |} in
    let (r, s') := handler w rq s in
    status r = 404%Z
    /\ db s' = db s
    /\ trace s' = trace s ++ [WebhookSelected (last_segment path) (clock w (ticks s))].
Proof.
  intros w s host path payload Hc Hn rq.
  rewrite (alert_handler_post rq Hc eq_refl).
  unfold try_catch. rewrite process_not_found.
  - simpl. auto.
  - simpl. rewrite (select_webhook_unresolved Hn). now destruct (db_fault w SelectWebhook).
Qed.

(** ** The phases of a run *)

Lemma process_key_missing (w : world) (rq : request) (s : state) webhook bots :
  webhook_lookup w rq s = Some (webhook, bots) ->
  key_lookup w s (user_id webhook) = None ->
  process w rq s
  = (Return (respond 400 (ErrorBody "API credentials not found")),
     after_selects w rq s (user_id webhook)).
Proof.
  unfold webhook_lookup, key_lookup. intros Hw Hk.
  unfold process, bind, date_now, query_webhook, query_api_key, emit, get_state, ret, return_.
  simpl. rewrite Hw. simpl. rewrite Hk. unfold after_selects.
  rewrite <- app_assoc. reflexivity.
Qed.

Lemma process_with_key (w : world) (rq : request) (s : state) webhook bots key :
  webhook_lookup w rq s = Some (webhook, bots) ->
  key_lookup w s (user_id webhook) = Some key ->
  process w rq s
  = bind (prepare w (alert_payload rq) bots key)
         (fun '(bot, orderParams) =>
            bind (dispatch w bot orderParams) (audit w webhook bot))
         (after_selects w rq s (user_id webhook)).
Proof.
  unfold webhook_lookup, key_lookup. intros Hw Hk.
  unfold process at 1.
  unfold bind at 1. unfold date_now at 1. unfold bind at 1.
  unfold query_webhook, bind at 1, emit, bind at 1, get_state, ret. simpl.
  rewrite Hw. unfold bind at 1. unfold query_api_key, bind at 1, emit, bind at 1, get_state, ret.
  simpl. rewrite Hk. unfold after_selects. rewrite <- app_assoc. reflexivity.
Qed.

(** [prepare] fetches the instrument metadata before it yields an
    order; it writes nothing and does not read the clock. *)
Lemma prepare_outcomes (w : world) (alertData : value) (bots : option bot_row)
    (key : api_key_row) (s : state) :
  exists out s',
    prepare w alertData bots key s = (out, s')
    /\ db s' = db s /\ ticks s' = ticks s
    /\ match out with
       | Val (bot, p) =>
           bots = Some bot
           /\ (exists symbol qty, p = build_order alertData bot key symbol qty)
           /\ exists url, trace s' = trace s ++ [InstrumentsFetched url]
       | Return _ => False
       | Throw _ =>
           trace s' = trace s \/ exists url, trace s' = trace s ++ [InstrumentsFetched url]
       end.
Proof.
  cbv [prepare bind lift fetch_instruments emit ret throw].
  repeat lazymatch goal with
  | |- context [match ?x with inl _ => _ | inr _ => _ end] =>
      destruct x eqn:?; cbv beta iota
  | |- context [if negb ?b then _ else _] => destruct b eqn:?; cbv beta iota delta [negb]
  end.
  all: try (eexists; eexists; split; [reflexivity|]; simpl; repeat split; eauto; fail).
  all: destruct bots; simpl in *; try discriminate.
  all: eexists; eexists; split; [reflexivity|]; simpl; repeat split; eauto.
  all: match goal with H : inr _ = inr _ |- _ => inversion H; subst end; eauto.
Qed.

Lemma dispatch_test_mode (w : world) (bot : bot_row) (p : orderParams) (s : state) :
  truthy (test_mode bot) = true ->
  dispatch w bot p s
  = (Val (test_order p (clock w (ticks s))),
     {| db := db s; ticks := S (ticks s); trace := trace s |}).
Proof. intros H. unfold dispatch. rewrite H. reflexivity. Qed.

Lemma dispatch_live (w : world) (bot : bot_row) (p : orderParams) (s : state) :
  truthy (test_mode bot) = false ->
  dispatch w bot p s
  = (match executeBybitOrder w p with inl e => Throw e | inr v => Val v end,
     {| db := db s; ticks := ticks s; trace := trace s ++ [OrderSubmitted p] |}).
Proof.
  intros H. unfold dispatch. rewrite H.
  unfold submit_order, bind, emit, lift. simpl.
  destruct (executeBybitOrder w p); reflexivity.
Qed.

(** The audit of a readable order result: the state it leaves. *)
Lemma audit_outcomes (w : world) webhook bot orderResult (s : state) :
  readable orderResult ->
  audit w webhook bot orderResult s
  = (Val (respond 200 (OrderBody (lookup_of orderResult "orderId")
                                 (lookup_of orderResult "status")
                                 (test_mode bot))),
     {| db := logged w webhook bot orderResult (clock w (ticks s))
                     (clock w (S (ticks s))) (db s);
        ticks := S (S (ticks s));
        trace := trace s
                 ++ [TradeInsertIssued (trade_of webhook orderResult (clock w (ticks s)));
                     BotUpdateIssued (bot_id webhook) (clock w (S (ticks s)))
                                     (next_trade_count (trade_count bot))] |}).
Proof.
  intros Hr. unfold audit, logged.
  unfold bind at 1. unfold lift. rewrite (get_readable "symbol" Hr).
  unfold ret at 1.
  unfold bind, date_now, issue_trade_insert, issue_bot_update, bind, emit, write, ret.
  destruct (db_fault w InsertTrade), (db_fault w UpdateBot); simpl;
    rewrite <- app_assoc; reflexivity.
Qed.

Lemma audit_throws (w : world) webhook bot orderResult (s : state) :
  ~ readable orderResult ->
  audit w webhook bot orderResult s = (Throw TypeError, s).
Proof.
  intros Hr. unfold audit, bind, lift. rewrite (get_unreadable "symbol" Hr). reflexivity.
Qed.

Lemma unresolved_token_is_404_witness :
  let (r, s') := handler (Samples.alert_world Samples.no_fault Samples.ticking)
                   (Samples.post "/.netlify/functions/processAlert/tok-old" None)
                   Samples.alert_start in
  status r = 404%Z
  /\ db s' = Samples.store
  /\ trace s' = [WebhookSelected "tok-old" 1700000000000].
Proof.
  apply (@unresolved_token_is_404
           (Samples.alert_world Samples.no_fault Samples.ticking) Samples.alert_start
           "https://bot.example" "/.netlify/functions/processAlert/tok-old" None).
  - split; reflexivity.
  - intros [row [Hin [Ht Hl]]]. simpl in Hin, Hl.
    destruct Hin as [<-|[<-|[<-|[]]]]; simpl in Ht, Hl; try discriminate; lia.
Defined.


(** ** C7: failures before dispatch *)


(** ** C6: the audit steps never fail the request *)

(** C6.  When dispatch, real or simulated, has yielded an order result,
    the handler answers 200 with the [orderId] and [status] of that
    result.  Nothing is assumed of [db_fault w InsertTrade] and
    [db_fault w UpdateBot]: the answer is the same whether the insert
    of the trade or the update of the bot reports an error or not. *)
Theorem audit_failures_are_not_surfaced :
  forall (w : world) (rq : request) (s s1 s2 : state)
         webhook bots key bot orderParams orderResult,
    configured w -> method rq = "POST" ->
    webhook_lookup w rq s = Some (webhook, bots) ->
    key_lookup w s (user_id webhook) = Some key ->
    prepare w (alert_payload rq) bots key (after_selects w rq s (user_id webhook))
      = (Val (bot, orderParams), s1) ->
    dispatch w bot orderParams s1 = (Val orderResult, s2) ->
    readable orderResult ->
    fst (handler w rq s)
    = respond 200 (OrderBody (lookup_of orderResult "orderId")
                             (lookup_of orderResult "status")
                             (test_mode bot)).
Proof.
  intros w rq s s1 s2 webhook bots key bot p r Hc Hm Hw Hk Hp Hd Hr.
  rewrite (alert_handler_post rq Hc Hm). unfold try_catch.
  rewrite (process_with_key w rq s Hw Hk).
  unfold bind at 1. rewrite Hp. unfold bind at 1. rewrite Hd.
  rewrite (audit_outcomes w webhook bot s2 Hr). reflexivity.
Qed.

(** ** C4: test mode *)

Lemma digits_inj (a b : N) : digits a = digits b -> a = b.
Proof.
  unfold digits. intros H. apply DecimalN.Unsigned.to_uint_inj.
  assert (Hs : forall n, NilZero.string_of_uint (N.to_uint n)
                         = NilEmpty.string_of_uint (N.to_uint n)).
  { intros [|p]; [reflexivity|]. simpl.
    pose proof (DecimalPos.Unsigned.to_uint_nonnil p) as Hn.
    destruct (Pos.to_uint p); [contradiction|reflexivity..]. }
  rewrite !Hs in H.
  apply (f_equal NilEmpty.uint_of_string) in H.
  rewrite !NilEmpty.usu in H. now inversion H.
Qed.

Lemma digits_head (n : N) : exists c r, digits n = String c r /\ c <> "-"%char.
Proof.
  unfold digits. destruct n as [|p]; [exists "0"%char, ""%string; split; [reflexivity|discriminate]|].
  simpl. pose proof (DecimalPos.Unsigned.to_uint_nonnil p) as Hn.
  destruct (Pos.to_uint p); [contradiction|..];
    simpl; do 2 eexists; (split; [reflexivity|discriminate]).
Qed.

Lemma int_text_inj (a b : Z) : int_text a = int_text b -> a = b.
Proof.
  unfold int_text.
  destruct (a <? 0)%Z eqn:Ea, (b <? 0)%Z eqn:Eb; intros H.
  - inversion H as [H']. apply digits_inj in H'. apply Z.ltb_lt in Ea, Eb. lia.
  - destruct (digits_head (Z.to_N b)) as [c [r [Hd Hc]]]. rewrite Hd in H.
    inversion H. congruence.
  - destruct (digits_head (Z.to_N a)) as [c [r [Hd Hc]]]. rewrite Hd in H.
    inversion H. congruence.
  - apply digits_inj in H. apply Z.ltb_ge in Ea, Eb. lia.
Qed.

(** ** The run of an alert that yields an order *)

(** The state [prepare] leaves when it yields an order. *)
Lemma prepared_state (w : world) (alertData : value) (bots : option bot_row)
    (key : api_key_row) (s mid : state) (bot : bot_row) (order : orderParams) :
  prepare w alertData bots key s = (Val (bot, order), mid) ->
  bots = Some bot
  /\ exists url, mid = {| db := db s; ticks := ticks s;
                          trace := trace s ++ [InstrumentsFetched url] |}.
Proof.
  intros Hp.
  destruct (prepare_outcomes w alertData bots key s) as [out [s1 [Hp' [Hdb [Hti Hout]]]]].
  rewrite Hp in Hp'. inversion Hp'; subst out s1.
  destruct Hout as [Hb [_ [url Htr]]]. split; [exact Hb|]. exists url.
  destruct mid as [d n tr]. simpl in Hdb, Hti, Htr. subst. reflexivity.
Qed.

(** When the alert can be read, the symbol is a text, the exchange lists
    it and the quantity normalises, [prepare] yields the order. *)
Lemma prepare_succeeds (w : world) (alertData : value) (bot : bot_row)
    (key : api_key_row) (s : state) (symbol : string) (minQtyStr stepStr : value)
    (rawQty adjustedQty : number) :
  readable alertData ->
  upper (or (or (lookup_of alertData "symbol") (Database.symbol bot)) (VStr "")) = inr symbol ->
  listed w bot symbol minQtyStr stepStr ->
  raw_quantity alertData bot = inr rawQty ->
  normalizeQty minQtyStr stepStr rawQty = inr adjustedQty ->
  prepare w alertData (Some bot) key s
  = (Val (bot, build_order alertData bot key symbol adjustedQty),
     {| db := db s; ticks := ticks s;
        trace := trace s ++ [InstrumentsFetched (instruments_url (host_of w bot) symbol)] |}).
Proof.
  intros Ha Hu [infoJson [lot [Hi [Hrc [Hlot [Hmin Hstep]]]]]] Hraw Hn.
  unfold lot_filter in Hlot.
  destruct (get infoJson "result") as [e|result] eqn:E1; [discriminate|].
  destruct (get result "list") as [e|list] eqn:E2; [discriminate|].
  destruct (index0 list) as [e|inst] eqn:E3; [discriminate|].
  assert (Hr : readable infoJson).
  { destruct infoJson; simpl in E1; try discriminate; split; discriminate. }
  unfold instruments_url, host_of in *. unfold raw_quantity in Hraw.
  cbv [prepare bind lift fetch_instruments emit ret throw the_bot].
  rewrite (get_readable "symbol" Ha). cbv beta iota.
  rewrite Hu. cbv beta iota. rewrite Hi. cbv beta iota.
  rewrite (get_readable "retCode" Hr). cbv beta iota.
  rewrite Hrc. cbv beta iota delta [negb].
  rewrite E1. cbv beta iota. rewrite E2. cbv beta iota. rewrite E3. cbv beta iota.
  rewrite Hlot. cbv beta iota. rewrite Hmin. cbv beta iota. rewrite Hstep. cbv beta iota.
  rewrite Hraw. cbv beta iota. rewrite Hn. reflexivity.
Qed.

(** The trades after an audit whose insert works. *)
Lemma trades_logged (w : world) webhook bot orderResult t1 t2 (d : database) :
  db_fault w InsertTrade = false ->
  trades (logged w webhook bot orderResult t1 t2 d)
  = trades d ++ [trade_of webhook orderResult t1].
Proof.
  intros H. unfold logged. rewrite H. destruct (db_fault w UpdateBot); reflexivity.
Qed.

(** The run of a request whose alert yields an order: the order is
    simulated and audited in test mode; otherwise it is submitted, and
    audited when the exchange returns a result that can be read. *)
Lemma served_outcome (w : world) (rq : request) (s mid : state) webhook bot key order :
  configured w -> method rq = "POST" ->
  webhook_lookup w rq s = Some (webhook, Some bot) ->
  key_lookup w s (user_id webhook) = Some key ->
  prepare w (alert_payload rq) (Some bot) key (after_selects w rq s (user_id webhook))
    = (Val (bot, order), mid) ->
  exists url,
    handler w rq s
    = if truthy (test_mode bot)
      then audited w rq s webhook bot url [] (S (S (ticks s)))
                   (test_order order (clock w (S (ticks s))))
      else match executeBybitOrder w order with
           | inl e => failed w rq s webhook url order e
           | inr orderResult =>
               if readable_value orderResult
               then audited w rq s webhook bot url [OrderSubmitted order] (S (ticks s))
                            orderResult
               else failed w rq s webhook url order TypeError
           end.
Proof.
  intros Hc Hm Hw Hk Hp.
  destruct (@prepared_state _ _ _ _ _ _ _ _ Hp) as [_ [url Hmid]]. exists url.
  rewrite (alert_handler_post rq Hc Hm). unfold try_catch.
  rewrite (process_with_key w rq s Hw Hk). unfold bind at 1. rewrite Hp.
  unfold bind at 1. subst mid. unfold after_selects.
  destruct (truthy (test_mode bot)) eqn:Ht.
  - rewrite (dispatch_test_mode w bot order _ Ht).
    assert (Hr : readable (test_order order (clock w (S (ticks s))))) by (split; discriminate).
    cbn [ticks db trace].
    rewrite (audit_outcomes w webhook bot _ Hr). cbn [ticks db trace].
    unfold audited, reads. rewrite <- !app_assoc. reflexivity.
  - rewrite (dispatch_live w bot order _ Ht). cbn [ticks db trace].
    destruct (executeBybitOrder w order) as [e|o].
    + unfold failed, reads. rewrite <- !app_assoc. reflexivity.
    + destruct (readable_value o) as [Hr|Hr].
      * rewrite (audit_outcomes w webhook bot _ Hr). cbn [ticks db trace].
        unfold audited, reads. rewrite <- !app_assoc. reflexivity.
      * rewrite (audit_throws w webhook bot _ Hr).
        unfold failed, reads. rewrite <- !app_assoc. reflexivity.
Qed.

(** C4, as the code has it.  When the alert of a bot in test mode is
    processed, that is, yields an order, the handler submits nothing to
    the exchange and answers 200: the response and the trade it logs
    carry the status [TEST_ORDER] and the identifier [test-<t>], [t]
    being the clock reading taken at dispatch, and the trade is in the
    table when the insert works.  Identifiers differ exactly when those
    clock readings differ. *)
Theorem test_mode_simulates_the_order :
  forall (w : world) (rq : request) (s mid : state) webhook bot key order,
    configured w -> method rq = "POST" ->
    webhook_lookup w rq s = Some (webhook, Some bot) ->
    key_lookup w s (user_id webhook) = Some key ->
    prepare w (alert_payload rq) (Some bot) key (after_selects w rq s (user_id webhook))
      = (Val (bot, order), mid) ->
    truthy (test_mode bot) = true ->
    let t := clock w (S (ticks s)) in
    let (r, s') := handler w rq s in
    r = respond 200 (OrderBody (VStr (test_order_id t)) (VStr "TEST_ORDER") (test_mode bot))
    /\ (exists events row,
          trace s' = trace s ++ events
          /\ (forall p, ~ In (OrderSubmitted p) events)
          /\ In (TradeInsertIssued row) events
          /\ trade_order_id row = VStr (test_order_id t)
          /\ trade_status row = VStr "TEST_ORDER"
          /\ (db_fault w InsertTrade = false -> trades (db s') = trades (db s) ++ [row]))
    /\ (forall t', test_order_id t = test_order_id t' <-> t = t').
Proof.
  intros w rq s mid webhook bot key order Hc Hm Hw Hk Hp Ht t.
  destruct (@served_outcome w rq s _ _ _ _ _ Hc Hm Hw Hk Hp) as [url E].
  rewrite Ht in E. rewrite E. unfold audited.
  split; [reflexivity|]. split.
  - do 2 eexists. split; [reflexivity|]. split.
    + intros p Hin. unfold reads in Hin. simpl in Hin.
      repeat (destruct Hin as [Hin|Hin]; [discriminate|]). exact Hin.
    + split; [apply in_or_app; right; left; reflexivity|].
      split; [reflexivity|]. split; [reflexivity|].
      intros Hf. cbn [db]. apply trades_logged, Hf.
  - intros t'. split; [|now intros ->]. unfold test_order_id. intros H.
    apply int_text_inj. simpl in H. now inversion H.
Qed.

(** ** C9: a body that is not JSON *)

(** C9.  A body that does not parse is not an error: the run is the run
    of the same request carrying the empty object, response and effects
    alike.  When the bot's symbol is a text (or missing), the exchange
    lists it and the bot's default quantity normalises, the run reaches
    dispatch with an order that takes every field from the bot's
    defaults ([price], which has no default, stays absent): in test mode
    the order is simulated and answered 200; otherwise it is submitted,
    and the answer is what the exchange makes of it. *)
Theorem unparseable_body_is_the_empty_object :
  forall (w : world) (rq : request) (s : state) webhook bot key
         (symbol : string) (minQtyStr stepStr : value) (rawQty qty : number),
    configured w -> method rq = "POST" -> json rq = None ->
    webhook_lookup w rq s = Some (webhook, Some bot) ->
    key_lookup w s (user_id webhook) = Some key ->
    upper (or (Database.symbol bot) (VStr "")) = inr symbol ->
    listed w bot symbol minQtyStr stepStr ->
    parseFloat_value (nullish (default_quantity bot) (VNum (Fin 0))) = inr rawQty ->
    normalizeQty minQtyStr stepStr rawQty = inr qty ->
    let order := {| apiKey := api_key key;
                    apiSecret := api_secret key;
                    op_symbol := symbol;
                    side := or (default_side bot) (VStr "Buy");
                    orderType := or (default_order_type bot) (VStr "Market");
                    quantity := qty;
                    price := VUndef;
                    stopLoss := default_stop_loss bot;
                    takeProfit := default_take_profit bot;
                    testnet := test_mode bot |} in
    let t := clock w (S (ticks s)) in
    handler w rq s = handler w (with_body rq (Some (VObj []))) s
    /\ let (r, s') := handler w rq s in
       exists events,
         trace s' = trace s ++ events
         /\ if truthy (test_mode bot)
            then r = respond 200 (OrderBody (VStr (test_order_id t)) (VStr "TEST_ORDER")
                                            (test_mode bot))
                 /\ In (TradeInsertIssued
                          (trade_of webhook (test_order order t) (clock w (S (S (ticks s))))))
                       events
            else In (OrderSubmitted order) events
                 /\ (forall orderResult,
                       executeBybitOrder w order = inr orderResult -> readable orderResult ->
                       r = respond 200 (OrderBody (lookup_of orderResult "orderId")
                                                  (lookup_of orderResult "status")
                                                  (test_mode bot)))
                 /\ (forall e, executeBybitOrder w order = inl e ->
                               r = respond 500 (ThrownBody e)).
Proof.
  intros w rq s webhook bot key symbol minQtyStr stepStr rawQty qty
         Hc Hm Hj Hw Hk Hu Hl Hraw Hn order t.
  assert (Hp : alert_payload rq = VObj []) by (unfold alert_payload; now rewrite Hj).
  split.
  { unfold handler. simpl method.
    assert (process w rq = process w (with_body rq (Some (VObj [])))) as ->.
    { unfold process. simpl pathname. rewrite Hp. reflexivity. }
    reflexivity. }
  assert (Hprep : prepare w (alert_payload rq) (Some bot) key
                    (after_selects w rq s (user_id webhook))
                  = (Val (bot, order),
                     {| db := db (after_selects w rq s (user_id webhook));
                        ticks := ticks (after_selects w rq s (user_id webhook));
                        trace := trace (after_selects w rq s (user_id webhook))
                                 ++ [InstrumentsFetched
                                       (instruments_url (host_of w bot) symbol)] |})).
  { rewrite Hp.
    apply (@prepare_succeeds w (VObj []) bot key _ symbol minQtyStr stepStr rawQty qty);
      [split; discriminate|exact Hu|exact Hl|exact Hraw|exact Hn]. }
  destruct (@served_outcome w rq s _ _ _ _ _ Hc Hm Hw Hk Hprep) as [url E]. rewrite E.
  destruct (truthy (test_mode bot)).
  - unfold audited. eexists. split; [reflexivity|].
    split; [reflexivity|]. unfold reads.
    apply in_or_app; right. apply in_or_app; right. left. reflexivity.
  - assert (Hin : forall rest : list event,
              In (OrderSubmitted order)
                 (reads w rq s webhook url ++ [OrderSubmitted order] ++ rest)).
    { intros rest. apply in_or_app; right. left. reflexivity. }
    destruct (executeBybitOrder w order) as [e|o].
    + unfold failed. eexists. split; [reflexivity|].
      split; [rewrite <- (List.app_nil_r [OrderSubmitted order]); apply Hin|].
      split; [discriminate|]. intros e' H. now inversion H.
    + destruct (readable_value o) as [Hr|Hr].
      * unfold audited. eexists. split; [reflexivity|].
        split; [apply Hin|]. split; [|discriminate].
        intros o' H _. inversion H. reflexivity.
      * unfold failed. eexists. split; [reflexivity|].
        split; [rewrite <- (List.app_nil_r [OrderSubmitted order]); apply Hin|].
        split; [|discriminate].
        intros o' H Hr'. inversion H; subst o'. contradiction.
Qed.

(** ** C10: hard-coded defaults of side and order type *)

Lemma or_falls_back (payload botDefault hard : value) :
  falls_back payload botDefault hard (or (or payload botDefault) hard).
Proof.
  intros Hp.
  assert (E : or payload botDefault = botDefault) by (unfold or; now rewrite Hp).
  rewrite E. split; [reflexivity|].
  intros Hb. unfold or. now rewrite Hb.
Qed.

(** C10.  In the order of every processed alert, a falsy [side] of the
    payload (absent, empty text, [null]) gives way to the bot's default,
    and when that is falsy too the side is ['Buy']; likewise for the
    order type with ['Market'].  That order is the one dispatched: it is
    submitted to the exchange, or, in test mode, simulated, answered 200
    and logged as a trade with its side and order type. *)
Theorem falsy_side_and_type_fall_back :
  forall (w : world) (rq : request) (s mid : state) webhook bot key order,
    configured w -> method rq = "POST" ->
    webhook_lookup w rq s = Some (webhook, Some bot) ->
    key_lookup w s (user_id webhook) = Some key ->
    prepare w (alert_payload rq) (Some bot) key (after_selects w rq s (user_id webhook))
      = (Val (bot, order), mid) ->
    let alertData := alert_payload rq in
    falls_back (lookup_of alertData "side") (default_side bot) (VStr "Buy") (side order)
    /\ falls_back (lookup_of alertData "orderType") (default_order_type bot)
                  (VStr "Market") (orderType order)
    /\ let (r, s') := handler w rq s in
       exists events,
         trace s' = trace s ++ events
         /\ if truthy (test_mode bot)
            then status r = 200%Z
                 /\ exists row, In (TradeInsertIssued row) events
                                /\ trade_side row = side order
                                /\ trade_order_type row = orderType order
            else In (OrderSubmitted order) events.
Proof.
  intros w rq s mid webhook bot key order Hc Hm Hw Hk Hp alertData.
  pose proof Hp as Hp0.
  destruct (prepare_outcomes w (alert_payload rq) (Some bot) key
              (after_selects w rq s (user_id webhook)))
    as [out [s1 [Hp' [_ [_ Hout]]]]].
  rewrite Hp in Hp'. inversion Hp'; subst out s1.
  destruct Hout as [_ [[symbol [qty Hpar]] _]].
  split; [rewrite Hpar; apply or_falls_back|].
  split; [rewrite Hpar; apply or_falls_back|].
  destruct (@served_outcome w rq s _ _ _ _ _ Hc Hm Hw Hk Hp0) as [url E]. rewrite E.
  destruct (truthy (test_mode bot)).
  - unfold audited. eexists. split; [reflexivity|]. split; [reflexivity|].
    eexists. split; [apply in_or_app; right; apply in_or_app; right; left; reflexivity|].
    split; reflexivity.
  - assert (Hin : forall rest : list event,
              In (OrderSubmitted order)
                 (reads w rq s webhook url ++ [OrderSubmitted order] ++ rest)).
    { intros rest. apply in_or_app; right. left. reflexivity. }
    destruct (executeBybitOrder w order) as [e|o].
    + unfold failed. eexists. split; [reflexivity|].
      rewrite <- (List.app_nil_r [OrderSubmitted order]). apply Hin.
    + destruct (readable_value o) as [Hr|Hr].
      * unfold audited. eexists. split; [reflexivity|]. apply Hin.
      * unfold failed. eexists. split; [reflexivity|].
        rewrite <- (List.app_nil_r [OrderSubmitted order]). apply Hin.
Qed.

(** ** The theorems at work on the sample deployment *)


Lemma audit_failures_witness :
  fst (handler (Samples.alert_world Samples.audit_fault Samples.ticking)
         Samples.live_alert Samples.alert_start)
  = respond 200 (OrderBody (lookup_of (Samples.filled Samples.live_order) "orderId")
                           (lookup_of (Samples.filled Samples.live_order) "status")
                           (test_mode Samples.live_bot)).
Proof.
  apply (@audit_failures_are_not_surfaced
           (Samples.alert_world Samples.audit_fault Samples.ticking)
           Samples.live_alert Samples.alert_start
           Samples.live_prepared Samples.live_dispatched
           {| webhook_token := "tok-live"; user_id := "user-1"; bot_id := "bot-live";
              expires_at := 1702592000000; created_at := 1700000000000 |}
           (Some Samples.live_bot) Samples.live_key Samples.live_bot
           Samples.live_order (Samples.filled Samples.live_order)).
  - split; reflexivity.
  - reflexivity.
  - reflexivity.
  - reflexivity.
  - vm_compute. reflexivity.
  - vm_compute. reflexivity.
  - split; discriminate.
Defined.

(** The answer of that run, the insert and the update both failing. *)
Example audit_failures_run :
  fst (handler (Samples.alert_world Samples.audit_fault Samples.ticking)
         Samples.live_alert Samples.alert_start)
  = respond 200 (OrderBody (VStr "order-42") (VStr "Filled") (VBool false))
  /\ trades (db (snd (handler (Samples.alert_world Samples.audit_fault Samples.ticking)
                        Samples.live_alert Samples.alert_start))) = [].
Proof. vm_compute. split; reflexivity. Qed.

Lemma test_mode_witness :
  let w := Samples.alert_world Samples.no_fault Samples.ticking in
  let t := 1700000000001%Z in
  let (r, s') := handler w (Samples.post Samples.sim_hook None) Samples.alert_start in
  r = respond 200 (OrderBody (VStr (test_order_id t)) (VStr "TEST_ORDER")
                             (test_mode Samples.sim_bot))
  /\ (exists events row,
        trace s' = trace Samples.alert_start ++ events
        /\ (forall p, ~ In (OrderSubmitted p) events)
        /\ In (TradeInsertIssued row) events
        /\ trade_order_id row = VStr (test_order_id t)
        /\ trade_status row = VStr "TEST_ORDER"
        /\ (db_fault w InsertTrade = false ->
            trades (db s') = trades (db Samples.alert_start) ++ [row]))
  /\ (forall t', test_order_id t = test_order_id t' <-> t = t').
Proof.
  apply (@test_mode_simulates_the_order
           (Samples.alert_world Samples.no_fault Samples.ticking)
           (Samples.post Samples.sim_hook None) Samples.alert_start Samples.sim_prepared
           Samples.sim_webhook Samples.sim_bot Samples.live_key Samples.sim_order).
  - split; reflexivity.
  - reflexivity.
  - reflexivity.
  - reflexivity.
  - vm_compute. reflexivity.
  - reflexivity.
Defined.

(** C4 as the specification states it fails: two successive
    invocations within the same millisecond, both in test mode and both
    answered 200, carry the same order identifier. *)
Lemma test_order_ids_coincide_within_a_millisecond :
  let w := Samples.alert_world Samples.no_fault Samples.frozen in
  let rq := Samples.post Samples.sim_hook None in
  let (r1, s1) := handler w rq Samples.alert_start in
  let (r2, s2) := handler w rq s1 in
  r1 = respond 200 (OrderBody (VStr "test-1700000000000") (VStr "TEST_ORDER") (VBool true))
  /\ r2 = respond 200 (OrderBody (VStr "test-1700000000000") (VStr "TEST_ORDER") (VBool true))
  /\ ticks s1 <> ticks s2
  /\ ~ (forall id1 id2 st1 st2 tm1 tm2,
          content r1 = OrderBody id1 st1 tm1 ->
          content r2 = OrderBody id2 st2 tm2 -> id1 <> id2).
Proof.
  vm_compute. repeat split; try discriminate.
  intros H. exact (H _ _ _ _ _ _ eq_refl eq_refl eq_refl).
Qed.

Lemma unparseable_body_witness :
  let w := Samples.alert_world Samples.no_fault Samples.ticking in
  let rq := Samples.post Samples.live_hook None in
  handler w rq Samples.alert_start
  = handler w (with_body rq (Some (VObj []))) Samples.alert_start
  /\ let (r, s') := handler w rq Samples.alert_start in
     exists events,
       trace s' = trace Samples.alert_start ++ events
       /\ In (OrderSubmitted Samples.live_order) events
       /\ (forall orderResult,
             executeBybitOrder w Samples.live_order = inr orderResult ->
             readable orderResult ->
             r = respond 200 (OrderBody (lookup_of orderResult "orderId")
                                        (lookup_of orderResult "status")
                                        (test_mode Samples.live_bot)))
       /\ (forall e, executeBybitOrder w Samples.live_order = inl e ->
                     r = respond 500 (ThrownBody e)).
Proof.
  apply (@unparseable_body_is_the_empty_object
           (Samples.alert_world Samples.no_fault Samples.ticking)
           (Samples.post Samples.live_hook None) Samples.alert_start
           MoreSamples.live_webhook Samples.live_bot Samples.live_key
           "BTCUSDT" (VStr "0.1") (VStr "0.1") (to_double (5 # 1000)) (to_double (1 # 10))).
  - split; reflexivity.
  - reflexivity.
  - reflexivity.
  - reflexivity.
  - reflexivity.
  - reflexivity.
  - exists (Samples.instrument "0.1" "0.1"),
           (VObj [("minOrderQty", VStr "0.1"); ("qtyStep", VStr "0.1")]).
    repeat split; reflexivity.
  - reflexivity.
  - vm_compute. reflexivity.
Defined.

(** That run: the order built from the defaults of the live bot goes to
    the exchange and is answered 200. *)
Example unparseable_live_run :
  fst (handler (Samples.alert_world Samples.no_fault Samples.ticking)
         (Samples.post Samples.live_hook None) Samples.alert_start)
  = respond 200 (OrderBody (VStr "order-42") (VStr "Filled") (VBool false)).
Proof. vm_compute. reflexivity. Qed.

(** The run of a request to the simulated bot, body not parseable, ends
    in a simulated order built from the bot's defaults. *)
Example unparseable_body_run :
  fst (handler (Samples.alert_world Samples.no_fault Samples.ticking)
         (Samples.post Samples.sim_hook None) Samples.alert_start)
  = respond 200 (OrderBody (VStr "test-1700000000001") (VStr "TEST_ORDER") (VBool true)).
Proof. vm_compute. reflexivity. Qed.

Lemma falsy_side_and_type_witness :
  let w := Samples.alert_world Samples.no_fault Samples.ticking in
  let alertData := alert_payload MoreSamples.bare_alert in
  truthy (lookup_of alertData "side") = false
  /\ truthy (default_side MoreSamples.bare_bot) = false
  /\ truthy (lookup_of alertData "orderType") = false
  /\ truthy (default_order_type MoreSamples.bare_bot) = false
  /\ side MoreSamples.bare_order = VStr "Buy"
  /\ orderType MoreSamples.bare_order = VStr "Market"
  /\ falls_back (lookup_of alertData "side") (default_side MoreSamples.bare_bot)
                (VStr "Buy") (side MoreSamples.bare_order)
  /\ falls_back (lookup_of alertData "orderType") (default_order_type MoreSamples.bare_bot)
                (VStr "Market") (orderType MoreSamples.bare_order)
  /\ let (r, s') := handler w MoreSamples.bare_alert MoreSamples.bare_start in
     exists events,
       trace s' = trace MoreSamples.bare_start ++ events
       /\ In (OrderSubmitted MoreSamples.bare_order) events.
Proof.
  do 6 (split; [reflexivity|]).
  apply (@falsy_side_and_type_fall_back
           (Samples.alert_world Samples.no_fault Samples.ticking)
           MoreSamples.bare_alert MoreSamples.bare_start MoreSamples.bare_prepared
           MoreSamples.bare_webhook MoreSamples.bare_bot Samples.live_key
           MoreSamples.bare_order).
  - split; reflexivity.
  - reflexivity.
  - reflexivity.
  - reflexivity.
  - vm_compute. reflexivity.
Defined.

(** That run: the order with side ['Buy'] and type ['Market'] goes to
    the exchange. *)
Example falsy_side_and_type_run :
  orders_of (trace (snd (handler (Samples.alert_world Samples.no_fault Samples.ticking)
                           MoreSamples.bare_alert MoreSamples.bare_start)))
  = [MoreSamples.bare_order].
Proof. vm_compute. reflexivity. Qed.

End AlertFacts.

(* ================================================================== *)
(** * Properties of the webhook issuer *)
(* ================================================================== *)

Module WebhookFacts.

Import JSNumber JSString JSValue JSDate Http Database Eff GenerateWebhook.
Import WebhookNotions ValueFacts NumberFacts CalendarFacts.
Local Open Scope string_scope.
Local Open Scope list_scope.

Lemma webhook_handler_post (w : world) (rq : request) :
  configured w -> method rq = "POST" ->
  handler w rq
  = try_catch (generate w rq) (fun error => respond 500 (ThrownBody error)).
Proof.
  intros [Hu Hk] Hm. unfold handler. rewrite Hm, Hu, Hk. reflexivity.
Qed.

(** ** The token and the URL *)

Lemma last_segment_from_clean (cur s : string) :
  has_slash s = false -> last_segment_from cur s = cur.
Proof.
  revert cur. induction s as [|c r IH]; intros cur H; [reflexivity|].
  simpl in *. apply orb_false_iff in H. destruct H as [Hc Hr].
  rewrite Hc. apply IH, Hr.
Qed.

Lemma last_segment_from_app (pre cur tok : string) :
  has_slash tok = false ->
  last_segment_from cur (pre ++ String "/" tok)%string = tok.
Proof.
  intros H. revert cur. induction pre as [|c p IH]; intros cur; simpl.
  - apply last_segment_from_clean, H.
  - destruct (Ascii.eqb c "/"); apply IH.
Qed.

Lemma append_assoc (a b c : string) : ((a ++ b) ++ c = a ++ (b ++ c))%string.
Proof. induction a as [|x a IH]; simpl; [reflexivity|]. now rewrite IH. Qed.

Lemma land_63_small (b : N) : (N.land b 63 < 64)%N.
Proof.
  change 63%N with (N.ones 6). rewrite N.land_ones.
  apply N.mod_lt. discriminate.
Qed.

Lemma alphabet_char_clean (b : N) : Ascii.eqb (alphabet_char b) "/" = false.
Proof.
  unfold alphabet_char. pose proof (land_63_small b) as H.
  set (i := N.land b 63) in *. clearbody i.
  assert (Hn : (N.to_nat i < 64)%nat) by lia.
  set (n := N.to_nat i) in *. clearbody n.
  do 64 (destruct n as [|n]; [reflexivity|]). lia.
Qed.

Lemma nanoid_clean (entropy : nat -> N) (i size : nat) :
  has_slash (nanoid_from entropy i size) = false.
Proof.
  revert i. induction size as [|k IH]; intros i; simpl; [reflexivity|].
  now rewrite alphabet_char_clean, IH.
Qed.

Lemma nanoid_length (entropy : nat -> N) (i size : nat) :
  String.length (nanoid_from entropy i size) = size.
Proof.
  revert i. induction size as [|k IH]; intros i; simpl; [reflexivity|]. now rewrite IH.
Qed.

(** The last path segment of a callback URL is its token. *)
Lemma callback_url_segment (w : world) (host : string) :
  last_segment (host ++ "/.netlify/functions/processAlert/" ++ nanoid (entropy w) 32)%string
  = nanoid (entropy w) 32.
Proof.
  unfold last_segment.
  change ("/.netlify/functions/processAlert/" ++ nanoid (entropy w) 32)%string
    with ("/.netlify/functions/processAlert" ++ String "/" (nanoid (entropy w) 32))%string.
  rewrite <- append_assoc. apply last_segment_from_app, nanoid_clean.
Qed.

(** ** Thirty days *)

Lemma truncate_Z (n : Z) : (0 <= n)%Z -> truncate (inject_Z n) = n.
Proof.
  intros H. unfold truncate. rewrite Qle_bool_true.
  - apply Qfloor_Z.
  - change 0%Q with (inject_Z 0). rewrite <- Zle_Qle. exact H.
Qed.

Lemma expiration_thirty (w : world) (t : Z) :
  expiration w t (VNum (of_Z 30))
  = TimeClip (UTC (zone w) (LocalTime (zone w) t + 30 * msPerDay)).
Proof.
  unfold expiration, date_plus.
  pose proof (DateFromTime_bounds (LocalTime (zone w) t)) as Hg.
  fold (getDate (zone w) t) in Hg.
  assert (E30 : of_Z 30 = Fin (inject_Z 30)) by (apply of_Z_small; lia).
  rewrite E30, of_Z_small by lia.
  rewrite add_small by lia.
  rewrite truncate_Z by lia.
  apply setDate_shift.
Qed.

(** C5.  A request that succeeds with [expirationDays] 30, issued when
    the clock reads [D], returns as [expiresAt] the ISO-8601 text of the
    instant thirty days after [D] on the runtime's calendar, which is
    [D] plus thirty times 86 400 000 ms wherever the zone's offset from
    UTC is the same at both ends (the edge runtime runs in UTC); and the
    last path segment of the returned [webhookUrl] is the generated
    32-character token, the one stored in the [webhooks] row. *)
Theorem thirty_day_webhook :
  forall (w : world) (rq : request) (s : state) (body : value),
    configured w -> method rq = "POST" ->
    json rq = Some body -> thirty_days body ->
    let D := clock w (ticks s) in
    let expiry := UTC (zone w) (LocalTime (zone w) D + 30 * msPerDay) in
    let token := nanoid (entropy w) 32 in
    let (r, s') := handler w rq s in
    status r = 200%Z ->
    exists webhookUrl,
      content r = WebhookBody webhookUrl (toISOString expiry)
      /\ last_segment webhookUrl = token
      /\ String.length token = 32%nat
      /\ (exists uid bid,
            webhooks (db s')
            = webhooks (db s) ++ [ {| webhook_token := token; user_id := uid; bot_id := bid;
                                      expires_at := expiry;
                                      created_at := clock w (S (ticks s)) |} ])
      /\ (tza_local (zone w) (LocalTime (zone w) D + 30 * msPerDay) = tza_utc (zone w) D ->
          expiry = (D + 30 * msPerDay)%Z).
Proof.
  intros w rq s body Hc Hm Hj H30 D expiry token.
  rewrite (webhook_handler_post rq Hc Hm). unfold try_catch.
  cbv [generate bind lift ret throw return_ date_now issue_webhook_insert emit write].
  rewrite Hj. cbv beta iota.
  unfold destructure.
  destruct (get body "userId") as [e|userId] eqn:Eu; cbv beta iota; [discriminate|].
  assert (Hexp : match lookup_of body "expirationDays" with
                 | VUndef => VNum (of_Z 30)
                 | v => v
                 end = VNum (of_Z 30)).
  { destruct H30 as [-> | ->]; reflexivity. }
  rewrite Hexp.
  destruct (request_line w userId (lookup_of body "botId") (VNum (of_Z 30)))
    as [e|line]; cbv beta iota; [discriminate|].
  destruct (negb (truthy userId) || negb (truthy (lookup_of body "botId"))) eqn:Et;
    cbv beta iota; [discriminate|].
  cbn [ticks db trace].
  rewrite expiration_thirty. fold D. fold expiry.
  destruct (TimeClip expiry) as [t|] eqn:Eclip; cbv beta iota delta [iso]; [|discriminate].
  assert (t = expiry) as ->.
  { unfold TimeClip in Eclip. destruct (Z.abs expiry <=? 8640000000000000)%Z; congruence. }
  cbn [ticks db trace].
  destruct (db_fault w InsertWebhook); cbv beta iota; [discriminate|].
  destruct userId as [| | | |uid| |]; try (cbv beta iota; discriminate).
  destruct (lookup_of body "botId") as [| | | |bid| |]; try (cbv beta iota; discriminate).
  cbv beta iota. cbn [ticks db trace].
  intros _. eexists. split; [reflexivity|].
  split; [apply callback_url_segment|].
  split; [apply nanoid_length|].
  split; [exists uid, bid; reflexivity|].
  intros Hz. unfold expiry, UTC. rewrite Hz. unfold LocalTime. lia.
Qed.

Lemma thirty_day_webhook_witness :
  let w := Samples.issuer_world in
  let rq := Samples.issue_request in
  let s := Samples.issuer_start in
  status (fst (handler w rq s)) = 200%Z
  /\ (let D := clock w (ticks s) in
      let expiry := UTC (zone w) (LocalTime (zone w) D + 30 * msPerDay) in
      let token := nanoid (entropy w) 32 in
      let (r, s') := handler w rq s in
      status r = 200%Z ->
      exists webhookUrl,
        content r = WebhookBody webhookUrl (toISOString expiry)
        /\ last_segment webhookUrl = token
        /\ String.length token = 32%nat
        /\ (exists uid bid,
              webhooks (db s')
              = webhooks (db s) ++ [ {| webhook_token := token; user_id := uid; bot_id := bid;
                                        expires_at := expiry;
                                        created_at := clock w (S (ticks s)) |} ])
        /\ (tza_local (zone w) (LocalTime (zone w) D + 30 * msPerDay) = tza_utc (zone w) D ->
            expiry = (D + 30 * msPerDay)%Z)).
Proof.
  split; [vm_compute; reflexivity|].
  apply (@thirty_day_webhook Samples.issuer_world Samples.issue_request
           Samples.issuer_start
           (VObj [("userId", VStr "user-1"); ("botId", VStr "bot-sim")])).
  - split; reflexivity.
  - reflexivity.
  - reflexivity.
  - left. reflexivity.
Defined.

(** That request, issued on 2023-11-14 at 22:13:20 UTC, succeeds. *)
Example thirty_day_webhook_run :
  fst (handler Samples.issuer_world Samples.issue_request Samples.issuer_start)
  = respond 200
      (WebhookBody
         "https://bot.example/.netlify/functions/processAlert/Tb5yYnO8hJiNm_0lKuU6Z7wRaW9gxrIo"
         "2023-12-14T22:13:20.000Z").
Proof. vm_compute. reflexivity. Qed.

(** ** C8: required fields *)

(** The log line is written exactly when the three values print. *)
Lemma request_line_prints (w : world) (userId botId expirationDays : value) :
  prints userId = true -> prints botId = true -> prints expirationDays = true ->
  exists line, request_line w userId botId expirationDays = inr line.
Proof.
  intros Hu Hb Hd. unfold request_line, to_string. rewrite Hu, Hb, Hd.
  eexists. reflexivity.
Qed.

Lemma request_line_throws (w : world) (userId botId expirationDays : value) :
  prints userId && prints botId && prints expirationDays = false ->
  request_line w userId botId expirationDays = inl TypeError.
Proof.
  unfold request_line, to_string.
  destruct (prints userId); [|reflexivity].
  destruct (prints botId); [|reflexivity].
  destruct (prints expirationDays); [discriminate|reflexivity].
Qed.

(** The value of [expirationDays] after the destructuring prints when
    the field of the body does. *)
Lemma prints_days (body : value) :
  prints match lookup_of body "expirationDays" with
         | VUndef => VNum (of_Z 30)
         | v => v
         end
  = prints (lookup_of body "expirationDays").
Proof. destruct (lookup_of body "expirationDays"); reflexivity. Qed.

Lemma loggable_dec (body : value) : {loggable body} + {~ loggable body}.
Proof.
  unfold loggable.
  destruct (prints (lookup_of body "userId")); [|right; intros [H _]; discriminate].
  destruct (prints (lookup_of body "botId")); [|right; intros [_ [H _]]; discriminate].
  destruct (prints (lookup_of body "expirationDays")); [|right; intros [_ [_ H]]; discriminate].
  left. repeat split.
Qed.

(** The requests the issuer turns down before it draws a token: a body
    that does not parse, a body without properties, a body that cannot be
    logged, a body without one of the identifiers. *)
Lemma unparsed_outcome (w : world) (rq : request) (s : state) :
  configured w -> method rq = "POST" -> json rq = None ->
  handler w rq s = (respond 500 (ThrownBody SyntaxError), s).
Proof.
  intros Hc Hm Hj. rewrite (webhook_handler_post rq Hc Hm). unfold try_catch.
  cbv [generate bind lift ret throw return_ destructure]. rewrite Hj. reflexivity.
Qed.

Lemma unreadable_outcome (w : world) (rq : request) (s : state) (body : value) :
  configured w -> method rq = "POST" -> json rq = Some body -> ~ readable body ->
  handler w rq s = (respond 500 (ThrownBody TypeError), s).
Proof.
  intros Hc Hm Hj Hr. rewrite (webhook_handler_post rq Hc Hm). unfold try_catch.
  cbv [generate bind lift ret throw return_ destructure]. rewrite Hj.
  rewrite (get_unreadable "userId" Hr). reflexivity.
Qed.

Lemma unloggable_outcome (w : world) (rq : request) (s : state) (body : value) :
  configured w -> method rq = "POST" -> json rq = Some body ->
  readable body -> ~ loggable body ->
  handler w rq s = (respond 500 (ThrownBody TypeError), s).
Proof.
  intros Hc Hm Hj Hr Hl. rewrite (webhook_handler_post rq Hc Hm). unfold try_catch.
  cbv [generate bind lift ret throw return_ destructure]. rewrite Hj.
  rewrite (get_readable "userId" Hr). cbv beta iota.
  rewrite request_line_throws; [reflexivity|].
  rewrite prints_days.
  destruct (prints (lookup_of body "userId")) eqn:Pu; [|reflexivity].
  destruct (prints (lookup_of body "botId")) eqn:Pb; [|reflexivity].
  destruct (prints (lookup_of body "expirationDays")) eqn:Pd; [|reflexivity].
  exfalso. apply Hl. repeat split; assumption.
Qed.

Lemma fieldless_outcome (w : world) (rq : request) (s : state) (body : value) :
  configured w -> method rq = "POST" -> json rq = Some body ->
  readable body -> loggable body ->
  lacks body "userId" \/ lacks body "botId" ->
  handler w rq s = (respond 400 (ErrorBody "Missing required fields"), s).
Proof.
  intros Hc Hm Hj Hr [Pu [Pb Pd]] Hl.
  rewrite (webhook_handler_post rq Hc Hm). unfold try_catch.
  cbv [generate bind lift ret throw return_ destructure]. rewrite Hj.
  rewrite (get_readable "userId" Hr). cbv beta iota.
  rewrite <- prints_days in Pd.
  destruct (request_line_prints w _ _ _ Pu Pb Pd) as [line ->]. cbv beta iota.
  assert (Ht : negb (truthy (lookup_of body "userId"))
               || negb (truthy (lookup_of body "botId")) = true).
  { unfold lacks in Hl. destruct Hl as [-> | ->]; [reflexivity|apply orb_true_r]. }
  rewrite Ht. reflexivity.
Qed.

(** C8, as the code has it.  A POST whose body parses to a JSON value
    other than [null], lacks [userId] or [botId], and holds values the
    log line can print, is answered 400; a POST whose body does not
    parse, is [null], or holds a [userId], [botId] or [expirationDays]
    that does not print, is answered 500.  In both cases nothing is
    inserted: the state is untouched. *)
Theorem missing_fields_are_rejected :
  forall (w : world) (rq : request) (s : state),
    configured w -> method rq = "POST" ->
    (forall body,
        json rq = Some body -> readable body -> loggable body ->
        lacks body "userId" \/ lacks body "botId" ->
        handler w rq s = (respond 400 (ErrorBody "Missing required fields"), s))
    /\ (json rq = None
        \/ (exists body, json rq = Some body /\ (~ readable body \/ ~ loggable body)) ->
        exists e, handler w rq s = (respond 500 (ThrownBody e), s)).
Proof.
  intros w rq s Hc Hm. split.
  - intros body Hj Hr Hg Hl. exact (@fieldless_outcome w rq s body Hc Hm Hj Hr Hg Hl).
  - intros [Hj | [body [Hj [Hr|Hg]]]].
    + exists SyntaxError. exact (@unparsed_outcome w rq s Hc Hm Hj).
    + exists TypeError. exact (@unreadable_outcome w rq s body Hc Hm Hj Hr).
    + exists TypeError.
      destruct (readable_value body) as [Hr|Hr].
      * exact (@unloggable_outcome w rq s body Hc Hm Hj Hr Hg).
      * exact (@unreadable_outcome w rq s body Hc Hm Hj Hr).
Qed.

Lemma missing_fields_witness :
  json Samples.incomplete_request = Some (VObj [("userId", VStr "user-1")])
  /\ lacks (VObj [("userId", VStr "user-1")]) "botId"
  /\ handler Samples.issuer_world Samples.incomplete_request Samples.issuer_start
     = (respond 400 (ErrorBody "Missing required fields"), Samples.issuer_start).
Proof.
  split; [reflexivity|]. split; [reflexivity|].
  apply (proj1 (@missing_fields_are_rejected
                  Samples.issuer_world Samples.incomplete_request Samples.issuer_start
                  (conj eq_refl eq_refl) eq_refl)
               (VObj [("userId", VStr "user-1")])).
  - reflexivity.
  - split; discriminate.
  - repeat split; reflexivity.
  - right. reflexivity.
Defined.

(** The request [{ userId: "user-1" }], which lacks [botId]. *)
Example missing_fields_run :
  handler Samples.issuer_world Samples.incomplete_request Samples.issuer_start
  = (respond 400 (ErrorBody "Missing required fields"), Samples.issuer_start).
Proof. reflexivity. Qed.

(** C8 as the specification states it fails: a POST with an empty
    body, with the body [null], or with a body whose [botId] is an object
    that cannot be printed ([{"botId": {"toString": null}}], which lacks
    [userId]), carries no [userId] and is answered 500, not 400. *)
Lemma fieldless_bodies_are_server_errors :
  handler Samples.issuer_world (Samples.post "/.netlify/functions/generateWebhook" None)
    Samples.issuer_start
  = (respond 500 (ThrownBody SyntaxError), Samples.issuer_start)
  /\ handler Samples.issuer_world
       (Samples.post "/.netlify/functions/generateWebhook" (Some VNull))
       Samples.issuer_start
     = (respond 500 (ThrownBody TypeError), Samples.issuer_start)
  /\ lacks Samples.unprintable_body "userId"
  /\ handler Samples.issuer_world
       (Samples.post "/.netlify/functions/generateWebhook" (Some Samples.unprintable_body))
       Samples.issuer_start
     = (respond 500 (ThrownBody TypeError), Samples.issuer_start)
  /\ status (fst (handler Samples.issuer_world
                    (Samples.post "/.netlify/functions/generateWebhook" None)
                    Samples.issuer_start)) <> 400%Z.
Proof. repeat split. discriminate. Qed.

End WebhookFacts.

(* ================================================================== *)
(** * Exact integers, and the order of numbers *)
(* ================================================================== *)

Module IntegerFacts.

Import JSNumber NumberFacts.
Local Open Scope Q_scope.

(** Integers of magnitude below [2^53] are held exactly, whatever
    their sign. *)
Lemma of_Z_exact (n : Z) : (- 2 ^ 53 < n < 2 ^ 53)%Z -> of_Z n = Fin (inject_Z n).
Proof.
  intros H. destruct (Z_lt_le_dec n 0) as [Hn|Hn]; [|apply of_Z_small; lia].
  unfold of_Z, to_double.
  assert (L : Qcompare (inject_Z n) 0 = Lt).
  { unfold Qcompare. simpl. rewrite Z.mul_1_r. apply Z.compare_lt_iff. exact Hn. }
  rewrite L. cbv zeta.
  assert (E : - inject_Z n = inject_Z (- n)) by reflexivity.
  rewrite E.
  pose proof (@round_pos_int (- n) ltac:(lia)) as R.
  rewrite Qle_bool_false.
  - f_equal. rewrite <- (Qred_inject_Z n). apply Qred_complete.
    rewrite R. rewrite inject_Z_opp. ring.
  - rewrite R. rewrite (@two_Z 1024) by lia. rewrite <- Zlt_Qlt.
    apply Z.lt_le_trans with (m := (2 ^ 53)%Z); [lia|]. vm_compute. discriminate.
Qed.

Lemma add_exact (a b : Z) :
  (- 2 ^ 53 < a + b < 2 ^ 53)%Z ->
  add (Fin (inject_Z a)) (Fin (inject_Z b)) = Fin (inject_Z (a + b)).
Proof.
  intros H. cbv [add].
  rewrite (@to_double_eq (inject_Z a + inject_Z b) (inject_Z (a + b)))
    by (rewrite inject_Z_plus; reflexivity).
  apply of_Z_exact. exact H.
Qed.

End IntegerFacts.

Module OrderFacts.

Import JSNumber NumberFacts QuantityFacts.
Local Open Scope Q_scope.

Lemma le_Fin (a b : Q) : le (Fin a) (Fin b) = Qle_bool a b.
Proof. cbv [le lt]. apply negb_involutive. Qed.

Lemma le_not_nan (x y : number) : le x y = true -> x <> NaN /\ y <> NaN.
Proof. destruct x, y; intros H; split; discriminate. Qed.

Lemma le_refl (x : number) : x <> NaN -> le x x = true.
Proof.
  destruct x; try reflexivity; [contradiction|]. intros _.
  rewrite le_Fin. apply Qle_bool_true, Qle_refl.
Qed.

Lemma le_trans (x y z : number) : le x y = true -> le y z = true -> le x z = true.
Proof.
  destruct x, y, z; try reflexivity; try discriminate.
  rewrite !le_Fin. intros H1 H2. apply Qle_bool_iff in H1, H2.
  apply Qle_bool_true. lra.
Qed.

Lemma lt_false_le (x y : number) : x <> NaN -> y <> NaN -> lt x y = false -> le y x = true.
Proof.
  destruct x, y; try contradiction; intros _ _ H; try reflexivity; try discriminate.
  cbv [le]. now rewrite H.
Qed.

Lemma lt_true_le (x y : number) : lt x y = true -> le x y = true.
Proof.
  destruct x, y; intros H; try reflexivity; try discriminate.
  cbv [lt] in H. apply negb_true_iff in H. rewrite le_Fin.
  destruct (Qle_bool q q0) eqn:E; [reflexivity|].
  exfalso.
  assert (A : ~ q0 <= q) by (intros A; apply Qle_bool_iff in A; congruence).
  assert (B : ~ q <= q0) by (intros B; apply Qle_bool_iff in B; congruence).
  lra.
Qed.

Lemma le_lt_false (x y : number) : le x y = true -> lt y x = false.
Proof.
  destruct x, y; intros H; try reflexivity; try discriminate.
  cbv [le] in H. now apply negb_true_iff in H.
Qed.

Lemma floor_mono (x y : number) : le x y = true -> le (floor x) (floor y) = true.
Proof.
  destruct x, y; intros H; try reflexivity; try discriminate.
  cbv [floor]. rewrite le_Fin in *. apply Qle_bool_iff in H. apply Qle_bool_true.
  rewrite <- Zle_Qle. now apply Qfloor_resp_le.
Qed.

Lemma floor_nonneg (x : number) : le (Fin 0) x = true -> le (Fin 0) (floor x) = true.
Proof. intros H. exact (floor_mono (Fin 0) x H). Qed.

Lemma to_double_nonneg (q : Q) : 0 <= q -> le (Fin 0) (to_double q) = true.
Proof.
  intros H. rewrite <- (@to_double_zero 0) by reflexivity.
  apply to_double_mono; [apply Qle_refl|exact H].
Qed.

Section Step.
Variable st : Q.
Hypothesis st_pos : 0 < st.

Lemma st_nonzero : Qeq_bool st 0 = false.
Proof.
  destruct (Qeq_bool st 0) eqn:E; [|reflexivity]. apply Qeq_bool_iff in E. lra.
Qed.

Lemma st_not_neg : is_neg st = false.
Proof. unfold is_neg. rewrite Qle_bool_true; [reflexivity|lra]. Qed.

Lemma div_mono (x y : number) :
  le (Fin 0) x = true -> le x y = true ->
  le (div x (Fin st)) (div y (Fin st)) = true
  /\ le (Fin 0) (div x (Fin st)) = true.
Proof.
  destruct x as [| | |a], y as [| | |b]; try discriminate; intros H0 H;
    cbv [div]; rewrite ?st_nonzero, ?st_not_neg; cbv [inf_of_sign negb];
    try (split; reflexivity).
  - rewrite le_Fin in H0. apply Qle_bool_iff in H0.
    assert (0 <= a / st) by (apply Qle_shift_div_l; lra).
    split; [|now apply to_double_nonneg].
    pose proof (to_double_not_nan (a / st)) as N.
    destruct (to_double (a / st)); [contradiction|reflexivity..].
  - rewrite le_Fin in H0, H. apply Qle_bool_iff in H0. apply Qle_bool_iff in H.
    assert (0 <= a / st) by (apply Qle_shift_div_l; lra).
    split; [|now apply to_double_nonneg].
    apply to_double_mono; [assumption|].
    apply Qmult_le_compat_r; [assumption|].
    apply Qlt_le_weak, Qinv_lt_0_compat, st_pos.
Qed.

Lemma mul_mono (x y : number) :
  le (Fin 0) x = true -> le x y = true ->
  le (mul x (Fin st)) (mul y (Fin st)) = true
  /\ le (Fin 0) (mul x (Fin st)) = true.
Proof.
  destruct x as [| | |a], y as [| | |b]; try discriminate; intros H0 H;
    cbv [mul]; rewrite ?st_nonzero, ?st_not_neg; cbv [inf_of_sign negb];
    try (split; reflexivity).
  - rewrite le_Fin in H0. apply Qle_bool_iff in H0.
    assert (0 <= a * st) by (apply Qmult_le_0_compat; lra).
    split; [|now apply to_double_nonneg].
    pose proof (to_double_not_nan (a * st)) as N.
    destruct (to_double (a * st)); [contradiction|reflexivity..].
  - rewrite le_Fin in H0, H. apply Qle_bool_iff in H0. apply Qle_bool_iff in H.
    assert (0 <= a * st) by (apply Qmult_le_0_compat; lra).
    split; [|now apply to_double_nonneg].
    apply to_double_mono; [assumption|].
    apply Qmult_le_compat_r; [assumption|lra].
Qed.

(** Flooring to a multiple of the step keeps the order. *)
Lemma floored_mono (x y : number) :
  le (Fin 0) x = true -> le x y = true ->
  le (mul (floor (div x (Fin st))) (Fin st)) (mul (floor (div y (Fin st))) (Fin st)) = true.
Proof.
  intros H0 H. destruct (div_mono x y H0 H) as [D D0].
  apply mul_mono; [apply floor_nonneg, D0|apply floor_mono, D].
Qed.

End Step.

Lemma ten21_exact : to_double (inject_Z (10 ^ 21)) = Fin (inject_Z (10 ^ 21)).
Proof. vm_compute. reflexivity. Qed.

Lemma rhu_Z (n : Z) : rhu (inject_Z n) = n.
Proof. apply rhu_unique; lra. Qed.

(** Rounding to [d] decimals keeps the order of quantities that are not
    negative. *)
Lemma fixed_mono (x y : number) (d : Z) :
  (0 <= d <= 100)%Z -> le (Fin 0) x = true -> le x y = true ->
  exists tx ty,
    toFixed x d = Some tx /\ toFixed y d = Some ty
    /\ le (parseFloat_fixed tx) (parseFloat_fixed ty) = true.
Proof.
  intros Hd H0 H.
  assert (Hrange : ((d <? 0) || (100 <? d))%Z = false).
  { destruct (Z.ltb_spec d 0), (Z.ltb_spec 100 d); try lia; reflexivity. }
  pose proof (ten_pos (proj1 Hd)) as PT.
  unfold toFixed. rewrite Hrange. do 2 eexists. split; [reflexivity|]. split; [reflexivity|].
  destruct x as [| | |a], y as [| | |b]; try discriminate; try reflexivity.
  - (* a finite, y infinite *)
    destruct (Qle_bool (inject_Z (10 ^ 21)) (Qabs a)); [reflexivity|].
    cbv [parseFloat_fixed].
    match goal with
    | |- le (to_double ?v) _ = _ =>
        pose proof (to_double_not_nan v) as N; destruct (to_double v);
          [contradiction|reflexivity..]
    end.
  - rewrite le_Fin in H0, H. apply Qle_bool_iff in H0. apply Qle_bool_iff in H.
    assert (Hb0 : 0 <= b) by lra.
    assert (Na : is_neg a = false) by (unfold is_neg; now rewrite Qle_bool_true).
    assert (Nb : is_neg b = false) by (unfold is_neg; now rewrite Qle_bool_true).
    rewrite Na, Nb.
    assert (Ea : Qabs a == a) by (now apply Qabs_pos).
    assert (Eb : Qabs b == b) by (now apply Qabs_pos).
    assert (Hr : (rhu (Qabs a * inject_Z (10 ^ d)) <= rhu (Qabs b * inject_Z (10 ^ d)))%Z).
    { apply rhu_mono. rewrite Ea, Eb. apply Qmult_le_compat_r; lra. }
    assert (Hr0 : (0 <= rhu (Qabs a * inject_Z (10 ^ d)))%Z).
    { rewrite <- (rhu_Z 0). apply rhu_mono. rewrite Ea.
      apply Qmult_le_0_compat; lra. }
    assert (Hq0 : 0 <= inject_Z (rhu (Qabs a * inject_Z (10 ^ d))) / inject_Z (10 ^ d)).
    { apply Qle_shift_div_l; [exact PT|]. rewrite Qmult_0_l.
      change 0 with (inject_Z 0). now rewrite <- Zle_Qle. }
    destruct (Qle_bool (inject_Z (10 ^ 21)) (Qabs a)) eqn:Ba,
             (Qle_bool (inject_Z (10 ^ 21)) (Qabs b)) eqn:Bb; cbv [parseFloat_fixed].
    + rewrite le_Fin. now apply Qle_bool_true.
    + exfalso. apply Qle_bool_iff in Ba.
      assert (Bb' : ~ inject_Z (10 ^ 21) <= Qabs b)
        by (intros X; apply Qle_bool_iff in X; congruence).
      apply Bb'. rewrite Eb. rewrite Ea in Ba. lra.
    + apply Qle_bool_iff in Bb. rewrite Eb in Bb.
      assert (Ba' : a < inject_Z (10 ^ 21)).
      { apply Qnot_le_lt. intros X. rewrite <- Ea in X.
        apply Qle_bool_iff in X. congruence. }
      apply le_trans with (y := Fin (inject_Z (10 ^ 21))).
      * rewrite <- ten21_exact. apply to_double_mono; [exact Hq0|].
        apply Qle_shift_div_r; [exact PT|].
        rewrite <- inject_Z_mult, <- Zle_Qle.
        rewrite <- (rhu_Z (10 ^ 21 * 10 ^ d)). apply rhu_mono.
        rewrite Ea, inject_Z_mult. apply Qmult_le_compat_r; lra.
      * rewrite le_Fin. now apply Qle_bool_true.
    + apply to_double_mono; [exact Hq0|].
      apply Qmult_le_compat_r; [|apply Qlt_le_weak, Qinv_lt_0_compat, PT].
      now rewrite <- Zle_Qle.
Qed.

End OrderFacts.

(* ================================================================== *)
(** * More on the quantity normalisation *)
(* ================================================================== *)

Module QuantityOrderFacts.

Import JSNumber JSString JSValue ProcessAlert NumberFacts QuantityFacts OrderFacts.
Local Open Scope Q_scope.

(** Clamping to the minimum, flooring to the step and clamping again
    keeps the order. *)
Lemma clamped_mono (st mn : Q) (raw1 raw2 : number) :
  0 < st -> 0 <= mn -> le raw1 raw2 = true ->
  let h := fun raw => mul (floor (div raw (Fin st))) (Fin st) in
  let c := fun raw =>
    let qty := if lt raw (Fin mn) then Fin mn else h raw in
    if lt qty (Fin mn) then Fin mn else qty in
  le (Fin 0) (c raw1) = true /\ le (c raw1) (c raw2) = true.
Proof.
  intros Hst Hmn H h c.
  destruct (le_not_nan _ _ H) as [N1 N2].
  assert (M0 : le (Fin 0) (Fin mn) = true) by (rewrite le_Fin; now apply Qle_bool_true).
  assert (Mr : le (Fin mn) (Fin mn) = true) by (apply le_refl; discriminate).
  assert (Hh : forall raw, raw <> NaN -> h raw <> NaN)
    by (intros raw Hr; now apply floored_multiple_not_nan).
  assert (Hc : forall raw, raw <> NaN -> le (Fin mn) (c raw) = true).
  { intros raw Hr. unfold c.
    destruct (lt raw (Fin mn)).
    - rewrite lt_irrefl. exact Mr.
    - destruct (lt (h raw) (Fin mn)) eqn:E; [exact Mr|].
      apply lt_false_le; [now apply Hh|discriminate|exact E]. }
  split; [apply le_trans with (y := Fin mn); [exact M0|now apply Hc]|].
  unfold c at 1.
  destruct (lt raw1 (Fin mn)) eqn:L1.
  - rewrite lt_irrefl. now apply Hc.
  - assert (G1 : le (Fin mn) raw1 = true) by (apply lt_false_le; [assumption|discriminate|exact L1]).
    assert (G2 : le (Fin mn) raw2 = true) by (apply le_trans with (y := raw1); assumption).
    assert (L2 : lt raw2 (Fin mn) = false) by (now apply le_lt_false).
    unfold c. rewrite L2.
    assert (P1 : le (Fin 0) raw1 = true) by (apply le_trans with (y := Fin mn); assumption).
    pose proof (floored_mono Hst raw1 raw2 P1 H) as F. fold (h raw1) (h raw2) in F.
    destruct (lt (h raw1) (Fin mn)) eqn:E1, (lt (h raw2) (Fin mn)) eqn:E2.
    + exact Mr.
    + apply lt_false_le; [now apply Hh|discriminate|exact E2].
    + exfalso.
      assert (A : le (Fin mn) (h raw1) = true)
        by (apply lt_false_le; [now apply Hh|discriminate|exact E1]).
      pose proof (le_trans _ _ _ A F) as B. apply le_lt_false in B. congruence.
    + exact F.
Qed.

(** X1.  The normalisation is monotone.  With a positive step and a
    minimum that is not negative, a larger raw quantity never yields a
    smaller order: binary64 rounding in the quotient, the product and the
    final rounding to the step's decimals all keep the order. *)
Theorem normalization_is_monotone :
  forall (minQtyStr stepStr : value) (raw1 raw2 : number) (mn st : Q) (d : Z),
    decimals_of stepStr = inr d -> (d <= 100)%Z ->
    parseFloat_value stepStr = inr (Fin st) -> 0 < st ->
    parseFloat_value minQtyStr = inr (Fin mn) -> 0 <= mn ->
    le raw1 raw2 = true ->
    exists q1 q2,
      normalizeQty minQtyStr stepStr raw1 = inr q1
      /\ normalizeQty minQtyStr stepStr raw2 = inr q2
      /\ le q1 q2 = true.
Proof.
  intros minQtyStr stepStr raw1 raw2 mn st d Hdec Hd100 Hstep Hst Hmin Hmn H.
  pose proof (decimals_of_nonneg _ Hdec) as Hd0.
  assert (Hd : (0 <= d <= 100)%Z) by lia.
  destruct (clamped_mono raw1 raw2 Hst Hmn H) as [C0 C].
  destruct (fixed_mono _ _ Hd C0 C) as [tx [ty [Tx [Ty L]]]].
  unfold normalizeQty. rewrite Hmin, Hstep, Hdec.
  cbv zeta in Tx, Ty. rewrite Tx, Ty.
  exists (parseFloat_fixed tx), (parseFloat_fixed ty). repeat split. exact L.
Qed.

Lemma normalization_monotone_witness :
  exists q1 q2,
    normalizeQty Samples.lot_min Samples.lot_step Samples.lot_raw = inr q1
    /\ normalizeQty Samples.lot_min Samples.lot_step (parseFloat "0.35") = inr q2
    /\ le q1 q2 = true.
Proof.
  apply (@normalization_is_monotone Samples.lot_min Samples.lot_step
           Samples.lot_raw (parseFloat "0.35")
           MoreSamples.lot_min_value Samples.lot_step_value 3).
  - reflexivity.
  - lia.
  - vm_compute. reflexivity.
  - reflexivity.
  - vm_compute. reflexivity.
  - unfold Qle. simpl. lia.
  - vm_compute. reflexivity.
Defined.

Lemma decimals_of_throws (stepStr : value) (e : exn) :
  decimals_of stepStr = inl e -> e = TypeError.
Proof.
  destruct stepStr; simpl; intros H; try (now inversion H).
  destruct (existsb _ _); now inversion H.
Qed.

(** X2.  When the normalisation throws.  Whether it throws is decided by
    the lot filter alone, never by the quantity read: it throws a
    TypeError when the minimum or the step does not print or the
    decimals of the step cannot be read (the step is not a text), and
    otherwise a RangeError when the step has more than 100 decimals. *)
Theorem normalization_throws_on_the_filter_only :
  forall (minQtyStr stepStr : value) (rawQty : number) (e : exn),
    normalizeQty minQtyStr stepStr rawQty = inl e
    <-> (e = TypeError
         /\ (prints minQtyStr = false \/ prints stepStr = false
             \/ decimals_of stepStr = inl TypeError))
        \/ (e = RangeError
            /\ prints minQtyStr = true /\ prints stepStr = true
            /\ exists d, decimals_of stepStr = inr d /\ (100 < d)%Z).
Proof.
  intros minQtyStr stepStr rawQty e. unfold normalizeQty, parseFloat_value.
  destruct (prints minQtyStr) eqn:Pm.
  2:{ split.
      - intros H. left. inversion H. split; [reflexivity|now left].
      - intros [[-> _]|[_ [H _]]]; [reflexivity|discriminate]. }
  destruct (prints stepStr) eqn:Ps.
  2:{ split.
      - intros H. left. inversion H. split; [reflexivity|right; now left].
      - intros [[-> _]|[_ [_ [H _]]]]; [reflexivity|discriminate]. }
  destruct (decimals_of stepStr) as [e0|d] eqn:Hdec.
  - pose proof (decimals_of_throws _ Hdec) as ->. split.
    + intros H. left. inversion H. split; [reflexivity|right; now right].
    + intros [[-> _]|[_ [_ [_ [d [H _]]]]]]; [reflexivity|discriminate].
  - pose proof (decimals_of_nonneg _ Hdec) as Hd0.
    unfold toFixed.
    destruct (Z.ltb_spec d 0) as [L|L]; [lia|].
    destruct (Z.ltb_spec 100 d) as [G|G]; cbn [orb].
    + split.
      * intros H. right. inversion H. repeat split. exists d. split; [reflexivity|exact G].
      * intros [[_ [H|[H|H]]]|[-> _]]; [discriminate..|reflexivity].
    + split; [discriminate|].
      intros [[_ [H|[H|H]]]|[_ [_ [_ [d' [H1 H2]]]]]]; [discriminate..|].
      inversion H1. lia.
Qed.

(** X3.  Quantities that are not numbers.  With a lot filter that
    prints and a step whose decimals are readable (at most 100), a raw
    quantity that is NaN (a text that does not parse) is not clamped to
    the minimum and is no error: the normalised quantity is NaN.  So is
    every quantity not below the minimum when the step is zero. *)
Theorem normalization_passes_nan_on :
  forall (minQtyStr stepStr : value) (rawQty minQty step : number) (d : Z),
    parseFloat_value minQtyStr = inr minQty ->
    parseFloat_value stepStr = inr step ->
    decimals_of stepStr = inr d -> (d <= 100)%Z ->
    rawQty = NaN
    \/ (exists st, step = Fin st /\ st == 0 /\ lt rawQty minQty = false) ->
    normalizeQty minQtyStr stepStr rawQty = inr NaN.
Proof.
  intros minQtyStr stepStr rawQty minQty step d Hmin Hstep Hdec Hd100 Hor.
  pose proof (decimals_of_nonneg _ Hdec) as Hd0.
  assert (Hrange : ((d <? 0) || (100 <? d))%Z = false).
  { destruct (Z.ltb_spec d 0), (Z.ltb_spec 100 d); try lia; reflexivity. }
  assert (Hnan : forall m, lt NaN m = false) by reflexivity.
  unfold normalizeQty. rewrite Hmin, Hstep, Hdec.
  destruct Hor as [-> | [st [-> [Hz Hlt]]]].
  - rewrite Hnan. cbv [div floor mul]. rewrite Hnan.
    unfold toFixed. rewrite Hrange. reflexivity.
  - rewrite Hlt.
    assert (Z0 : Qeq_bool st 0 = true) by (now apply Qeq_bool_iff).
    assert (E : mul (floor (div rawQty (Fin st))) (Fin st) = NaN).
    { destruct rawQty as [| | |a]; cbv [div]; rewrite ?Z0; try reflexivity.
      - cbv [inf_of_sign]. destruct (is_neg st); cbv [floor mul]; now rewrite Z0.
      - cbv [inf_of_sign]. destruct (negb (is_neg st)); cbv [floor mul]; now rewrite Z0.
      - destruct (Qeq_bool a 0); [reflexivity|].
        cbv [inf_of_sign]. destruct (is_neg a); cbv [floor mul]; now rewrite Z0. }
    rewrite E, Hnan. unfold toFixed. rewrite Hrange. reflexivity.
Qed.

Lemma normalization_nan_witness :
  normalizeQty (VStr "0.01") (VStr "0") (parseFloat "0.35") = inr NaN.
Proof.
  apply (@normalization_passes_nan_on (VStr "0.01") (VStr "0") (parseFloat "0.35")
           (parseFloat "0.01") (Fin 0) 0).
  - reflexivity.
  - vm_compute. reflexivity.
  - reflexivity.
  - lia.
  - right. exists 0. split; [reflexivity|]. split; [reflexivity|].
    vm_compute. reflexivity.
Defined.

(** A minimum that is an object with its own [toString] makes the
    normalisation throw, whatever the step and the quantity. *)
Lemma normalization_throws_witness :
  normalizeQty MoreSamples.unprintable Samples.lot_step Samples.lot_raw
  = inl TypeError.
Proof.
  apply (proj2 (normalization_throws_on_the_filter_only
                  MoreSamples.unprintable Samples.lot_step Samples.lot_raw TypeError)).
  left. split; [reflexivity|]. left. reflexivity.
Defined.

End QuantityOrderFacts.

(* ================================================================== *)
(** * Whole runs of the alert processor *)
(* ================================================================== *)

Module AlertRunFacts.

Import JSNumber JSString JSValue JSDate Http Database Eff ProcessAlert.
Import AlertNotions ValueFacts NumberFacts AlertFacts RunNotions.
Local Open Scope string_scope.
Local Open Scope list_scope.

Lemma upper_upper_char (c : ascii) : upper_char (upper_char c) = upper_char c.
Proof. destruct c as [[] [] [] [] [] [] [] []]; vm_compute; reflexivity. Qed.

Lemma upper_upper (s : string) : toUpperCase (toUpperCase s) = toUpperCase s.
Proof. induction s as [|c r IH]; simpl; [reflexivity|]. now rewrite upper_upper_char, IH. Qed.

(** What an order that [prepare] yields rests on. *)
Lemma prepare_order (w : world) (alertData : value) (bots : option bot_row)
    (key : api_key_row) (s s' : state) (bot : bot_row) (p : orderParams) :
  prepare w alertData bots key s = (Val (bot, p), s') ->
  exists symbol infoJson lot minQtyStr stepStr rawQty adjustedQty,
    let url := instruments_url (if truthy (test_mode bot) then TESTNET_URL w
                                else MAINNET_URL w) symbol in
    bots = Some bot
    /\ trace s' = trace s ++ [InstrumentsFetched url]
    /\ instruments_info w url = inr infoJson
    /\ strict_eq_num (lookup_of infoJson "retCode") (Fin 0) = true
    /\ lot_filter infoJson = inr lot
    /\ get_nullish lot "minOrderQty" "minTrdAmt" = inr minQtyStr
    /\ get_nullish lot "qtyStep" "stepSize" = inr stepStr
    /\ raw_quantity alertData bot = inr rawQty
    /\ normalizeQty minQtyStr stepStr rawQty = inr adjustedQty
    /\ p = build_order alertData bot key symbol adjustedQty
    /\ toUpperCase symbol = symbol.
Proof.
  cbv [prepare bind lift fetch_instruments emit ret throw].
  destruct (get alertData "symbol") as [e|a_symbol] eqn:E1; cbv beta iota; [discriminate|].
  destruct (the_bot bots) as [e|bot0] eqn:E2; cbv beta iota; [discriminate|].
  destruct (upper _) as [e|symbol] eqn:E3; cbv beta iota; [discriminate|].
  match goal with
  | |- context [instruments_info w ?u] =>
      destruct (instruments_info w u) as [e|infoJson] eqn:E4
  end; cbv beta iota; [discriminate|].
  destruct (get infoJson "retCode") as [e|retCode] eqn:E5; cbv beta iota; [discriminate|].
  destruct (strict_eq_num retCode (Fin 0)) eqn:E6; cbv beta iota delta [negb]; [|discriminate].
  destruct (get infoJson "result") as [e|result] eqn:E7; cbv beta iota; [discriminate|].
  destruct (get result "list") as [e|list] eqn:E8; cbv beta iota; [discriminate|].
  destruct (index0 list) as [e|inst] eqn:E9; cbv beta iota; [discriminate|].
  destruct (get inst "lotSizeFilter") as [e|lot] eqn:E10; cbv beta iota; [discriminate|].
  destruct (get_nullish lot "minOrderQty" "minTrdAmt") as [e|minQtyStr] eqn:E11;
    cbv beta iota; [discriminate|].
  destruct (get_nullish lot "qtyStep" "stepSize") as [e|stepStr] eqn:E12;
    cbv beta iota; [discriminate|].
  destruct (parseFloat_value _) as [e|rawQty] eqn:E14; cbv beta iota; [discriminate|].
  destruct (normalizeQty minQtyStr stepStr rawQty) as [e|adjustedQty] eqn:E13;
    cbv beta iota; [discriminate|].
  intros H. inversion H; subst bot0 p s'. clear H.
  exists symbol, infoJson, lot, minQtyStr, stepStr, rawQty, adjustedQty. cbv zeta.
  destruct bots as [b|]; [|discriminate]. simpl in E2. inversion E2; subst b.
  rewrite (get_value _ _ E5) in E6.
  assert (Hu : toUpperCase symbol = symbol).
  { unfold upper in E3. destruct (or _ _); try discriminate.
    inversion E3. apply upper_upper. }
  unfold lot_filter. rewrite E7, E8, E9.
  repeat split; try assumption; reflexivity.
Qed.

(** Every run of the handler is refused or served. *)
Lemma handler_runs (w : world) (rq : request) (s : state) :
  let (r, s') := handler w rq s in run w rq s r s'.
Proof.
  unfold handler.
  destruct (String.eqb (method rq) "OPTIONS") eqn:Eo.
  { apply refused with (events := []); simpl;
      [discriminate|reflexivity|now rewrite List.app_nil_r|now left]. }
  destruct (String.eqb (method rq) "POST") eqn:Ep; cbn [negb].
  2:{ apply refused with (events := []); simpl;
      [discriminate|reflexivity|now rewrite List.app_nil_r|now left]. }
  apply String.eqb_eq in Ep.
  destruct (truthy (SUPABASE_URL w)) eqn:Eu; cbn [negb orb].
  2:{ apply refused with (events := []); simpl;
      [discriminate|reflexivity|now rewrite List.app_nil_r|now left]. }
  destruct (truthy (SUPABASE_SERVICE_KEY w)) eqn:Ek; cbn [negb orb].
  2:{ apply refused with (events := []); simpl;
      [discriminate|reflexivity|now rewrite List.app_nil_r|now left]. }
  assert (Hc : configured w) by (split; assumption).
  unfold try_catch.
  destruct (webhook_lookup w rq s) as [[webhook bots]|] eqn:Hw.
  2:{ rewrite (process_not_found w rq s Hw). simpl.
      eapply refused; simpl; [discriminate|reflexivity|reflexivity|simpl; auto 10]. }
  destruct (key_lookup w s (user_id webhook)) as [key|] eqn:Hk.
  2:{ rewrite (process_key_missing w rq s Hw Hk). simpl.
      eapply refused; simpl; [discriminate|reflexivity|reflexivity|simpl; auto 10]. }
  rewrite (process_with_key w rq s Hw Hk). unfold bind at 1.
  destruct (prepare_outcomes w (alert_payload rq) bots key
              (after_selects w rq s (user_id webhook)))
    as [out [s1 [Hp [Hdb [Hti Hout]]]]].
  rewrite Hp. simpl in Hdb, Hti.
  destruct out as [[bot p] | r | e]; [|contradiction|].
  2:{ simpl. destruct Hout as [Htr | [url Htr]].
      - eapply refused; simpl; [discriminate|exact Hdb|rewrite Htr; reflexivity|simpl; auto 10].
      - eapply refused; simpl; [discriminate|exact Hdb| |].
        + rewrite Htr. simpl. rewrite <- app_assoc. reflexivity.
        + simpl; auto 10. }
  destruct Hout as [Hb [Hpar [url Htr]]]. subst bots.
  simpl in Htr. rewrite <- app_assoc in Htr. simpl in Htr.
  unfold bind at 1.
  destruct (truthy (test_mode bot)) eqn:Ht.
  - rewrite (dispatch_test_mode w bot p s1 Ht).
    assert (Hr : readable (test_order p (clock w (ticks s1)))) by (split; discriminate).
    rewrite (audit_outcomes w webhook bot _ Hr). simpl.
    rewrite Hti in *.
    eapply served with (url := url) (order := p) (key := key); try eassumption;
      try (eexists; exact Hp); cbv zeta;
      rewrite ?Ht; simpl; try reflexivity.
    + rewrite Hdb. reflexivity.
    + rewrite Htr, <- app_assoc. reflexivity.
  - rewrite (dispatch_live w bot p s1 Ht).
    destruct (executeBybitOrder w p) as [e|o] eqn:He.
    + simpl. eapply refused; simpl; [discriminate|exact Hdb| |].
      * rewrite Htr, <- app_assoc. reflexivity.
      * simpl; auto 10.
    + destruct (readable_value o) as [Hr|Hr].
      * rewrite (audit_outcomes w webhook bot _ Hr). simpl.
        rewrite Hti in *.
        eapply served with (url := url) (order := p) (key := key); try eassumption;
      try (eexists; exact Hp); cbv zeta;
          rewrite ?Ht; simpl; try reflexivity.
        -- exact He.
        -- rewrite Hdb. reflexivity.
        -- rewrite Htr, <- !app_assoc. reflexivity.
      * rewrite (audit_throws w webhook bot _ Hr). simpl.
        eapply refused; simpl; [discriminate|exact Hdb| |].
        -- rewrite Htr, <- app_assoc. reflexivity.
        -- simpl; auto 10.
Qed.

(** An event of one kind is not among events of other kinds. *)
Ltac absent :=
  intros;
  match goal with
  | |- _ = _ => reflexivity
  | |- ~ _ =>
      let X := fresh "X" in
      intros X; simpl in X; repeat (destruct X as [X|X]; [discriminate|]); exact X
  | X : In _ _ |- _ =>
      simpl in X; repeat (destruct X as [X|X]; [discriminate|]); contradiction
  | X : _ \/ _ |- _ =>
      repeat (destruct X as [X|X]; [discriminate|]); contradiction
  end.

Lemma filter_singleton {A} (p : A -> bool) (l : list A) (x : A) :
  filter p l = [x] ->
  In x l /\ p x = true /\ forall y, In y l -> p y = true -> y = x.
Proof.
  intros H.
  assert (Hx : In x (filter p l)) by (rewrite H; now left).
  apply filter_In in Hx. destruct Hx as [Hin Hp]. repeat split; try assumption.
  intros y Hy Hpy.
  assert (Hy' : In y (filter p l)) by (apply filter_In; now split).
  rewrite H in Hy'. destruct Hy' as [<-|[]]. reflexivity.
Qed.

Lemma single_some {A} (l : list A) (x : A) : single l = Some x -> l = [x].
Proof. destruct l as [|a [|b l]]; simpl; intros H; inversion H; reflexivity. Qed.

(** What a successful select of the webhook tells of the table. *)
Lemma select_webhook_sound (d : database) (token : string) (now : Z) row bots :
  select_webhook d token now = Some (row, bots) ->
  In row (webhooks d) /\ webhook_token row = token /\ (now < expires_at row)%Z
  /\ bots = embedded_bot d row
  /\ forall other, In other (webhooks d) -> webhook_token other = token ->
                   (now < expires_at other)%Z -> other = row.
Proof.
  unfold select_webhook.
  destruct (single _) as [r|] eqn:E; [|discriminate].
  intros H. inversion H; subst r bots. apply single_some in E.
  apply filter_singleton in E. destruct E as [Hin [Hp Hu]].
  apply andb_true_iff in Hp. destruct Hp as [Ht Hl].
  apply String.eqb_eq in Ht. apply Z.ltb_lt in Hl.
  repeat split; try assumption.
  intros other Ho Hto Hlo. apply Hu; [assumption|].
  apply andb_true_iff. split; [now apply String.eqb_eq|now apply Z.ltb_lt].
Qed.

Lemma select_api_key_sound (d : database) (uid : string) key :
  select_api_key d uid = Some key ->
  In key (api_keys d) /\ key_user_id key = uid /\ exchange key = "bybit"
  /\ forall other, In other (api_keys d) -> key_user_id other = uid ->
                   exchange other = "bybit" -> other = key.
Proof.
  unfold select_api_key. intros E. apply single_some in E.
  apply filter_singleton in E. destruct E as [Hin [Hp Hu]].
  apply andb_true_iff in Hp. destruct Hp as [Ht Hl].
  apply String.eqb_eq in Ht. apply String.eqb_eq in Hl.
  repeat split; try assumption.
  intros other Ho Hto Hlo. apply Hu; [assumption|].
  apply andb_true_iff. split; now apply String.eqb_eq.
Qed.

Lemma embedded_bot_sound (d : database) (row : webhook_row) (bot : bot_row) :
  embedded_bot d row = Some bot -> In bot (bots d) /\ id bot = bot_id row.
Proof.
  unfold embedded_bot. intros H. apply find_some in H.
  destruct H as [Hin He]. split; [assumption|now apply String.eqb_eq].
Qed.

Lemma update_bot_counted (d : database) bid t c :
  bots (update_bot d bid t c) = map (counted bid t c) (bots d).
Proof. reflexivity. Qed.

Lemma settings_counted bid t c (b : bot_row) : settings (counted bid t c b) = settings b.
Proof. unfold counted. destruct (String.eqb (id b) bid); reflexivity. Qed.

Lemma logged_frame (w : world) webhook bot o t1 t2 (d : database) :
  webhooks (logged w webhook bot o t1 t2 d) = webhooks d
  /\ api_keys (logged w webhook bot o t1 t2 d) = api_keys d
  /\ trades (logged w webhook bot o t1 t2 d)
     = (if db_fault w InsertTrade then trades d else trades d ++ [trade_of webhook o t1])
  /\ bots (logged w webhook bot o t1 t2 d)
     = (if db_fault w UpdateBot then bots d
        else map (counted (bot_id webhook) t2 (next_trade_count (trade_count bot))) (bots d)).
Proof.
  unfold logged. destruct (db_fault w InsertTrade), (db_fault w UpdateBot);
    repeat split; reflexivity.
Qed.

(** X4.  The tables a run leaves.  The handler never touches the webhooks
    and the API keys; it appends at most one trade; of the bots it
    changes no configuration column; and unless it answers 200 it
    changes nothing at all. *)
Theorem alert_tables_frame :
  forall (w : world) (rq : request) (s : state),
    let (r, s') := handler w rq s in
    webhooks (db s') = webhooks (db s)
    /\ api_keys (db s') = api_keys (db s)
    /\ (trades (db s') = trades (db s)
        \/ exists row, trades (db s') = trades (db s) ++ [row])
    /\ map settings (bots (db s')) = map settings (bots (db s))
    /\ (status r = 200%Z \/ db s' = db s).
Proof.
  intros w rq s. pose proof (handler_runs w rq s) as H.
  destruct (handler w rq s) as [r s'].
  destruct H as [events Hst Hdb Htr Hk
                | webhook bot key order o url Hc Hm Hw Hk Hr Hpar Hprep sim n Hd Hresp Hdb Hti Htr].
  - rewrite Hdb. repeat split; auto.
  - destruct (logged_frame w webhook bot o (clock w (S n)) (clock w (S (S n))) (db s))
      as [F1 [F2 [F3 F4]]].
    rewrite Hdb, F1, F2, F3, F4. repeat split.
    + destruct (db_fault w InsertTrade); [now left|right; eexists; reflexivity].
    + destruct (db_fault w UpdateBot); [reflexivity|].
      rewrite map_map. apply map_ext. intros b. apply settings_counted.
    + left. rewrite Hresp. reflexivity.
Qed.

(** X5.  The order of the requests.  A run asks for the webhook, then the
    API key, then the instrument metadata, then submits the order
    (unless simulated), then inserts the trade and updates the bot.  A run
    that is not answered 200 stops after any of the first four; a run
    that is answered 200 has made them all, the insert and the update
    included. *)
Theorem alert_requests_follow_the_protocol :
  forall (w : world) (rq : request) (s : state),
    let (r, s') := handler w rq s in
    exists events,
      trace s' = trace s ++ events
      /\ In (map kind_of events) (if (status r =? 200)%Z then services else refusals).
Proof.
  intros w rq s. pose proof (handler_runs w rq s) as H.
  destruct (handler w rq s) as [r s'].
  destruct H as [events Hst Hdb Htr Hk
                | webhook bot key order o url Hc Hm Hw Hk Hr Hpar Hprep sim n Hd Hresp Hdb Hti Htr].
  - exists events. split; [exact Htr|].
    destruct (Z.eqb_spec (status r) 200); [contradiction|exact Hk].
  - eexists. split; [exact Htr|]. rewrite Hresp. simpl.
    destruct sim; simpl; auto.
Qed.

(** X6.  What a 200 presupposes.  The handler answers 200 only to a POST
    whose token names exactly one stored webhook that has not expired
    when the clock is read, whose bot exists, and whose user has exactly
    one API key for the exchange [bybit]. *)
Theorem served_alert_is_authorised :
  forall (w : world) (rq : request) (s : state),
    status (fst (handler w rq s)) = 200%Z ->
    let token := last_segment (pathname rq) in
    let now := clock w (ticks s) in
    method rq = "POST"
    /\ exists webhook bot key,
         In webhook (webhooks (db s))
         /\ webhook_token webhook = token /\ (now < expires_at webhook)%Z
         /\ (forall other, In other (webhooks (db s)) -> webhook_token other = token ->
                           (now < expires_at other)%Z -> other = webhook)
         /\ In bot (bots (db s)) /\ id bot = bot_id webhook
         /\ In key (api_keys (db s))
         /\ key_user_id key = user_id webhook /\ exchange key = "bybit"
         /\ (forall other, In other (api_keys (db s)) ->
                           key_user_id other = user_id webhook ->
                           exchange other = "bybit" -> other = key).
Proof.
  intros w rq s H200 token now. pose proof (handler_runs w rq s) as H.
  destruct (handler w rq s) as [r s']. simpl in H200.
  destruct H as [events Hst Hdb Htr Hk
                | webhook bot key order o url Hc Hm Hw Hk Hr Hpar Hprep sim n Hd Hresp Hdb Hti Htr];
    [contradiction|].
  split; [exact Hm|]. exists webhook, bot, key.
  unfold webhook_lookup in Hw. destruct (db_fault w SelectWebhook); [discriminate|].
  unfold key_lookup in Hk. destruct (db_fault w SelectApiKey); [discriminate|].
  apply select_webhook_sound in Hw. destruct Hw as [W1 [W2 [W3 [W4 W5]]]].
  apply select_api_key_sound in Hk. destruct Hk as [K1 [K2 [K3 K4]]].
  symmetry in W4. apply embedded_bot_sound in W4. destruct W4 as [B1 B2].
  repeat split; assumption.
Qed.

Lemma served_alert_witness :
  status (fst (handler (Samples.alert_world Samples.no_fault Samples.ticking)
                 Samples.live_alert Samples.alert_start)) = 200%Z
  /\ method Samples.live_alert = "POST"
  /\ exists webhook bot key,
       In webhook (webhooks Samples.store)
       /\ webhook_token webhook = "tok-live" /\ (1700000000000 < expires_at webhook)%Z
       /\ (forall other, In other (webhooks Samples.store) -> webhook_token other = "tok-live" ->
                         (1700000000000 < expires_at other)%Z -> other = webhook)
       /\ In bot (bots Samples.store) /\ id bot = bot_id webhook
       /\ In key (api_keys Samples.store)
       /\ key_user_id key = user_id webhook /\ exchange key = "bybit"
       /\ (forall other, In other (api_keys Samples.store) ->
                         key_user_id other = user_id webhook ->
                         exchange other = "bybit" -> other = key).
Proof.
  assert (H : status (fst (handler (Samples.alert_world Samples.no_fault Samples.ticking)
                             Samples.live_alert Samples.alert_start)) = 200%Z)
    by (vm_compute; reflexivity).
  split; [exact H|].
  exact (@served_alert_is_authorised
           (Samples.alert_world Samples.no_fault Samples.ticking)
           Samples.live_alert Samples.alert_start H).
Defined.



(** That run: the order went out, and the answer is the exchange's
    error. *)
Example refused_order_run :
  fst (handler MoreSamples.refusing_exchange Samples.live_alert Samples.alert_start)
  = respond 500 (ThrownBody (External "insufficient balance"))
  /\ map kind_of (trace (snd (handler MoreSamples.refusing_exchange Samples.live_alert
                                Samples.alert_start)))
     = [KWebhook; KKey; KFetch; KOrder].
Proof. vm_compute. split; reflexivity. Qed.

(** X8.  The audit trail of a served alert.  When the two statements of
    the audit succeed, a run answered 200 appends exactly one trade,
    which carries the user and the bot of the webhook and the very
    [orderId] and [status] of the response, and sets the counter and the
    time of the last trade on the rows of that bot, leaving every other
    bot as it was; the two timestamps are the last two clock readings of
    the run. *)
Theorem served_alert_leaves_an_audit_trail :
  forall (w : world) (rq : request) (s : state),
    db_fault w InsertTrade = false -> db_fault w UpdateBot = false ->
    let (r, s') := handler w rq s in
    status r = 200%Z ->
    exists webhook bot row,
      webhook_lookup w rq s = Some (webhook, Some bot)
      /\ trades (db s') = trades (db s) ++ [row]
      /\ trade_user_id row = user_id webhook
      /\ trade_bot_id row = bot_id webhook
      /\ trade_created_at row = clock w (ticks s' - 2)
      /\ content r = OrderBody (trade_order_id row) (trade_status row) (test_mode bot)
      /\ bots (db s')
         = map (counted (bot_id webhook) (clock w (ticks s' - 1))
                        (next_trade_count (trade_count bot)))
               (bots (db s)).
Proof.
  intros w rq s Fi Fu. pose proof (handler_runs w rq s) as H.
  destruct (handler w rq s) as [r s'].
  destruct H as [events Hst Hdb Htr Hk
                | webhook bot key order o url Hc Hm Hw Hk Hr Hpar Hprep sim n Hd Hresp Hdb Hti Htr];
    [contradiction|].
  intros _. exists webhook, bot, (trade_of webhook o (clock w (S n))).
  destruct (logged_frame w webhook bot o (clock w (S n)) (clock w (S (S n))) (db s))
    as [F1 [F2 [F3 F4]]].
  rewrite Fi in F3. rewrite Fu in F4.
  rewrite Hdb, F3, F4, Hti, Hresp. simpl. rewrite ?Nat.sub_0_r.
  repeat split; assumption.
Qed.

Lemma served_alert_audit_witness :
  status (fst (handler (Samples.alert_world Samples.no_fault Samples.ticking)
                 Samples.live_alert Samples.alert_start)) = 200%Z
  /\ (let w := Samples.alert_world Samples.no_fault Samples.ticking in
      let (r, s') := handler w Samples.live_alert Samples.alert_start in
      status r = 200%Z ->
      exists webhook bot row,
        webhook_lookup w Samples.live_alert Samples.alert_start = Some (webhook, Some bot)
        /\ trades (db s') = trades (db Samples.alert_start) ++ [row]
        /\ trade_user_id row = user_id webhook
        /\ trade_bot_id row = bot_id webhook
        /\ trade_created_at row = clock w (ticks s' - 2)
        /\ content r = OrderBody (trade_order_id row) (trade_status row) (test_mode bot)
        /\ bots (db s')
           = map (counted (bot_id webhook) (clock w (ticks s' - 1))
                          (next_trade_count (trade_count bot)))
                 (bots (db Samples.alert_start))).
Proof.
  split; [vm_compute; reflexivity|].
  apply (@served_alert_leaves_an_audit_trail
           (Samples.alert_world Samples.no_fault Samples.ticking)
           Samples.live_alert Samples.alert_start); reflexivity.
Defined.

(** X9.  The trade counter.  [bot.trade_count ? bot.trade_count + 1 : 1]
    adds one to a count up to [2^53 - 2], and starts at one from [null]
    (and from zero); at [2^53] the sum rounds back and the count stands
    still. *)
Theorem trade_count_increments :
  (forall n : Z, (0 <= n)%Z -> (n + 1 < 2 ^ 53)%Z ->
     next_trade_count (Some (of_Z n)) = of_Z (n + 1))
  /\ next_trade_count None = of_Z 1
  /\ next_trade_count (Some (of_Z (2 ^ 53))) = of_Z (2 ^ 53).
Proof.
  split; [|split; [reflexivity|vm_compute; reflexivity]].
  intros n H0 Hn. unfold next_trade_count.
  rewrite (@of_Z_small n) by lia.
  rewrite (@of_Z_small (n + 1)) by lia.
  destruct (Z.eq_dec n 0) as [->|Hz]; [reflexivity|].
  assert (T : JSNumber.truthy (Fin (inject_Z n)) = true).
  { simpl. destruct (Qeq_bool (inject_Z n) 0) eqn:E; [|reflexivity].
    apply Qeq_bool_iff in E. unfold Qeq in E. simpl in E. lia. }
  rewrite T. rewrite (@of_Z_small 1) by lia. apply add_small; lia.
Qed.

Lemma trade_count_witness :
  next_trade_count (Some (of_Z 7)) = of_Z 8.
Proof.
  apply (proj1 trade_count_increments 7%Z); [lia|reflexivity].
Defined.

(** X10.  Bodies that are not objects.  A JSON body that is a number, a
    text, a boolean or an array has none of the alert's fields: the run
    is the run of the same request carrying the empty object. *)
Theorem plain_body_is_the_empty_object :
  forall (w : world) (rq : request) (s : state) (v : value),
    json rq = Some v -> plain v = true ->
    handler w rq s = handler w (with_body rq (Some (VObj []))) s.
Proof.
  intros w rq s v Hj Hp. unfold handler. simpl method.
  assert (process w rq = process w (with_body rq (Some (VObj [])))) as ->; [|reflexivity].
  unfold process. simpl pathname. unfold alert_payload. simpl json. rewrite Hj.
  destruct v; try discriminate; reflexivity.
Qed.

Lemma plain_body_witness :
  let w := Samples.alert_world Samples.no_fault Samples.ticking in
  let rq := Samples.post Samples.sim_hook (Some (VStr "buy now")) in
  handler w rq Samples.alert_start
  = handler w (with_body rq (Some (VObj []))) Samples.alert_start.
Proof.
  apply (@plain_body_is_the_empty_object
           (Samples.alert_world Samples.no_fault Samples.ticking)
           (Samples.post Samples.sim_hook (Some (VStr "buy now")))
           Samples.alert_start (VStr "buy now")); reflexivity.
Defined.

(** X11.  The body [null], and a webhook without its bot.  Once the
    webhook and the API key are found, a body that is the JSON [null], or
    a webhook whose bot is gone, ends the run in a TypeError: the answer
    is 500, after the two selects and nothing else. *)
Theorem null_body_or_missing_bot_is_a_server_error :
  forall (w : world) (rq : request) (s : state) webhook bots key,
    configured w -> method rq = "POST" ->
    webhook_lookup w rq s = Some (webhook, bots) ->
    key_lookup w s (user_id webhook) = Some key ->
    json rq = Some VNull \/ bots = None ->
    handler w rq s
    = (respond 500 (ThrownBody TypeError), after_selects w rq s (user_id webhook)).
Proof.
  intros w rq s webhook bots key Hc Hm Hw Hk Hor.
  rewrite (alert_handler_post rq Hc Hm). unfold try_catch.
  rewrite (process_with_key w rq s Hw Hk). unfold bind at 1.
  assert (Hp : prepare w (alert_payload rq) bots key (after_selects w rq s (user_id webhook))
               = (Throw TypeError, after_selects w rq s (user_id webhook))).
  { cbv [prepare bind lift].
    destruct (get (alert_payload rq) "symbol") as [e|a] eqn:Eg.
    - destruct (alert_payload rq); simpl in Eg; inversion Eg; reflexivity.
    - destruct Hor as [Hj | ->]; [|reflexivity].
      unfold alert_payload in Eg. rewrite Hj in Eg. discriminate. }
  rewrite Hp. reflexivity.
Qed.

Lemma null_body_witness :
  handler (Samples.alert_world Samples.no_fault Samples.ticking)
    (Samples.post Samples.sim_hook (Some VNull)) MoreSamples.orphaned
  = (respond 500 (ThrownBody TypeError),
     after_selects (Samples.alert_world Samples.no_fault Samples.ticking)
       (Samples.post Samples.sim_hook (Some VNull)) MoreSamples.orphaned "user-1").
Proof.
  apply (@null_body_or_missing_bot_is_a_server_error
           (Samples.alert_world Samples.no_fault Samples.ticking)
           (Samples.post Samples.sim_hook (Some VNull)) MoreSamples.orphaned
           Samples.sim_webhook None Samples.live_key).
  - split; reflexivity.
  - reflexivity.
  - reflexivity.
  - reflexivity.
  - right. reflexivity.
Defined.

Lemma no_events (s : state) (events : list event) :
  trace s = trace s ++ events -> events = [].
Proof.
  intros H. rewrite <- (List.app_nil_r (trace s)) in H at 1.
  apply app_inv_head in H. now symmetry.
Qed.

(** X12.  What a submitted order rests on.  An order goes to the exchange
    only for a bot that is not in test mode, after the mainnet host has
    answered the metadata query for the order's symbol with [retCode] 0;
    the symbol is in upper case, and the quantity is the normalisation
    of the raw quantity (the alert's, else the bot's, else 0) against the
    lot filter of that answer, [minTrdAmt] and [stepSize] standing in
    for an absent [minOrderQty] and [qtyStep]. *)
Theorem submitted_order_is_normalised :
  forall (w : world) (rq : request) (s : state),
    let (r, s') := handler w rq s in
    forall events order,
      trace s' = trace s ++ events -> In (OrderSubmitted order) events ->
      exists webhook bot infoJson lot minQtyStr stepStr rawQty,
        let url := instruments_url (MAINNET_URL w) (op_symbol order) in
        webhook_lookup w rq s = Some (webhook, Some bot)
        /\ truthy (test_mode bot) = false
        /\ In (InstrumentsFetched url) events
        /\ instruments_info w url = inr infoJson
        /\ strict_eq_num (lookup_of infoJson "retCode") (Fin 0) = true
        /\ lot_filter infoJson = inr lot
        /\ get_nullish lot "minOrderQty" "minTrdAmt" = inr minQtyStr
        /\ get_nullish lot "qtyStep" "stepSize" = inr stepStr
        /\ raw_quantity (alert_payload rq) bot = inr rawQty
        /\ normalizeQty minQtyStr stepStr rawQty = inr (quantity order)
        /\ toUpperCase (op_symbol order) = op_symbol order.
Proof.
  intros w rq s. unfold handler.
  destruct (String.eqb (method rq) "OPTIONS") eqn:Eo.
  { intros events order Htr Hin. simpl in Htr. apply no_events in Htr. now subst. }
  destruct (String.eqb (method rq) "POST") eqn:Ep; cbn [negb].
  2:{ intros events order Htr Hin. simpl in Htr. apply no_events in Htr. now subst. }
  destruct (truthy (SUPABASE_URL w)) eqn:Eu; cbn [negb orb].
  2:{ intros events order Htr Hin. simpl in Htr. apply no_events in Htr. now subst. }
  destruct (truthy (SUPABASE_SERVICE_KEY w)) eqn:Ek; cbn [negb orb].
  2:{ intros events order Htr Hin. simpl in Htr. apply no_events in Htr. now subst. }
  unfold try_catch.
  destruct (webhook_lookup w rq s) as [[webhook bots]|] eqn:Hw.
  2:{ rewrite (process_not_found w rq s Hw). simpl. intros events order Htr Hin.
      apply app_inv_head in Htr. subst events. absent. }
  destruct (key_lookup w s (user_id webhook)) as [key|] eqn:Hk.
  2:{ rewrite (process_key_missing w rq s Hw Hk). simpl. intros events order Htr Hin.
      apply app_inv_head in Htr. subst events. absent. }
  rewrite (process_with_key w rq s Hw Hk). unfold bind at 1.
  destruct (prepare w (alert_payload rq) bots key (after_selects w rq s (user_id webhook)))
    as [out s1] eqn:Hp.
  destruct out as [[bot p] | r0 | e].
  2:{ destruct (prepare_outcomes w (alert_payload rq) bots key
                  (after_selects w rq s (user_id webhook)))
        as [out [s1' [Hp' [_ [_ Hout]]]]].
      rewrite Hp in Hp'. inversion Hp'; subst out s1'. contradiction. }
  2:{ destruct (prepare_outcomes w (alert_payload rq) bots key
                  (after_selects w rq s (user_id webhook)))
        as [out [s1' [Hp' [_ [_ Hout]]]]].
      rewrite Hp in Hp'. inversion Hp'; subst out s1'. simpl.
      intros events order Htr Hin.
      destruct Hout as [Ht | [url Ht]]; rewrite Ht in Htr; simpl in Htr;
        rewrite <- ?app_assoc in Htr; apply app_inv_head in Htr; subst events; absent. }
  pose proof Hp as Hp0.
  apply prepare_order in Hp.
  destruct Hp as [symbol [infoJson [lot [minQtyStr [stepStr [rawQty [adjustedQty Hp]]]]]]].
  cbv zeta in Hp.
  destruct Hp as [Hb [Htr1 [Hi [Hrc [Hlot [Hmin [Hstep [Hraw [Hn [Hpar Hup]]]]]]]]]].
  subst bots. simpl in Htr1. rewrite <- app_assoc in Htr1. simpl in Htr1.
  assert (Hti : ticks s1 = S (ticks s)).
  { destruct (prepare_outcomes w (alert_payload rq) (Some bot) key
                (after_selects w rq s (user_id webhook)))
      as [out [s1' [Hp' [_ [Hti _]]]]].
    rewrite Hp0 in Hp'. inversion Hp'; subst. exact Hti. }
  unfold bind at 1.
  destruct (truthy (test_mode bot)) eqn:Ht.
  - rewrite (dispatch_test_mode w bot p s1 Ht).
    assert (Hr : readable (test_order p (clock w (ticks s1)))) by (split; discriminate).
    rewrite (audit_outcomes w webhook bot _ Hr). simpl.
    intros events order Htr Hin. rewrite Htr1, <- app_assoc in Htr.
    apply app_inv_head in Htr. subst events. absent.
  - assert (Hgoal : forall events order,
              In (OrderSubmitted order) events ->
              (exists rest, events
                 = [WebhookSelected (last_segment (pathname rq)) (clock w (ticks s));
                    ApiKeySelected (user_id webhook);
                    InstrumentsFetched (instruments_url (MAINNET_URL w) symbol);
                    OrderSubmitted p] ++ rest
                 /\ forall q, ~ In (OrderSubmitted q) rest) ->
              exists webhook0 bot0 infoJson0 lot0 minQtyStr0 stepStr0 rawQty0,
                let url := instruments_url (MAINNET_URL w) (op_symbol order) in
                Some (webhook, Some bot) = Some (webhook0, Some bot0)
                /\ truthy (test_mode bot0) = false
                /\ In (InstrumentsFetched url) events
                /\ instruments_info w url = inr infoJson0
                /\ strict_eq_num (lookup_of infoJson0 "retCode") (Fin 0) = true
                /\ lot_filter infoJson0 = inr lot0
                /\ get_nullish lot0 "minOrderQty" "minTrdAmt" = inr minQtyStr0
                /\ get_nullish lot0 "qtyStep" "stepSize" = inr stepStr0
                /\ raw_quantity (alert_payload rq) bot0 = inr rawQty0
                /\ normalizeQty minQtyStr0 stepStr0 rawQty0 = inr (quantity order)
                /\ toUpperCase (op_symbol order) = op_symbol order).
    { intros events order Hin [rest [He Hrest]]. subst events.
      assert (order = p).
      { simpl in Hin. destruct Hin as [H|[H|[H|[H|H]]]]; try discriminate.
        - now inversion H.
        - exfalso. exact (Hrest _ H). }
      subst order. exists webhook, bot, infoJson, lot, minQtyStr, stepStr, rawQty. cbv zeta.
      assert (Es : op_symbol p = symbol) by (rewrite Hpar; reflexivity).
      assert (Eq : quantity p = adjustedQty) by (rewrite Hpar; reflexivity).
      rewrite Es, Eq. repeat split; try assumption.
      simpl. auto. }
    rewrite (dispatch_live w bot p s1 Ht).
    destruct (executeBybitOrder w p) as [e|o] eqn:He.
    + simpl. intros events order Htr Hin. rewrite Htr1, <- app_assoc in Htr.
      apply app_inv_head in Htr. apply (Hgoal events order Hin).
      exists []. split; [now subst events|]. intros q [].
    + destruct (readable_value o) as [Hr|Hr].
      * rewrite (audit_outcomes w webhook bot _ Hr). simpl.
        intros events order Htr Hin. rewrite Htr1, <- !app_assoc in Htr.
        apply app_inv_head in Htr. apply (Hgoal events order Hin).
        eexists. split; [subst events; reflexivity|]. intros q. absent.
      * rewrite (audit_throws w webhook bot _ Hr). simpl.
        intros events order Htr Hin. rewrite Htr1, <- app_assoc in Htr.
        apply app_inv_head in Htr. apply (Hgoal events order Hin).
        exists []. split; [now subst events|]. intros q [].
Qed.

Lemma submitted_order_witness :
  let w := Samples.alert_world Samples.no_fault Samples.ticking in
  trace (snd (handler w Samples.live_alert Samples.alert_start))
  = trace Samples.alert_start ++ MoreSamples.live_events
  /\ In (OrderSubmitted Samples.live_order) MoreSamples.live_events
  /\ exists webhook bot infoJson lot minQtyStr stepStr rawQty,
       let url := instruments_url (MAINNET_URL w) (op_symbol Samples.live_order) in
       webhook_lookup w Samples.live_alert Samples.alert_start = Some (webhook, Some bot)
       /\ truthy (test_mode bot) = false
       /\ In (InstrumentsFetched url) MoreSamples.live_events
       /\ instruments_info w url = inr infoJson
       /\ strict_eq_num (lookup_of infoJson "retCode") (Fin 0) = true
       /\ lot_filter infoJson = inr lot
       /\ get_nullish lot "minOrderQty" "minTrdAmt" = inr minQtyStr
       /\ get_nullish lot "qtyStep" "stepSize" = inr stepStr
       /\ raw_quantity (alert_payload Samples.live_alert) bot = inr rawQty
       /\ normalizeQty minQtyStr stepStr rawQty = inr (quantity Samples.live_order)
       /\ toUpperCase (op_symbol Samples.live_order) = op_symbol Samples.live_order.
Proof.
  intros w.
  assert (Htr : trace (snd (handler w Samples.live_alert Samples.alert_start))
                = trace Samples.alert_start ++ MoreSamples.live_events)
    by (vm_compute; reflexivity).
  assert (Hin : In (OrderSubmitted Samples.live_order) MoreSamples.live_events)
    by (vm_compute; auto).
  split; [exact Htr|]. split; [exact Hin|].
  pose proof (submitted_order_is_normalised w Samples.live_alert Samples.alert_start) as H.
  destruct (handler w Samples.live_alert Samples.alert_start) as [r s'].
  exact (H MoreSamples.live_events Samples.live_order Htr Hin).
Defined.

(** ** Replays and interleavings *)

(** The order [prepare] yields does not depend on the state it starts
    in, nor on the counters of the bot. *)
Lemma prepare_agree (w : world) (a : value) (key : api_key_row) (bot bot' : bot_row)
    (s s' s1 s1' : state) (b b' : bot_row) (p p' : orderParams) :
  settings bot' = settings bot ->
  prepare w a (Some bot) key s = (Val (b, p), s1) ->
  prepare w a (Some bot') key s' = (Val (b', p'), s1') ->
  p' = p.
Proof.
  intros Hs H1 H2. destruct bot, bot'. unfold settings in Hs. cbn in Hs.
  inversion Hs; subst. clear Hs. revert H1 H2.
  cbv [prepare bind lift fetch_instruments emit ret throw the_bot].
  cbn [Database.symbol test_mode default_quantity].
  repeat lazymatch goal with
  | |- context [match ?x with inl _ => _ | inr _ => _ end] =>
      destruct x eqn:?; cbv beta iota
  | |- context [if negb ?b then _ else _] => destruct b eqn:?; cbv beta iota delta [negb]
  end.
  all: intros H1 H2; try discriminate.
  inversion H1; inversion H2; reflexivity.
Qed.

Lemma find_counted (bid i : string) (t : Z) (c : number) (l : list bot_row) :
  find (fun b => String.eqb (id b) i) (map (counted bid t c) l)
  = option_map (counted bid t c) (find (fun b => String.eqb (id b) i) l).
Proof.
  induction l as [|b l IH]; simpl; [reflexivity|].
  assert (E : id (counted bid t c b) = id b).
  { unfold counted. destruct (String.eqb (id b) bid); reflexivity. }
  rewrite E. destruct (String.eqb (id b) i); [reflexivity|exact IH].
Qed.

(** Two selects of the same token in the same table, at whatever two
    clock readings, yield the same row. *)
Lemma same_row (d d' : database) (token : string) (now now' : Z) row row' bots bots' :
  webhooks d' = webhooks d ->
  select_webhook d token now = Some (row, bots) ->
  select_webhook d' token now' = Some (row', bots') ->
  row' = row.
Proof.
  intros Hw H1 H2.
  apply select_webhook_sound in H1. destruct H1 as [A1 [A2 [A3 [_ A5]]]].
  apply select_webhook_sound in H2. destruct H2 as [B1 [B2 [B3 [_ B5]]]].
  rewrite Hw in B1, B5.
  destruct (Z_lt_le_dec now (expires_at row')) as [L|L]; [now apply A5|].
  destruct (Z_lt_le_dec now' (expires_at row)) as [L'|L'].
  - symmetry. now apply B5.
  - lia.
Qed.

Lemma orders_of_served (pre post : list event) (sim : bool) (order : orderParams) :
  orders_of pre = [] -> orders_of post = [] ->
  orders_of (pre ++ (if sim then [] else [OrderSubmitted order]) ++ post)
  = if sim then [] else [order].
Proof.
  intros Hpre Hpost.
  assert (A : forall l l', orders_of (l ++ l') = orders_of l ++ orders_of l').
  { induction l as [|e l IH]; intros l'; [reflexivity|].
    destruct e; simpl; rewrite IH; reflexivity. }
  rewrite !A, Hpre, Hpost. destruct sim; reflexivity.
Qed.

(** X13.  An alert replayed.  Nothing marks an alert as already processed:
    when the same request is served twice in a row, the second run
    submits to the exchange the very order the first run submitted, and
    (the insert working) a second trade is logged. *)
Theorem replayed_alert_is_executed_again :
  forall (w : world) (rq : request) (s : state),
    let (r1, s1) := handler w rq s in
    let (r2, s2) := handler w rq s1 in
    status r1 = 200%Z -> status r2 = 200%Z ->
    exists webhook bot order events1 events2,
      webhook_lookup w rq s = Some (webhook, Some bot)
      /\ trace s1 = trace s ++ events1
      /\ trace s2 = trace s1 ++ events2
      /\ orders_of events1 = (if truthy (test_mode bot) then [] else [order])
      /\ orders_of events2 = orders_of events1
      /\ (db_fault w InsertTrade = false ->
          exists row1 row2, trades (db s2) = trades (db s) ++ [row1; row2]).
Proof.
  intros w rq s.
  pose proof (handler_runs w rq s) as H1. destruct (handler w rq s) as [r1 s1].
  pose proof (handler_runs w rq s1) as H2. destruct (handler w rq s1) as [r2 s2].
  intros E1 E2.
  destruct H1 as [events Hst Hdb Htr Hk
                 | wh1 bot1 key1 order1 o1 url1 Hc Hm Hw1 Hk1 Hr1 Hpar1 [mid1 Hp1]
                   sim1 n1 Hd1 Hresp1 Hdb1 Hti1 Htr1]; [contradiction|].
  destruct H2 as [events Hst Hdb Htr Hk
                 | wh2 bot2 key2 order2 o2 url2 _ _ Hw2 Hk2 Hr2 Hpar2 [mid2 Hp2]
                   sim2 n2 Hd2 Hresp2 Hdb2 Hti2 Htr2]; [contradiction|].
  destruct (logged_frame w wh1 bot1 o1 (clock w (S n1)) (clock w (S (S n1))) (db s))
    as [F1 [F2 [F3 F4]]].
  rewrite <- Hdb1 in F1, F2, F3, F4.
  (* the same webhook *)
  assert (Ew : wh2 = wh1).
  { unfold webhook_lookup in Hw1, Hw2.
    destruct (db_fault w SelectWebhook); [discriminate|].
    exact (same_row _ _ _ _ _ F1 Hw1 Hw2). }
  subst wh2.
  (* its bot, perhaps counted *)
  assert (Es : settings bot2 = settings bot1).
  { unfold webhook_lookup in Hw1, Hw2.
    destruct (db_fault w SelectWebhook); [discriminate|].
    apply select_webhook_sound in Hw1. destruct Hw1 as [_ [_ [_ [B1 _]]]].
    apply select_webhook_sound in Hw2. destruct Hw2 as [_ [_ [_ [B2 _]]]].
    unfold embedded_bot in B1, B2. rewrite F4 in B2.
    destruct (db_fault w UpdateBot).
    - rewrite <- B1 in B2. now inversion B2.
    - rewrite find_counted, <- B1 in B2. simpl in B2. inversion B2.
      apply settings_counted. }
  (* the same key *)
  assert (Ek : key2 = key1).
  { unfold key_lookup in Hk1, Hk2.
    destruct (db_fault w SelectApiKey); [discriminate|].
    unfold select_api_key in Hk1, Hk2. rewrite F2, Hk1 in Hk2. now inversion Hk2. }
  subst key2.
  assert (Eo : order2 = order1)
    by (eapply prepare_agree; [exact Es|exact Hp1|exact Hp2]).
  assert (Et : test_mode bot2 = test_mode bot1).
  { unfold settings in Es. inversion Es. reflexivity. }
  subst order2.
  exists wh1, bot1, order1. do 2 eexists.
  split; [unfold webhook_lookup in *; exact Hw1|].
  split; [exact Htr1|]. split; [exact Htr2|].
  assert (O1 : forall (e1 e2 e3 : event) (sim : bool) (tail : list event),
            orders_of [e1; e2; e3] = [] -> orders_of tail = [] ->
            orders_of ([e1; e2; e3] ++ (if sim then [] else [OrderSubmitted order1]) ++ tail)
            = if sim then [] else [order1]).
  { intros. now apply orders_of_served. }
  split; [apply O1; reflexivity|].
  split.
  - rewrite !O1 by reflexivity. unfold sim2, sim1. now rewrite Et.
  - intros Fi.
    destruct (logged_frame w wh1 bot2 o2 (clock w (S n2)) (clock w (S (S n2))) (db s1))
      as [_ [_ [G3 _]]].
    rewrite Hdb2, G3, Fi, F3, Fi, <- app_assoc. do 2 eexists. reflexivity.
Qed.

Lemma replayed_alert_witness :
  let w := Samples.alert_world Samples.no_fault Samples.ticking in
  status (fst (handler w Samples.live_alert Samples.alert_start)) = 200%Z
  /\ status (fst (handler w Samples.live_alert
                    (snd (handler w Samples.live_alert Samples.alert_start)))) = 200%Z
  /\ (let (r1, s1) := handler w Samples.live_alert Samples.alert_start in
      let (r2, s2) := handler w Samples.live_alert s1 in
      status r1 = 200%Z -> status r2 = 200%Z ->
      exists webhook bot order events1 events2,
        webhook_lookup w Samples.live_alert Samples.alert_start = Some (webhook, Some bot)
        /\ trace s1 = trace Samples.alert_start ++ events1
        /\ trace s2 = trace s1 ++ events2
        /\ orders_of events1 = (if truthy (test_mode bot) then [] else [order])
        /\ orders_of events2 = orders_of events1
        /\ (db_fault w InsertTrade = false ->
            exists row1 row2,
              trades (db s2) = trades (db Samples.alert_start) ++ [row1; row2])).
Proof.
  intros w. split; [vm_compute; reflexivity|]. split; [vm_compute; reflexivity|].
  exact (replayed_alert_is_executed_again w Samples.live_alert Samples.alert_start).
Defined.

(** X14.  Two alerts at once.  The new trade count is computed from the
    bot as the run read it with the webhook.  When two runs have both read
    the bot before either audits, the two audits log two trades and
    leave the count one above what both read: one trade is not
    counted. *)
Theorem interleaved_alerts_count_once :
  forall (w : world) (webhook : webhook_row) (bot : bot_row) (o1 o2 : value) (s : state),
    readable o1 -> readable o2 ->
    db_fault w InsertTrade = false -> db_fault w UpdateBot = false ->
    let s1 := snd (audit w webhook bot o1 s) in
    let s2 := snd (audit w webhook bot o2 s1) in
    (exists row1 row2, trades (db s2) = trades (db s) ++ [row1; row2])
    /\ forall b, In b (bots (db s2)) -> id b = bot_id webhook ->
                 trade_count b = Some (next_trade_count (trade_count bot)).
Proof.
  intros w webhook bot o1 o2 s R1 R2 Fi Fu s1 s2. unfold s2, s1.
  rewrite (audit_outcomes w webhook bot s R1). cbn [snd].
  rewrite (audit_outcomes w webhook bot _ R2). cbn [snd db ticks].
  unfold logged. rewrite Fi, Fu. cbn [trades insert_trade update_bot bots]. split.
  - rewrite <- app_assoc. do 2 eexists. reflexivity.
  - intros b Hb Hid. apply in_map_iff in Hb. destruct Hb as [b0 [E _]].
    subst b. unfold counted in *.
    destruct (String.eqb_spec (id b0) (bot_id webhook)) as [Y|N]; [reflexivity|].
    contradiction.
Qed.

Lemma interleaved_alerts_witness :
  let w := Samples.alert_world Samples.no_fault Samples.ticking in
  let o := Samples.filled Samples.live_order in
  let s1 := snd (audit w MoreSamples.live_webhook Samples.live_bot o Samples.alert_start) in
  let s2 := snd (audit w MoreSamples.live_webhook Samples.live_bot o s1) in
  (exists row1 row2, trades (db s2) = trades (db Samples.alert_start) ++ [row1; row2])
  /\ forall b, In b (bots (db s2)) -> id b = bot_id MoreSamples.live_webhook ->
               trade_count b = Some (next_trade_count (trade_count Samples.live_bot)).
Proof.
  apply (@interleaved_alerts_count_once
           (Samples.alert_world Samples.no_fault Samples.ticking)
           MoreSamples.live_webhook Samples.live_bot
           (Samples.filled Samples.live_order) (Samples.filled Samples.live_order)
           Samples.alert_start).
  - split; discriminate.
  - split; discriminate.
  - reflexivity.
  - reflexivity.
Defined.

(** ** The host of the metadata query *)

(** When [prepare] fetches, it fetches from the host of the bot's
    mode, for a symbol in upper case. *)
Lemma prepare_fetches (w : world) (alertData : value) (bots : option bot_row)
    (key : api_key_row) (s : state) :
  exists out s',
    prepare w alertData bots key s = (out, s')
    /\ (trace s' = trace s
        \/ exists bot symbol,
             bots = Some bot /\ toUpperCase symbol = symbol
             /\ trace s' = trace s
                           ++ [InstrumentsFetched (instruments_url (host_of w bot) symbol)]).
Proof.
  cbv [prepare bind lift fetch_instruments emit ret throw].
  destruct (get alertData "symbol") as [e|a_symbol] eqn:E1; cbv beta iota;
    [do 2 eexists; split; [reflexivity|now left]|].
  destruct (the_bot bots) as [e|bot] eqn:E2; cbv beta iota;
    [do 2 eexists; split; [reflexivity|now left]|].
  destruct (upper _) as [e|symbol] eqn:E3; cbv beta iota;
    [do 2 eexists; split; [reflexivity|now left]|].
  assert (Hb : bots = Some bot).
  { destruct bots; simpl in E2; inversion E2; reflexivity. }
  assert (Hu : toUpperCase symbol = symbol).
  { unfold upper in E3. destruct (or _ _); try discriminate.
    inversion E3. apply upper_upper. }
  repeat lazymatch goal with
  | |- context [match ?x with inl _ => _ | inr _ => _ end] =>
      destruct x eqn:?; cbv beta iota
  | |- context [if negb ?b then _ else _] => destruct b eqn:?; cbv beta iota delta [negb]
  end.
  all: do 2 eexists; split; [reflexivity|right; exists bot, symbol; simpl; auto].
Qed.

(** After [prepare], nothing is fetched. *)
Lemma dispatch_and_audit_events (w : world) (webhook : webhook_row) (bot : bot_row)
    (p : orderParams) (s : state) :
  exists out s' rest,
    bind (dispatch w bot p) (audit w webhook bot) s = (out, s')
    /\ trace s' = trace s ++ rest
    /\ forall url, ~ In (InstrumentsFetched url) rest.
Proof.
  unfold bind at 1.
  destruct (truthy (test_mode bot)) eqn:Ht.
  - rewrite (dispatch_test_mode w bot p s Ht).
    assert (Hr : readable (test_order p (clock w (ticks s)))) by (split; discriminate).
    rewrite (audit_outcomes w webhook bot _ Hr).
    do 3 eexists. split; [reflexivity|]. split; [reflexivity|]. absent.
  - rewrite (dispatch_live w bot p s Ht).
    destruct (executeBybitOrder w p) as [e|o].
    + do 3 eexists. split; [reflexivity|]. split; [reflexivity|]. absent.
    + destruct (readable_value o) as [Hr|Hr].
      * rewrite (audit_outcomes w webhook bot _ Hr).
        do 3 eexists. split; [reflexivity|]. simpl.
        split; [rewrite <- app_assoc; reflexivity|]. absent.
      * rewrite (audit_throws w webhook bot _ Hr).
        do 3 eexists. split; [reflexivity|]. split; [reflexivity|]. absent.
Qed.

(** X15.  The host of the metadata query.  Whatever a run fetches, it
    fetches for the bot of a resolved webhook, for a symbol in upper
    case, from the testnet host when the bot is in test mode and from the
    mainnet host when it is not. *)
Theorem metadata_host_follows_test_mode :
  forall (w : world) (rq : request) (s : state),
    let (r, s') := handler w rq s in
    forall events url,
      trace s' = trace s ++ events -> In (InstrumentsFetched url) events ->
      exists webhook bot symbol,
        webhook_lookup w rq s = Some (webhook, Some bot)
        /\ url = instruments_url (if truthy (test_mode bot) then TESTNET_URL w
                                  else MAINNET_URL w) symbol
        /\ toUpperCase symbol = symbol.
Proof.
  intros w rq s. unfold handler.
  destruct (String.eqb (method rq) "OPTIONS") eqn:Eo.
  { intros events url Htr Hin. simpl in Htr. apply no_events in Htr. now subst. }
  destruct (String.eqb (method rq) "POST") eqn:Ep; cbn [negb].
  2:{ intros events url Htr Hin. simpl in Htr. apply no_events in Htr. now subst. }
  destruct (truthy (SUPABASE_URL w)) eqn:Eu; cbn [negb orb].
  2:{ intros events url Htr Hin. simpl in Htr. apply no_events in Htr. now subst. }
  destruct (truthy (SUPABASE_SERVICE_KEY w)) eqn:Ek; cbn [negb orb].
  2:{ intros events url Htr Hin. simpl in Htr. apply no_events in Htr. now subst. }
  unfold try_catch.
  destruct (webhook_lookup w rq s) as [[webhook bots]|] eqn:Hw.
  2:{ rewrite (process_not_found w rq s Hw). simpl. intros events url Htr Hin.
      apply app_inv_head in Htr. subst events. absent. }
  destruct (key_lookup w s (user_id webhook)) as [key|] eqn:Hk.
  2:{ rewrite (process_key_missing w rq s Hw Hk). simpl. intros events url Htr Hin.
      apply app_inv_head in Htr. subst events. absent. }
  rewrite (process_with_key w rq s Hw Hk). unfold bind at 1.
  destruct (prepare_fetches w (alert_payload rq) bots key
              (after_selects w rq s (user_id webhook)))
    as [out [s1 [Hp Hf]]].
  rewrite Hp.
  assert (Hpre : forall events url,
            trace s1 = trace s ++ events -> In (InstrumentsFetched url) events ->
            exists webhook0 bot symbol,
              Some (webhook, bots) = Some (webhook0, Some bot)
              /\ url = instruments_url (host_of w bot) symbol
              /\ toUpperCase symbol = symbol).
  { intros events url Htr Hin.
    destruct Hf as [Hf | [bot [symbol [Hb [Hu Hf]]]]]; rewrite Hf in Htr; simpl in Htr;
      rewrite <- ?app_assoc in Htr; apply app_inv_head in Htr; subst events.
    - absent.
    - simpl in Hin. destruct Hin as [H|[H|[H|[]]]]; try discriminate.
      inversion H. subst bots. exists webhook, bot, symbol. repeat split; assumption. }
  destruct out as [[bot p] | r0 | e].
  - destruct (dispatch_and_audit_events w webhook bot p s1) as [out [s2 [rest [Hd [Htr2 Hno]]]]].
    change ((let* x := dispatch w bot p in audit w webhook bot x)%eff s1)
      with (bind (dispatch w bot p) (audit w webhook bot) s1).
    rewrite Hd.
    assert (Hs1 : exists pre, trace s1 = trace s ++ pre).
    { destruct Hf as [Hf | [b [sy [_ [_ Hf]]]]]; rewrite Hf; simpl;
        rewrite <- ?app_assoc; eexists; reflexivity. }
    destruct Hs1 as [pre Hs1].
    assert (Hall : forall events url,
              trace s2 = trace s ++ events -> In (InstrumentsFetched url) events ->
              exists webhook0 bot0 symbol,
                Some (webhook, bots) = Some (webhook0, Some bot0)
                /\ url = instruments_url (host_of w bot0) symbol
                /\ toUpperCase symbol = symbol).
    { intros events url Htr Hin. rewrite Htr2, Hs1, <- app_assoc in Htr.
      apply app_inv_head in Htr. subst events.
      apply in_app_or in Hin. destruct Hin as [Hin|Hin]; [|exfalso; exact (Hno _ Hin)].
      exact (Hpre pre url Hs1 Hin). }
    destruct out; simpl; exact Hall.
  - simpl. exact Hpre.
  - simpl. exact Hpre.
Qed.

Lemma metadata_host_witness :
  let w := Samples.alert_world Samples.no_fault Samples.ticking in
  exists webhook bot symbol,
    webhook_lookup w (Samples.post Samples.sim_hook None) Samples.alert_start
    = Some (webhook, Some bot)
    /\ "https://api-testnet.bybit.com/v5/market/instruments-info?symbol=SOLUSDT&category=linear"
       = instruments_url (if truthy (test_mode bot) then TESTNET_URL w
                          else MAINNET_URL w) symbol
    /\ toUpperCase symbol = symbol.
Proof.
  intros w.
  pose proof (metadata_host_follows_test_mode w (Samples.post Samples.sim_hook None)
                Samples.alert_start) as H.
  destruct (handler w (Samples.post Samples.sim_hook None) Samples.alert_start)
    as [r s'] eqn:E.
  assert (Es : s' = snd (handler w (Samples.post Samples.sim_hook None) Samples.alert_start))
    by (rewrite E; reflexivity).
  apply (H (trace s')
           "https://api-testnet.bybit.com/v5/market/instruments-info?symbol=SOLUSDT&category=linear").
  - reflexivity.
  - rewrite Es. vm_compute. auto.
Defined.

End AlertRunFacts.

Module StatusFacts.

Import JSNumber JSString JSValue JSDate Http Database Eff ProcessAlert.
Import AlertNotions ValueFacts AlertFacts RunNotions AlertRunFacts.
Local Open Scope string_scope.
Local Open Scope list_scope.

(** The status of the answer, by the step the run reaches. *)
Lemma handler_status (w : world) (rq : request) (s : state) :
  configured w -> method rq = "POST" ->
  exists code,
    status (fst (handler w rq s)) = code
    /\ match webhook_lookup w rq s with
       | None => code = 404%Z
       | Some (webhook, _) =>
           match key_lookup w s (user_id webhook) with
           | None => code = 400%Z
           | Some _ => code = 500%Z \/ code = 200%Z
           end
       end.
Proof.
  intros Hc Hm. rewrite (alert_handler_post rq Hc Hm). unfold try_catch.
  destruct (webhook_lookup w rq s) as [[webhook bots]|] eqn:Hw.
  2:{ rewrite (process_not_found w rq s Hw). eexists. split; reflexivity. }
  destruct (key_lookup w s (user_id webhook)) as [key|] eqn:Hk.
  2:{ rewrite (process_key_missing w rq s Hw Hk). eexists. split; reflexivity. }
  rewrite (process_with_key w rq s Hw Hk). unfold bind at 1.
  destruct (prepare_outcomes w (alert_payload rq) bots key
              (after_selects w rq s (user_id webhook)))
    as [out [s1 [Hp [Hdb [Hti Hout]]]]].
  rewrite Hp.
  destruct out as [[bot p] | r0 | e]; [|contradiction|eexists; split; [reflexivity|now left]].
  unfold bind at 1.
  destruct (truthy (test_mode bot)) eqn:Ht.
  - rewrite (dispatch_test_mode w bot p s1 Ht).
    assert (Hr : readable (test_order p (clock w (ticks s1)))) by (split; discriminate).
    rewrite (audit_outcomes w webhook bot _ Hr). eexists; split; [reflexivity|now right].
  - rewrite (dispatch_live w bot p s1 Ht).
    destruct (executeBybitOrder w p) as [e|o]; [eexists; split; [reflexivity|now left]|].
    destruct (readable_value o) as [Hr|Hr].
    + rewrite (audit_outcomes w webhook bot _ Hr). eexists; split; [reflexivity|now right].
    + rewrite (audit_throws w webhook bot _ Hr). eexists; split; [reflexivity|now left].
Qed.

(** X16.  The error statuses name the failing step.  To a POST, with the
    environment set, the handler answers 404 exactly when the token does
    not resolve, 400 exactly when it resolves and the user's API key is
    not found, and otherwise 500 or 200. *)
Theorem alert_status_names_the_failing_step :
  forall (w : world) (rq : request) (s : state),
    configured w -> method rq = "POST" ->
    let r := fst (handler w rq s) in
    (status r = 404%Z <-> webhook_lookup w rq s = None)
    /\ (status r = 400%Z <->
        exists webhook bots, webhook_lookup w rq s = Some (webhook, bots)
                             /\ key_lookup w s (user_id webhook) = None)
    /\ (status r = 404 \/ status r = 400 \/ status r = 500 \/ status r = 200)%Z.
Proof.
  intros w rq s Hc Hm r. destruct (@handler_status w rq s Hc Hm) as [code [E H]].
  fold r in E. rewrite E. clear E.
  destruct (webhook_lookup w rq s) as [[webhook bots]|].
  2:{ rewrite H. repeat split; auto; try discriminate. intros [? [? [? _]]]. discriminate. }
  destruct (key_lookup w s (user_id webhook)) as [key|] eqn:Hk.
  - repeat split; try (intros X; destruct H as [H|H]; rewrite H in X; discriminate);
      try discriminate.
    + intros [wh [b [E K]]]. inversion E; subst. congruence.
    + destruct H as [H|H]; rewrite H; auto.
  - rewrite H. repeat split; auto; try discriminate.
    intros _. exists webhook, bots. split; [reflexivity|exact Hk].
Qed.

Lemma alert_status_witness :
  let r := fst (handler (Samples.alert_world Samples.no_fault Samples.ticking)
                  (Samples.post "/.netlify/functions/processAlert/tok-old" None)
                  Samples.alert_start) in
  (status r = 404%Z <->
   webhook_lookup (Samples.alert_world Samples.no_fault Samples.ticking)
     (Samples.post "/.netlify/functions/processAlert/tok-old" None) Samples.alert_start = None)
  /\ (status r = 400%Z <->
      exists webhook bots,
        webhook_lookup (Samples.alert_world Samples.no_fault Samples.ticking)
          (Samples.post "/.netlify/functions/processAlert/tok-old" None) Samples.alert_start
        = Some (webhook, bots)
        /\ key_lookup (Samples.alert_world Samples.no_fault Samples.ticking)
             Samples.alert_start (user_id webhook) = None)
  /\ (status r = 404 \/ status r = 400 \/ status r = 500 \/ status r = 200)%Z.
Proof.
  apply (@alert_status_names_the_failing_step
           (Samples.alert_world Samples.no_fault Samples.ticking)
           (Samples.post "/.netlify/functions/processAlert/tok-old" None)
           Samples.alert_start).
  - split; reflexivity.
  - reflexivity.
Defined.

End StatusFacts.

(* ================================================================== *)
(** * Whole runs of the webhook issuer *)
(* ================================================================== *)

Module IssueFacts.

Import JSNumber JSString JSValue JSDate Http Database Eff GenerateWebhook.
Import WebhookNotions ValueFacts NumberFacts CalendarFacts WebhookFacts.
Import IntegerFacts IssueNotions.
Local Open Scope string_scope.
Local Open Scope list_scope.

(** The run of a POST whose body carries both identifiers. *)
Lemma generate_outcome (w : world) (rq : request) (s : state) (body : value) :
  configured w -> method rq = "POST" ->
  json rq = Some body -> loggable body ->
  truthy (lookup_of body "userId") = true -> truthy (lookup_of body "botId") = true ->
  handler w rq s
  = match expiration w (clock w (ticks s)) (days_of body) with
    | None => (respond 500 (ThrownBody RangeError),
               {| db := db s; ticks := S (ticks s); trace := trace s |})
    | Some expiry =>
        let e := WebhookInsertIssued (lookup_of body "userId") (lookup_of body "botId")
                   (nanoid (entropy w) 32) expiry (clock w (S (ticks s))) in
        match db_fault w InsertWebhook, lookup_of body "userId", lookup_of body "botId" with
        | false, VStr uid, VStr bid =>
            (respond 200 (WebhookBody (callback rq (nanoid (entropy w) 32))
                                      (toISOString expiry)),
             {| db := insert_webhook (db s) (issued w s uid bid expiry);
                ticks := S (S (ticks s)); trace := trace s ++ [e] |})
        | _, _, _ =>
            (respond 500 (ThrownBody DatabaseError),
             {| db := db s; ticks := S (S (ticks s)); trace := trace s ++ [e] |})
        end
    end.
Proof.
  intros Hc Hm Hj [Pu [Pb Pd]] Hu Hb.
  rewrite (webhook_handler_post rq Hc Hm). unfold try_catch.
  cbv [generate bind lift ret throw return_ date_now issue_webhook_insert emit write].
  rewrite Hj. cbv beta iota.
  assert (Hr : readable body).
  { destruct body; try discriminate; split; discriminate. }
  unfold destructure. rewrite (get_readable "userId" Hr). cbv beta iota.
  rewrite <- prints_days in Pd.
  destruct (request_line_prints w _ _ _ Pu Pb Pd) as [line ->]. cbv beta iota.
  fold (days_of body). rewrite Hu, Hb. cbv beta iota delta [negb orb].
  cbn [ticks db trace].
  destruct (expiration w (clock w (ticks s)) (days_of body)) as [expiry|];
    cbv beta iota delta [iso]; [|reflexivity].
  cbn [ticks db trace].
  destruct (db_fault w InsertWebhook); cbv beta iota.
  - destruct (lookup_of body "userId"), (lookup_of body "botId"); reflexivity.
  - destruct (lookup_of body "userId") as [| | | |uid| |]; try reflexivity.
    destruct (lookup_of body "botId") as [| | | |bid| |]; reflexivity.
Qed.

Lemma truncate_int (n : Z) : truncate (inject_Z n) = n.
Proof.
  unfold truncate. destruct (Qle_bool 0 (inject_Z n)) eqn:E.
  - apply Qfloor_Z.
  - change (- inject_Z n)%Q with (inject_Z (- n)). rewrite Qfloor_Z. lia.
Qed.

(** Days given as a number move the date by as many days. *)
Lemma expiration_days (w : world) (t : Z) (body : value) (n : Z) :
  days_given body n -> (- 2 ^ 52 < n < 2 ^ 52)%Z ->
  expiration w t (days_of body)
  = TimeClip (UTC (zone w) (LocalTime (zone w) t + n * msPerDay)).
Proof.
  intros Hg Hn. unfold expiration, days_of, days_given in *.
  pose proof (DateFromTime_bounds (LocalTime (zone w) t)) as Hd.
  fold (getDate (zone w) t) in Hd.
  assert (A : forall k, (- 2 ^ 52 < k < 2 ^ 52)%Z ->
            add (of_Z (getDate (zone w) t)) (of_Z k)
            = Fin (inject_Z (getDate (zone w) t + k))).
  { intros k Hk. rewrite !of_Z_exact by lia. apply add_exact. lia. }
  assert (S : forall k, (- 2 ^ 52 < k < 2 ^ 52)%Z ->
            match add (of_Z (getDate (zone w) t)) (of_Z k) with
            | Fin q => setDate (zone w) t (truncate q)
            | _ => None
            end = TimeClip (UTC (zone w) (LocalTime (zone w) t + k * msPerDay))).
  { intros k Hk. rewrite (A k Hk), truncate_int. apply setDate_shift. }
  destruct (lookup_of body "expirationDays") as [| |b|x| | |]; try contradiction;
    subst; cbv [date_plus].
  - apply S. lia.
  - apply (S 0%Z). lia.
  - destruct b; apply S; lia.
  - apply S. lia.
Qed.

(** Every run of the issuer: an answer other than 200 with the tables
    untouched, or the run that stores the webhook. *)
Lemma issuer_runs (w : world) (rq : request) (s : state) :
  (status (fst (handler w rq s)) <> 200%Z /\ db (snd (handler w rq s)) = db s)
  \/ exists body uid bid expiry,
       json rq = Some body
       /\ lookup_of body "userId" = VStr uid
       /\ lookup_of body "botId" = VStr bid
       /\ handler w rq s
          = (respond 200 (WebhookBody (callback rq (nanoid (entropy w) 32))
                                      (toISOString expiry)),
             {| db := insert_webhook (db s) (issued w s uid bid expiry);
                ticks := S (S (ticks s));
                trace := trace s ++ [WebhookInsertIssued (VStr uid) (VStr bid)
                                       (nanoid (entropy w) 32) expiry
                                       (clock w (S (ticks s)))] |}).
Proof.
  destruct (String.eqb (method rq) "OPTIONS") eqn:Eo.
  { unfold handler. rewrite Eo. left. split; [discriminate|reflexivity]. }
  destruct (String.eqb (method rq) "POST") eqn:Ep.
  2:{ unfold handler. rewrite Eo, Ep. left. split; [discriminate|reflexivity]. }
  apply String.eqb_eq in Ep.
  destruct (truthy (SUPABASE_URL w)) eqn:Eu.
  2:{ unfold handler. rewrite Eo, Ep, Eu. left. split; [discriminate|reflexivity]. }
  destruct (truthy (SUPABASE_SERVICE_KEY w)) eqn:Ek.
  2:{ unfold handler. rewrite Eo, Ep, Eu, Ek. left. split; [discriminate|reflexivity]. }
  assert (Hc : configured w) by (split; assumption).
  destruct (json rq) as [body|] eqn:Hj.
  2:{ rewrite (@unparsed_outcome w rq s Hc Ep Hj). left. split; [discriminate|reflexivity]. }
  destruct (readable_value body) as [Hr|Hr].
  2:{ rewrite (@unreadable_outcome w rq s body Hc Ep Hj Hr). left. split; [discriminate|reflexivity]. }
  destruct (loggable_dec body) as [Hg|Hg].
  2:{ rewrite (@unloggable_outcome w rq s body Hc Ep Hj Hr Hg). left.
      split; [discriminate|reflexivity]. }
  destruct (truthy (lookup_of body "userId")) eqn:Tu.
  2:{ rewrite (@fieldless_outcome w rq s body Hc Ep Hj Hr Hg (or_introl Tu)). left.
      split; [discriminate|reflexivity]. }
  destruct (truthy (lookup_of body "botId")) eqn:Tb.
  2:{ rewrite (@fieldless_outcome w rq s body Hc Ep Hj Hr Hg (or_intror Tb)). left.
      split; [discriminate|reflexivity]. }
  rewrite (@generate_outcome w rq s body Hc Ep Hj Hg Tu Tb).
  destruct (expiration w (clock w (ticks s)) (days_of body)) as [expiry|].
  2:{ left. split; [discriminate|reflexivity]. }
  cbv zeta.
  destruct (db_fault w InsertWebhook).
  { left. destruct (lookup_of body "userId"), (lookup_of body "botId");
      (split; [discriminate|reflexivity]). }
  destruct (lookup_of body "userId") as [| | | |uid| |] eqn:Lu;
    try (left; split; [discriminate|reflexivity]).
  destruct (lookup_of body "botId") as [| | | |bid| |] eqn:Lb;
    try (left; split; [discriminate|reflexivity]).
  right. exists body, uid, bid, expiry. repeat split; try assumption; reflexivity.
Qed.

(** X17.  The tables the issuer leaves.  The handler answers 200 exactly
    when it has stored one webhook: the row carries the two identifiers
    of the body, the token of the returned URL and the expiry of the
    response.  With any other answer it has stored nothing. *)
Theorem issuer_answers_200_with_one_row_stored :
  forall (w : world) (rq : request) (s : state),
    let (r, s') := handler w rq s in
    (status r <> 200%Z /\ db s' = db s)
    \/ (status r = 200%Z
        /\ exists body uid bid expiry,
             json rq = Some body
             /\ lookup_of body "userId" = VStr uid
             /\ lookup_of body "botId" = VStr bid
             /\ db s' = insert_webhook (db s) (issued w s uid bid expiry)
             /\ content r = WebhookBody (callback rq (nanoid (entropy w) 32))
                                        (toISOString expiry)).
Proof.
  intros w rq s.
  destruct (issuer_runs w rq s) as [[H1 H2] | [body [uid [bid [expiry [Hj [Lu [Lb E]]]]]]]].
  - destruct (handler w rq s) as [r s']. left. split; assumption.
  - rewrite E. right. split; [reflexivity|].
    exists body, uid, bid, expiry. repeat split; assumption.
Qed.

Lemma time_clip_in_range (t : Z) : (Z.abs t <= 8640000000000000)%Z -> TimeClip t = Some t.
Proof.
  intros H. unfold TimeClip.
  destruct (Z.leb_spec (Z.abs t) 8640000000000000); [reflexivity|lia].
Qed.

Lemma time_clip_out_of_range (t : Z) : (8640000000000000 < Z.abs t)%Z -> TimeClip t = None.
Proof.
  intros H. unfold TimeClip.
  destruct (Z.leb_spec (Z.abs t) 8640000000000000); [lia|reflexivity].
Qed.

(** X18.  The expiry of a webhook.  With both identifiers given as texts
    and [expirationDays] a whole number [n] of days (absent counts as 30,
    [null] and [false] as 0, [true] as 1), the issuer stores one webhook
    and answers 200; the expiry is the issue instant moved by [n] days on
    the runtime's calendar, [n] times 86 400 000 ms where the zone offset
    is the same at both ends.  Nothing requires [n] to be positive. *)
Theorem webhook_expires_after_the_days_given :
  forall (w : world) (rq : request) (s : state) (body : value) (uid bid : string) (n : Z),
    configured w -> method rq = "POST" -> json rq = Some body ->
    lookup_of body "userId" = VStr uid -> uid <> "" ->
    lookup_of body "botId" = VStr bid -> bid <> "" ->
    db_fault w InsertWebhook = false ->
    days_given body n -> (- 2 ^ 52 < n < 2 ^ 52)%Z ->
    let D := clock w (ticks s) in
    let expiry := UTC (zone w) (LocalTime (zone w) D + n * msPerDay) in
    (Z.abs expiry <= 8640000000000000)%Z ->
    handler w rq s
    = (respond 200 (WebhookBody (callback rq (nanoid (entropy w) 32)) (toISOString expiry)),
       {| db := insert_webhook (db s) (issued w s uid bid expiry);
          ticks := S (S (ticks s));
          trace := trace s ++ [WebhookInsertIssued (VStr uid) (VStr bid)
                                 (nanoid (entropy w) 32) expiry (clock w (S (ticks s)))] |})
    /\ (tza_local (zone w) (LocalTime (zone w) D + n * msPerDay) = tza_utc (zone w) D ->
        expiry = (D + n * msPerDay)%Z).
Proof.
  intros w rq s body uid bid n Hc Hm Hj Lu Nu Lb Nb Hf Hg Hn D expiry Hclip.
  assert (Tu : truthy (lookup_of body "userId") = true).
  { rewrite Lu. simpl. apply negb_true_iff. now apply String.eqb_neq. }
  assert (Tb : truthy (lookup_of body "botId") = true).
  { rewrite Lb. simpl. apply negb_true_iff. now apply String.eqb_neq. }
  assert (Hl : loggable body).
  { unfold loggable. rewrite Lu, Lb. repeat split.
    unfold days_given in Hg. destruct (lookup_of body "expirationDays");
      try contradiction; reflexivity. }
  split.
  - rewrite (@generate_outcome w rq s body Hc Hm Hj Hl Tu Tb).
    rewrite (expiration_days w (clock w (ticks s)) body Hg Hn).
    fold D. fold expiry. rewrite (time_clip_in_range _ Hclip).
    cbv zeta. rewrite Hf, Lu, Lb. reflexivity.
  - intros Hz. unfold expiry, UTC. rewrite Hz. unfold LocalTime. lia.
Qed.

(** X19.  Days beyond the range of dates.  When the request has been
    logged and carries both identifiers, and the date moved by the days
    given falls outside the range of time values (8.64e15 ms either side
    of the epoch), printing the date throws a RangeError: the answer is
    500, after one reading of the clock, and no webhook is stored. *)
Theorem days_out_of_range_are_a_server_error :
  forall (w : world) (rq : request) (s : state) (body : value) (n : Z),
    configured w -> method rq = "POST" -> json rq = Some body ->
    loggable body ->
    truthy (lookup_of body "userId") = true ->
    truthy (lookup_of body "botId") = true ->
    days_given body n -> (- 2 ^ 52 < n < 2 ^ 52)%Z ->
    let D := clock w (ticks s) in
    let expiry := UTC (zone w) (LocalTime (zone w) D + n * msPerDay) in
    (8640000000000000 < Z.abs expiry)%Z ->
    handler w rq s
    = (respond 500 (ThrownBody RangeError),
       {| db := db s; ticks := S (ticks s); trace := trace s |}).
Proof.
  intros w rq s body n Hc Hm Hj Hl Tu Tb Hg Hn D expiry Hclip.
  rewrite (@generate_outcome w rq s body Hc Hm Hj Hl Tu Tb).
  rewrite (expiration_days w (clock w (ticks s)) body Hg Hn).
  fold D. fold expiry. rewrite (time_clip_out_of_range _ Hclip). reflexivity.
Qed.

Lemma webhook_expiry_witness :
  handler Samples.issuer_world MoreSamples.lapsed_request Samples.issuer_start
  = (respond 200
       (WebhookBody (callback MoreSamples.lapsed_request
                       (nanoid (entropy Samples.issuer_world) 32))
                    (toISOString 1699913600000)),
     {| db := insert_webhook (db Samples.issuer_start)
                (issued Samples.issuer_world Samples.issuer_start
                        "user-1" "bot-sim" 1699913600000);
        ticks := 2;
        trace := [WebhookInsertIssued (VStr "user-1") (VStr "bot-sim")
                    (nanoid (entropy Samples.issuer_world) 32)
                    1699913600000 1700000000001] |})
  /\ (0 = 0 -> 1699913600000 = 1700000000000 + -1 * msPerDay)%Z.
Proof.
  apply (@webhook_expires_after_the_days_given
           Samples.issuer_world MoreSamples.lapsed_request Samples.issuer_start
           (VObj [("userId", VStr "user-1"); ("botId", VStr "bot-sim");
                  ("expirationDays", VNum (of_Z (-1)))])
           "user-1" "bot-sim" (-1)%Z).
  - split; reflexivity.
  - reflexivity.
  - reflexivity.
  - reflexivity.
  - discriminate.
  - reflexivity.
  - discriminate.
  - reflexivity.
  - reflexivity.
  - lia.
  - vm_compute. discriminate.
Defined.

Lemma days_out_of_range_witness :
  handler Samples.issuer_world MoreSamples.endless_request Samples.issuer_start
  = (respond 500 (ThrownBody RangeError),
     {| db := db Samples.issuer_start; ticks := 1; trace := [] |}).
Proof.
  apply (@days_out_of_range_are_a_server_error
           Samples.issuer_world MoreSamples.endless_request Samples.issuer_start
           (VObj [("userId", VStr "user-1"); ("botId", VStr "bot-sim");
                  ("expirationDays", VNum (of_Z 200000000))])
           200000000%Z).
  - split; reflexivity.
  - reflexivity.
  - reflexivity.
  - repeat split; reflexivity.
  - reflexivity.
  - reflexivity.
  - reflexivity.
  - lia.
  - vm_compute. reflexivity.
Defined.

End IssueFacts.

Module TextFacts.
Import JSNumber JSString JSValue NumberFacts IntegerFacts IssueNotions.
Local Open Scope string_scope.

Lemma scan_digits_all (s : string) (acc cnt : Z) :
  all_digits s = true ->
  scan_digits s acc cnt = (decimal_value acc s, (cnt + Z.of_nat (String.length s))%Z, "").
Proof.
  revert acc cnt. induction s as [|c r IH]; intros acc cnt H.
  - simpl. f_equal. f_equal. lia.
  - simpl in H. apply andb_true_iff in H. destruct H as [Hc Hr].
    cbn [scan_digits decimal_value String.length]. rewrite Hc, (IH _ _ Hr).
    f_equal. f_equal. lia.
Qed.

Lemma all_digits_app (a b : string) :
  all_digits (a ++ b) = all_digits a && all_digits b.
Proof.
  induction a as [|c r IH]; simpl; [reflexivity|]. rewrite IH. apply andb_assoc.
Qed.

Lemma decimal_value_app (a b : string) (acc : Z) :
  decimal_value acc (a ++ b) = decimal_value (decimal_value acc a) b.
Proof. revert acc. induction a as [|c r IH]; intros acc; simpl; [reflexivity|]. apply IH. Qed.

Lemma scan_float_digits (t : string) :
  all_digits t = true -> t <> "" ->
  scan_float t = (to_double (inject_Z (decimal_value 0 t) * Qpower 10 (0 - 0)), "").
Proof.
  intros H Hne. destruct t as [|c r]; [contradiction|].
  pose proof (scan_digits_all (String c r) 0 0 H) as S.
  simpl in H. apply andb_true_iff in H. destruct H as [Hc Hr].
  destruct c as [[] [] [] [] [] [] [] []]; try (vm_compute in Hc; discriminate Hc).
  all: unfold scan_float; cbn [prefix]; cbv beta iota.
  all: match goal with
       | |- context [ascii_dec ?a ?b] => destruct (ascii_dec a b) as [X|_]; [discriminate X|]
       end.
  all: rewrite S; cbv beta iota zeta.
  all: match goal with
       | |- context [(?a =? 0)%Z] =>
           assert (E : (a =? 0)%Z = false)
             by (apply Z.eqb_neq; cbn [String.length]; lia);
           rewrite E
       end.
  all: reflexivity.
Qed.

Lemma digit_not_space (c : ascii) : is_digit c = true -> is_space c = false.
Proof.
  unfold is_digit, is_space. cbv zeta. set (n := N_of_ascii c). clearbody n.
  intros H. apply andb_true_iff in H. destruct H as [H1 H2].
  apply N.leb_le in H1. apply N.leb_le in H2.
  apply orb_false_iff. split.
  - apply N.eqb_neq. lia.
  - apply andb_false_iff. right. apply N.leb_gt. lia.
Qed.

(** ToNumber of a text of decimal digits. *)
Lemma toNumber_digits (t : string) :
  all_digits t = true -> t <> "" ->
  toNumber_text t = of_Z (decimal_value 0 t).
Proof.
  intros H Hne. unfold toNumber_text.
  assert (T : trim_start t = t).
  { destruct t as [|c r]; [reflexivity|]. simpl in H. apply andb_true_iff in H.
    simpl. now rewrite (digit_not_space c (proj1 H)). }
  rewrite T. cbv zeta. rewrite (scan_float_digits H Hne).
  destruct t as [|c r]; [contradiction|]. cbn [trim_start].
  unfold of_Z. apply to_double_eq. change (0 - 0)%Z with 0%Z.
  change (Qpower 10 0) with 1%Q. ring.
Qed.

Lemma decimal_value_bounds (s : string) (acc : Z) :
  all_digits s = true -> (0 <= acc)%Z ->
  (acc * 10 ^ Z.of_nat (String.length s) <= decimal_value acc s
   < (acc + 1) * 10 ^ Z.of_nat (String.length s))%Z.
Proof.
  revert acc. induction s as [|c r IH]; intros acc H Ha.
  - simpl. lia.
  - simpl in H. apply andb_true_iff in H. destruct H as [Hc Hr].
    assert (Hd : (0 <= digit_val c <= 9)%Z).
    { unfold is_digit in Hc. cbv zeta in Hc. unfold digit_val.
      apply andb_true_iff in Hc. destruct Hc as [H1 H2].
      apply N.leb_le in H1. apply N.leb_le in H2. lia. }
    cbn [decimal_value String.length].
    specialize (IH (10 * acc + digit_val c)%Z Hr ltac:(lia)).
    rewrite Nat2Z.inj_succ, Z.pow_succ_r by lia.
    set (p := (10 ^ Z.of_nat (String.length r))%Z) in *.
    assert (0 < p)%Z by (apply Z.pow_pos_nonneg; lia).
    nia.
Qed.

End TextFacts.

Module IssueTextFacts.

Import JSNumber JSString JSValue JSDate Http Database Eff GenerateWebhook.
Import WebhookNotions ValueFacts NumberFacts CalendarFacts WebhookFacts.
Import IntegerFacts IssueNotions IssueFacts TextFacts.
Local Open Scope string_scope.
Local Open Scope list_scope.

(** The day of the month prints as one or two digits. *)
Lemma date_digits (D : Z) :
  (1 <= D <= 31)%Z ->
  all_digits (digits (Z.to_N D)) = true
  /\ digits (Z.to_N D) <> ""
  /\ decimal_value 0 (digits (Z.to_N D)) = D.
Proof.
  intros H.
  assert (E : D = Z.of_nat (Z.to_nat D)) by lia.
  assert (B : (Z.to_nat D <= 31)%nat) by lia.
  set (k := Z.to_nat D) in *. clearbody k. subst D.
  do 32 (destruct k as [|k];
         [first [lia | vm_compute; repeat split; discriminate]|]).
  lia.
Qed.

(** Days given as a text of digits: [+] concatenates, and [setDate]
    reads the digits of the day of the month followed by those of the
    text. *)
Lemma expiration_text (w : world) (t : Z) (days : string) :
  all_digits days = true -> (String.length days <= 14)%nat ->
  let date := getDate (zone w) t in
  expiration w t (VStr days)
  = TimeClip (UTC (zone w)
                (LocalTime (zone w) t + (decimal_value date days - date) * msPerDay)).
Proof.
  intros Ha Hl date. unfold expiration, date_plus. cbn [to_text]. fold date.
  pose proof (DateFromTime_bounds (LocalTime (zone w) t)) as Hd.
  fold (getDate (zone w) t) in Hd. fold date in Hd.
  destruct (date_digits Hd) as [A1 [A2 A3]].
  assert (Hall : all_digits (digits (Z.to_N date) ++ days)%string = true)
    by (rewrite all_digits_app, A1, Ha; reflexivity).
  assert (Hne : (digits (Z.to_N date) ++ days)%string <> "").
  { destruct (digits (Z.to_N date)); [contradiction|discriminate]. }
  rewrite (toNumber_digits Hall Hne), decimal_value_app, A3.
  pose proof (@decimal_value_bounds days date Ha ltac:(lia)) as Hb.
  assert (Hp : (10 ^ Z.of_nat (String.length days) <= 10 ^ 14)%Z)
    by (apply Z.pow_le_mono_r; lia).
  assert (Hp0 : (0 < 10 ^ Z.of_nat (String.length days))%Z)
    by (apply Z.pow_pos_nonneg; lia).
  assert (Hm : (0 <= decimal_value date days < 2 ^ 53)%Z).
  { split; [nia|]. apply Z.lt_le_trans with (m := (32 * 10 ^ 14)%Z); [nia|].
    vm_compute. discriminate. }
  rewrite (of_Z_small Hm), truncate_int.
  replace (decimal_value date days) with (date + (decimal_value date days - date))%Z at 1 by lia.
  apply setDate_shift.
Qed.

(** X20.  Days given as a text.  When [expirationDays] arrives as a text
    of digits (as a form field does), the digits are appended to the day
    of the month and the date is set to that day: issued on the 14th,
    the text 30 gives day 1430 of the month, 1416 days ahead, not 30. *)
Theorem text_days_are_appended_to_the_date :
  forall (w : world) (rq : request) (s : state) (body : value) (uid bid days : string),
    configured w -> method rq = "POST" -> json rq = Some body ->
    lookup_of body "userId" = VStr uid -> uid <> "" ->
    lookup_of body "botId" = VStr bid -> bid <> "" ->
    db_fault w InsertWebhook = false ->
    lookup_of body "expirationDays" = VStr days ->
    all_digits days = true -> (String.length days <= 14)%nat ->
    let D := clock w (ticks s) in
    let date := getDate (zone w) D in
    let expiry := UTC (zone w)
                    (LocalTime (zone w) D + (decimal_value date days - date) * msPerDay) in
    (Z.abs expiry <= 8640000000000000)%Z ->
    handler w rq s
    = (respond 200 (WebhookBody (callback rq (nanoid (entropy w) 32)) (toISOString expiry)),
       {| db := insert_webhook (db s) (issued w s uid bid expiry);
          ticks := S (S (ticks s));
          trace := trace s ++ [WebhookInsertIssued (VStr uid) (VStr bid)
                                 (nanoid (entropy w) 32) expiry (clock w (S (ticks s)))] |}).
Proof.
  intros w rq s body uid bid days Hc Hm Hj Lu Nu Lb Nb Hf Ld Ha Hl D date expiry Hclip.
  assert (Tu : truthy (lookup_of body "userId") = true).
  { rewrite Lu. simpl. apply negb_true_iff. now apply String.eqb_neq. }
  assert (Tb : truthy (lookup_of body "botId") = true).
  { rewrite Lb. simpl. apply negb_true_iff. now apply String.eqb_neq. }
  assert (Hg : loggable body).
  { unfold loggable. rewrite Lu, Lb, Ld. repeat split. }
  rewrite (@generate_outcome w rq s body Hc Hm Hj Hg Tu Tb).
  assert (Hdays : days_of body = VStr days) by (unfold days_of; now rewrite Ld).
  rewrite Hdays, (expiration_text w (clock w (ticks s)) days Ha Hl).
  fold D. fold date. fold expiry. rewrite (time_clip_in_range _ Hclip).
  cbv zeta. rewrite Hf, Lu, Lb. reflexivity.
Qed.

Lemma text_days_witness :
  handler Samples.issuer_world MoreSamples.text_request Samples.issuer_start
  = (respond 200
       (WebhookBody (callback MoreSamples.text_request
                       (nanoid (entropy Samples.issuer_world) 32))
                    (toISOString 1822342400000)),
     {| db := insert_webhook (db Samples.issuer_start)
                (issued Samples.issuer_world Samples.issuer_start
                        "user-1" "bot-sim" 1822342400000);
        ticks := 2;
        trace := [WebhookInsertIssued (VStr "user-1") (VStr "bot-sim")
                    (nanoid (entropy Samples.issuer_world) 32)
                    1822342400000 1700000000001] |}).
Proof.
  apply (@text_days_are_appended_to_the_date
           Samples.issuer_world MoreSamples.text_request Samples.issuer_start
           (VObj [("userId", VStr "user-1"); ("botId", VStr "bot-sim");
                  ("expirationDays", VStr "30")])
           "user-1" "bot-sim" "30").
  - split; reflexivity.
  - reflexivity.
  - reflexivity.
  - reflexivity.
  - discriminate.
  - reflexivity.
  - discriminate.
  - reflexivity.
  - reflexivity.
  - reflexivity.
  - simpl. lia.
  - vm_compute. discriminate.
Defined.

(** That request, issued on 2023-11-14: the webhook runs until 2027. *)
Example text_days_run :
  fst (handler Samples.issuer_world MoreSamples.text_request Samples.issuer_start)
  = respond 200
      (WebhookBody
         "https://bot.example/.netlify/functions/processAlert/Tb5yYnO8hJiNm_0lKuU6Z7wRaW9gxrIo"
         "2027-09-30T22:13:20.000Z").
Proof. vm_compute. reflexivity. Qed.

End IssueTextFacts.

(* ================================================================== *)
(** * From the issuer to the processor *)
(* ================================================================== *)

Module RoundTripFacts.

Import JSNumber JSString JSValue JSDate Http Database Eff.
Import ValueFacts AlertFacts WebhookFacts IssueNotions IssueFacts StatusFacts.
Local Open Scope string_scope.
Local Open Scope list_scope.

Lemma append_cancel (a b c : string) : (a ++ b = a ++ c)%string -> b = c.
Proof. induction a as [|x a IH]; simpl; intros H; [exact H|]. inversion H. auto. Qed.

(** Insert, then select: a row stored under a token no other row
    carries is found until it expires. *)
Lemma select_after_insert (d : database) (row : webhook_row) (now : Z) :
  (forall other, In other (webhooks d) -> webhook_token other <> webhook_token row) ->
  select_webhook (insert_webhook d row) (webhook_token row) now
  = if (now <? expires_at row)%Z then Some (row, embedded_bot d row) else None.
Proof.
  intros Hnew. unfold select_webhook, insert_webhook. cbn [webhooks].
  rewrite filter_app, filter_none.
  - cbn [filter app]. rewrite String.eqb_refl. cbn [andb].
    destruct (now <? expires_at row)%Z; reflexivity.
  - intros other Hin. apply andb_false_iff. left.
    apply String.eqb_neq. now apply Hnew.
Qed.

(** X21.  From the issuer to the processor.  A webhook issued under a
    token no stored webhook carries is resolved by the alert processor,
    posted to at the returned URL, from the moment it is stored until
    the expiry the issuer answered: the processor answers 404 exactly
    when its clock has reached that expiry. *)
Theorem issued_webhook_resolves_until_it_expires :
  forall (gw : GenerateWebhook.world) (rq : request) (gs : GenerateWebhook.state)
         (aw : ProcessAlert.world) (alert : request) (s : ProcessAlert.state)
         (url expiresAt : string),
    fst (GenerateWebhook.handler gw rq gs)
    = GenerateWebhook.respond 200 (WebhookBody url expiresAt) ->
    (forall row, In row (webhooks (GenerateWebhook.db gs)) ->
                 webhook_token row <> GenerateWebhook.nanoid (GenerateWebhook.entropy gw) 32) ->
    AlertNotions.configured aw -> method alert = "POST" ->
    (origin rq ++ pathname alert)%string = url ->
    ProcessAlert.db s = GenerateWebhook.db (snd (GenerateWebhook.handler gw rq gs)) ->
    ProcessAlert.db_fault aw SelectWebhook = false ->
    exists expiry,
      expiresAt = toISOString expiry
      /\ (status (fst (ProcessAlert.handler aw alert s)) = 404%Z
          <-> (expiry <= ProcessAlert.clock aw (ProcessAlert.ticks s))%Z).
Proof.
  intros gw rq gs aw alert s url expiresAt Hr Hnew Hc Hm Hurl Hdb Hf.
  destruct (issuer_runs gw rq gs)
    as [[H1 _] | [body [uid [bid [expiry [Hj [Lu [Lb E]]]]]]]].
  { rewrite Hr in H1. exfalso. apply H1. reflexivity. }
  rewrite E in Hr, Hdb. cbn [fst snd GenerateWebhook.db] in Hr, Hdb.
  unfold GenerateWebhook.respond in Hr. inversion Hr as [[Hu He]].
  exists expiry. split; [reflexivity|].
  assert (Hp : pathname alert
               = ("/.netlify/functions/processAlert/"
                  ++ GenerateWebhook.nanoid (GenerateWebhook.entropy gw) 32)%string).
  { rewrite <- Hurl in Hu. unfold callback in Hu. apply append_cancel in Hu. now symmetry. }
  assert (Hs : last_segment (pathname alert)
               = GenerateWebhook.nanoid (GenerateWebhook.entropy gw) 32).
  { rewrite Hp. exact (callback_url_segment gw ""). }
  assert (Hl : AlertNotions.webhook_lookup aw alert s
               = if (ProcessAlert.clock aw (ProcessAlert.ticks s) <? expiry)%Z
                 then Some (issued gw gs uid bid expiry,
                            embedded_bot (GenerateWebhook.db gs) (issued gw gs uid bid expiry))
                 else None).
  { unfold AlertNotions.webhook_lookup. rewrite Hf, Hs, Hdb.
    exact (select_after_insert (GenerateWebhook.db gs) (issued gw gs uid bid expiry)
             (ProcessAlert.clock aw (ProcessAlert.ticks s)) Hnew). }
  destruct (@handler_status aw alert s Hc Hm) as [code [Ec Hcode]].
  rewrite Ec. rewrite Hl in Hcode.
  destruct (Z.ltb_spec (ProcessAlert.clock aw (ProcessAlert.ticks s)) expiry) as [L|L].
  - split; [|lia]. intros ->.
    destruct (AlertNotions.key_lookup aw s _); [destruct Hcode|]; discriminate.
  - split; [intros _; exact L|intros _; exact Hcode].
Qed.

Lemma issued_webhook_witness :
  exists expiry,
    "2023-12-14T22:13:20.000Z" = toISOString expiry
    /\ (status (fst (ProcessAlert.handler
                       (Samples.alert_world Samples.no_fault Samples.ticking)
                       MoreSamples.issued_alert MoreSamples.issued_start)) = 404%Z
        <-> (expiry <= 1700000000000)%Z).
Proof.
  apply (@issued_webhook_resolves_until_it_expires
           Samples.issuer_world Samples.issue_request Samples.issuer_start
           (Samples.alert_world Samples.no_fault Samples.ticking)
           MoreSamples.issued_alert MoreSamples.issued_start
           "https://bot.example/.netlify/functions/processAlert/Tb5yYnO8hJiNm_0lKuU6Z7wRaW9gxrIo"
           "2023-12-14T22:13:20.000Z").
  - vm_compute. reflexivity.
  - intros row [<-|[<-|[<-|[]]]]; vm_compute; discriminate.
  - split; reflexivity.
  - reflexivity.
  - reflexivity.
  - reflexivity.
  - reflexivity.
Defined.

(** The alert posted to the URL just issued is served. *)
Example issued_webhook_run :
  fst (ProcessAlert.handler (Samples.alert_world Samples.no_fault Samples.ticking)
         MoreSamples.issued_alert MoreSamples.issued_start)
  = ProcessAlert.respond 200
      (OrderBody (VStr "test-1700000000001") (VStr "TEST_ORDER") (VBool true)).
Proof. vm_compute. reflexivity. Qed.

End RoundTripFacts.

(* ================================================================== *)
(** * Properties of the trade history page *)
(* ================================================================== *)

Module HistoryFacts.

Import JSString TradeHistory.
Local Open Scope string_scope.
Local Open Scope list_scope.

Lemma lower_upper_char (c : ascii) : lower_char (upper_char c) = lower_char c.
Proof. destruct c as [[] [] [] [] [] [] [] []]; vm_compute; reflexivity. Qed.

Lemma lower_lower_char (c : ascii) : lower_char (lower_char c) = lower_char c.
Proof. destruct c as [[] [] [] [] [] [] [] []]; vm_compute; reflexivity. Qed.

Lemma lower_upper (s : string) : toLowerCase (toUpperCase s) = toLowerCase s.
Proof. induction s as [|c r IH]; simpl; [reflexivity|]. now rewrite lower_upper_char, IH. Qed.

Lemma lower_lower (s : string) : toLowerCase (toLowerCase s) = toLowerCase s.
Proof. induction s as [|c r IH]; simpl; [reflexivity|]. now rewrite lower_lower_char, IH. Qed.

Lemma lower_empty (s : string) : toLowerCase s = "" -> s = "".
Proof. destruct s; [reflexivity|discriminate]. Qed.

(** X22.  The search ignores the case of letters.  Two search terms that
    differ only in the case of their (ASCII) letters show the same
    trades; so do a term and its upper-case or lower-case form. *)
Theorem search_ignores_case :
  forall (term term' symbolFilter botFilter : string) (trades : list Trade),
    toLowerCase term = toLowerCase term' ->
    filteredTrades term symbolFilter botFilter trades
    = filteredTrades term' symbolFilter botFilter trades.
Proof.
  intros term term' sf bf trades H. unfold filteredTrades.
  apply filter_ext. intros t. unfold shown. rewrite H.
  assert (E : String.eqb term "" = String.eqb term' "").
  { destruct (String.eqb_spec term ""), (String.eqb_spec term' ""); try reflexivity; subst.
    - symmetry in H. apply lower_empty in H. contradiction.
    - apply lower_empty in H. contradiction. }
  now rewrite E.
Qed.

Lemma search_ignores_case_witness :
  filteredTrades "BTC" "" "" HistorySamples.history
  = filteredTrades "btc" "" "" HistorySamples.history.
Proof.
  apply (@search_ignores_case "BTC" "btc" "" "" HistorySamples.history).
  reflexivity.
Defined.

Lemma filter_twice {A} (p q : A -> bool) (l : list A) :
  filter p (filter q l) = filter (fun x => q x && p x) l.
Proof.
  induction l as [|a l IH]; simpl; [reflexivity|].
  destruct (q a); simpl; [destruct (p a)|]; now rewrite IH.
Qed.

Lemma shown_splits (term sf bf : string) (t : Trade) :
  shown term sf bf t = shown term "" "" t && shown "" sf "" t && shown "" "" bf t.
Proof.
  unfold shown. cbn [String.eqb orb andb].
  rewrite !andb_true_r.
  reflexivity.
Qed.

(** X23.  The three filters compose.  Filtering by the search term, the
    symbol and the bot at once is filtering by each in turn, in either
    order; with the three filters empty every trade is shown. *)
Theorem trade_filters_compose :
  forall (term symbolFilter botFilter : string) (trades : list Trade),
    filteredTrades term symbolFilter botFilter trades
    = filteredTrades "" "" botFilter
        (filteredTrades "" symbolFilter "" (filteredTrades term "" "" trades))
    /\ filteredTrades term symbolFilter botFilter trades
       = filteredTrades term "" ""
           (filteredTrades "" symbolFilter "" (filteredTrades "" "" botFilter trades))
    /\ filteredTrades "" "" "" trades = trades.
Proof.
  intros term sf bf trades. unfold filteredTrades. rewrite !filter_twice. repeat split.
  - apply filter_ext. intros t. rewrite (shown_splits term sf bf t).
    destruct (shown term "" "" t), (shown "" sf "" t), (shown "" "" bf t); reflexivity.
  - apply filter_ext. intros t. rewrite (shown_splits term sf bf t).
    destruct (shown term "" "" t), (shown "" sf "" t), (shown "" "" bf t); reflexivity.
  - induction trades as [|t l IH]; simpl; [reflexivity|]. now rewrite IH.
Qed.

Lemma existsb_symbols (x : string) (acc : list string) :
  existsb (String.eqb x) acc = true <-> In x acc.
Proof.
  rewrite existsb_exists. split.
  - intros [y [Hy E]]. apply String.eqb_eq in E. now subst.
  - intros H. exists x. split; [exact H|apply String.eqb_refl].
Qed.

Lemma existsb_options (i : string) (acc : list bot_option) :
  existsb (fun bot => String.eqb (option_id bot) i) acc = true
  <-> In i (map option_id acc).
Proof.
  rewrite existsb_exists, in_map_iff. split.
  - intros [b [Hb E]]. apply String.eqb_eq in E. now exists b.
  - intros [b [E Hb]]. exists b. split; [exact Hb|now apply String.eqb_eq].
Qed.

Lemma symbols_from (trades : list Trade) (acc : list string) :
  NoDup acc ->
  NoDup (fold_left add_symbol trades acc)
  /\ forall x, In x (fold_left add_symbol trades acc)
               <-> In x acc \/ In x (map symbol trades).
Proof.
  revert acc. induction trades as [|t l IH]; intros acc Hn; simpl.
  - split; [exact Hn|]. intros x. tauto.
  - assert (Hn' : NoDup (add_symbol acc t)).
    { unfold add_symbol. destruct (existsb _ acc) eqn:E; [exact Hn|].
      apply NoDup_app; [exact Hn|repeat constructor; intros []|].
      intros x Hx [<-|[]]. apply existsb_symbols in Hx. congruence. }
    destruct (IH _ Hn') as [N M]. split; [exact N|].
    intros x. rewrite M. unfold add_symbol.
    destruct (existsb _ acc) eqn:E.
    + apply existsb_symbols in E. split; [tauto|].
      intros [H|[<-|H]]; auto.
    + rewrite in_app_iff. simpl. tauto.
Qed.

Lemma bots_from (trades : list Trade) (acc : list bot_option) :
  NoDup (map option_id acc) ->
  NoDup (map option_id (fold_left add_bot trades acc))
  /\ (forall i, In i (map option_id (fold_left add_bot trades acc))
                <-> In i (map option_id acc) \/ (i <> "" /\ In i (map bot_id trades)))
  /\ (forall b, In b (fold_left add_bot trades acc) ->
        In b acc
        \/ exists pre t post,
             trades = pre ++ t :: post
             /\ option_id b = bot_id t /\ option_name b = bot_name t
             /\ ~ In (bot_id t) (map option_id acc)
             /\ forall t', In t' pre -> bot_id t' <> bot_id t).
Proof.
  revert acc. induction trades as [|t l IH]; intros acc Hn; simpl.
  - split; [exact Hn|]. split; [intros i; tauto|]. intros b Hb. now left.
  - assert (Hsub : forall i, In i (map option_id acc) -> In i (map option_id (add_bot acc t))).
    { intros i Hi. unfold add_bot. destruct (_ && _); [|exact Hi].
      rewrite map_app, in_app_iff. now left. }
    assert (Hseen : bot_id t <> "" -> In (bot_id t) (map option_id (add_bot acc t))).
    { intros Hne. unfold add_bot.
      destruct (String.eqb_spec (bot_id t) ""); [contradiction|]. cbn [negb andb].
      destruct (existsb _ acc) eqn:E; cbn [negb].
      - now apply existsb_options.
      - rewrite map_app, in_app_iff. right. now left. }
    assert (Hn' : NoDup (map option_id (add_bot acc t))).
    { unfold add_bot. destruct (negb (String.eqb (bot_id t) "")); cbn [andb]; [|exact Hn].
      destruct (existsb _ acc) eqn:E; cbn [negb]; [exact Hn|].
      rewrite map_app. apply NoDup_app; [exact Hn|repeat constructor; intros []|].
      intros x Hx [<-|[]]. apply existsb_options in Hx. simpl in Hx. congruence. }
    destruct (IH _ Hn') as [N [M F]]. split; [exact N|]. split.
    + intros i. rewrite M. unfold add_bot.
      destruct (String.eqb_spec (bot_id t) "") as [Ez|Ez]; cbn [negb andb].
      * split; [intros [H|[H1 H2]]; auto|].
        intros [H|[H1 [H2|H2]]]; auto. congruence.
      * destruct (existsb _ acc) eqn:E; cbn [negb].
        -- apply existsb_options in E. split; [intros [H|[H1 H2]]; auto|].
           intros [H|[H1 [H2|H2]]]; auto. subst i. now left.
        -- rewrite map_app, in_app_iff. simpl. split.
           ++ intros [[H|[H|[]]]|[H1 H2]]; auto. subst i. right. split; auto.
           ++ intros [H|[H1 [H2|H2]]]; auto.
    + intros b Hb. destruct (F b Hb) as [Hacc | [pre [t0 [post [E [I1 [I2 [I3 I4]]]]]]]].
      * unfold add_bot in Hacc.
        destruct (String.eqb_spec (bot_id t) "") as [Ez|Ez]; cbn [negb andb] in Hacc;
          [now left|].
        destruct (existsb _ acc) eqn:Ex; cbn [negb] in Hacc; [now left|].
        apply in_app_or in Hacc. destruct Hacc as [Hacc|[<-|[]]]; [now left|].
        right. exists [], t, l. repeat split; try reflexivity.
        -- intros Hin. apply existsb_options in Hin. congruence.
        -- intros t' [].
      * right. exists (t :: pre), t0, post. subst l. repeat split; try assumption.
        -- intros Hin. apply I3. now apply Hsub.
        -- intros t' [<-|Ht']; [|now apply I4].
           intros Eq. apply I3. rewrite <- Eq. apply Hseen.
           rewrite Eq. intros Z0. apply I3.
           exfalso.
           assert (In (option_id b) (map option_id (fold_left add_bot (pre ++ t0 :: post) (add_bot acc t))))
             by (apply in_map; exact Hb).
           apply M in H. rewrite I1, Z0 in H. destruct H as [H|[H _]]; [|congruence].
           rewrite <- Z0 in H. contradiction.
Qed.

(** X24.  The bot filter.  The entries of the bot filter carry each bot
    of the trades once, trades without a bot apart; an entry carries the
    name found on the first trade of its bot. *)
Theorem bot_filter_lists_each_bot_once :
  forall trades : list Trade,
    NoDup (map option_id (uniqueBots trades))
    /\ (forall i, In i (map option_id (uniqueBots trades))
                  <-> i <> "" /\ In i (map bot_id trades))
    /\ (forall b, In b (uniqueBots trades) ->
          exists pre t post,
            trades = pre ++ t :: post
            /\ option_id b = bot_id t /\ option_name b = bot_name t
            /\ forall t', In t' pre -> bot_id t' <> bot_id t).
Proof.
  intros trades. unfold uniqueBots.
  destruct (@bots_from trades [] (NoDup_nil _)) as [N [M F]].
  split; [exact N|]. split.
  - intros i. rewrite M. simpl. tauto.
  - intros b Hb. destruct (F b Hb) as [[]|[pre [t [post [E [I1 [I2 [_ I4]]]]]]]].
    exists pre, t, post. repeat split; assumption.
Qed.

(** X25.  The symbol filter.  The entries of the symbol filter are the
    symbols of the trades, each once. *)
Theorem symbol_filter_lists_each_symbol_once :
  forall trades : list Trade,
    NoDup (uniqueSymbols trades)
    /\ forall x, In x (uniqueSymbols trades) <-> In x (map symbol trades).
Proof.
  intros trades. unfold uniqueSymbols.
  destruct (@symbols_from trades [] (NoDup_nil _)) as [N M].
  split; [exact N|]. intros x. rewrite M. simpl. tauto.
Qed.


Lemma bot_filter_witness :
  exists pre t post,
    HistorySamples.history = pre ++ t :: post
    /\ "bot-live" = bot_id t /\ "Breakout" = bot_name t
    /\ forall t', In t' pre -> bot_id t' <> bot_id t.
Proof.
  apply (proj2 (proj2 (bot_filter_lists_each_bot_once HistorySamples.history))
               {| option_id := "bot-live"; option_name := "Breakout" |}).
  vm_compute. auto.
Defined.

Lemma symbol_filter_witness : In "ETHUSDT" (uniqueSymbols HistorySamples.history).
Proof.
  apply (proj2 (proj2 (symbol_filter_lists_each_symbol_once HistorySamples.history)
                      "ETHUSDT")).
  simpl. auto.
Defined.


(** X27.  Names in the bot filter.  Of the rows the query returns, with
    the bot's name missing, [null] or empty, every trade shown and every
    entry of the bot filter carries a name that is not empty:
    [Unknown] stands in. *)
Theorem listed_bots_have_a_name :
  forall (data : option (list fetched)),
    (forall t, In t (tradesWithBotNames data) -> bot_name t <> "")
    /\ (forall b, In b (uniqueBots (tradesWithBotNames data)) -> option_name b <> "").
Proof.
  intros data.
  assert (H : forall t, In t (tradesWithBotNames data) -> bot_name t <> "").
  { intros t Ht. destruct data as [rows|]; [|contradiction].
    simpl in Ht. apply in_map_iff in Ht. destruct Ht as [row [<- _]].
    unfold with_bot_name. cbn [bot_name].
    destruct (bots row) as [name|]; [|discriminate].
    destruct (String.eqb_spec name ""); [discriminate|assumption]. }
  split; [exact H|].
  intros b Hb. unfold uniqueBots in Hb.
  apply (proj2 (proj2 (@bots_from (tradesWithBotNames data) [] (NoDup_nil _)))) in Hb.
  destruct Hb as [[]|[pre [t [post [E [_ [I2 _]]]]]]].
  rewrite I2. apply H. rewrite E. apply in_or_app. right. now left.
Qed.

Lemma listed_bots_witness :
  option_name {| option_id := "bot-live"; option_name := "Unknown" |} <> "".
Proof.
  apply (proj2 (listed_bots_have_a_name (Some HistorySamples.rows))
               {| option_id := "bot-live"; option_name := "Unknown" |}).
  vm_compute. auto.
Defined.

End HistoryFacts.
